(** * ExcelAIAnalyzer: the normalisation / classification / insight / prediction core

    A shallow embedding of [utilities.py]: [detect_excel_structure],
    [analyze_excel_data], [classify_transactions], [generate_ai_insights] and
    [generate_financial_predictions].

    Modelling conventions.
    - Text is a [string] of UTF-8 bytes.  Python compares and searches text by
      code point; on well-formed UTF-8 the byte-wise substring test and the
      byte-wise lexicographic order coincide with the code-point ones.
    - A number is the exact rational [Qc] that the int or the float equals;
      the float [nan] is the separate cell [CNaN].  pandas holds a number as
      an int64 or as a float64, and its sums, differences and absolute
      values wrap around or round off where the ones here are exact.  The
      two agree on whole numbers whose magnitudes add up to less than 2^53
      ([whole_amounts]), and a theorem that states the value of a sum or of
      a difference assumes that of the amounts it is about.  The predictor
      divides and multiplies floats, where rounding cannot be assumed away:
      that arithmetic is the library's ([float_add], [float_sub],
      [float_mul], [float_div] of [PyLib]).  Infinities are outside the
      model.
    - A pandas [Timestamp] is its count of nanoseconds since the epoch, an
      int64 between [timestamp_min] (in September 1677) and [timestamp_max]
      (in April 2262).  A date computation that would leave this range
      raises: [pd.date_range] when its first day falls before
      [timestamp_min], the monthly grouping and [last_date +
      pd.DateOffset(months=i)] when a month end they need lies outside.
    - A [DataFrame] is its column labels, in the order of [df.columns],
      together with its rows; a row maps a label to a cell (a label a row
      lacks reads as [nan]).  The index is the default [RangeIndex].
    - Functions of the Python and pandas libraries whose code is not part of
      this repository (case folding, number and date parsing and printing) are
      the operations of the class [PyLib]; every general theorem holds for
      every implementation of them.  [pd.to_numeric] and [pd.to_datetime]
      convert a column cell by cell.
    - [datetime.now()] is an explicit argument [now].
    - A call that raises returns [Raise].
    - A label may head several columns of a frame.  [data[c]] then selects a
      frame of all of them; [analyze_excel_data], which goes on with one
      column, raises ([getcolumn]).  A row keeps one cell per label: what
      the aggregator and the predictor make of a label that heads several
      columns is outside the model, and the theorems about them that depend
      on it ask for pairwise distinct labels.
    - [generate_financial_predictions] assigns to a column of the frame it is
      given; it returns its dict together with the frame as the call leaves
      it.  The other functions only read their arguments. *)

From Stdlib Require Import Ascii String QArith Qcanon Qcabs OrderedTypeEx.
From stdpp Require Import gmap strings list fin_maps numbers pretty.

Open Scope string_scope.
Open Scope Z_scope.
Open Scope list_scope.

(** ** Cells, rows and frames *)

Definition Timestamp := Z.

Inductive cell :=
| CNone                      (* None *)
| CNaN                       (* float('nan') *)
| CNaT                       (* pd.NaT *)
| CNum (q : Qc)              (* an int or a finite float *)
| CStr (s : string)          (* a str *)
| CDate (t : Timestamp).     (* a Timestamp *)

Global Instance cell_eq_dec : EqDecision cell.
Proof. unfold Timestamp. solve_decision. Defined.

Global Instance cell_inhabited : Inhabited cell := populate CNaN.

Record DataFrame := mkDataFrame {
  df_columns : list string;
  df_rows : list (gmap string cell)
}.

Global Instance DataFrame_eq_dec : EqDecision DataFrame.
Proof. solve_decision. Defined.

(** [row[c]] for a label the frame has. *)
Definition row_get (r : gmap string cell) (c : string) : cell :=
  default CNaN (r !! c).

(** [len(df)] *)
Definition df_len (df : DataFrame) : nat := length (df_rows df).

(** [df.empty]: some axis has length 0. *)
Definition df_empty (df : DataFrame) : bool :=
  bool_decide (df_columns df = []) || bool_decide (df_rows df = []).

(** [pd.isna(x)] *)
Definition isna (c : cell) : bool :=
  match c with
  | CNone | CNaN | CNaT => true
  | _ => false
  end.

(** ** Exceptions *)

(** The outcome of a call: a value, or an exception that escapes it (which
    exception is not recorded). *)
Inductive result (A : Type) :=
| Ok (a : A)
| Raise.
Arguments Ok {A} a.
Arguments Raise {A}.

Global Instance result_eq_dec {A} `{EqDecision A} : EqDecision (result A).
Proof. solve_decision. Defined.

(** Sequencing: the first exception ends the computation. *)
Definition result_bind {A B} (r : result A) (f : A → result B) : result B :=
  match r with
  | Ok a => f a
  | Raise => Raise
  end.

Notation "'do' x <- r ; k" := (result_bind r (λ x, k))
  (at level 10, x name, r at level 100, k at level 200).

(** [df[c]]: the column as a list of cells; [KeyError] for an unknown label. *)
Definition getitem (df : DataFrame) (c : string) : result (list cell) :=
  if bool_decide (c ∈ df_columns df)
  then Ok ((λ r, row_get r c) <$> df_rows df)
  else Raise.

(** [df[c]] where the code goes on with a single column (it assigns it to
    one column of another frame, or hands it to [pd.to_numeric]): for a label
    that heads several columns [df[c]] is a frame of them, and the assignment
    raises [ValueError], [pd.to_numeric] raises [TypeError]. *)
Definition getcolumn (df : DataFrame) (c : string) : result (list cell) :=
  if bool_decide (length (filter (λ x, x = c) (df_columns df)) = 1%nat)
  then Ok ((λ r, row_get r c) <$> df_rows df)
  else Raise.

(** ** Library functions *)

Class PyLib := {
  (** [s.lower()] *)
  str_lower : string → string;
  (** [str(x)] of a number *)
  str_of_num : Qc → string;
  (** [str(t)] of a Timestamp *)
  str_of_date : Timestamp → string;
  (** [format(x, '.2f')] *)
  format_2f : Qc → string;
  (** [pd.to_numeric] on one text cell with [errors='coerce'];
      [None] is [nan] *)
  numeric_of_str : string → option Qc;
  (** [pd.to_numeric] on one Timestamp cell *)
  numeric_of_date : Timestamp → option Qc;
  (** [pd.to_datetime] on one text cell with [errors='coerce'];
      [None] is [NaT] *)
  datetime_of_str : string → option Timestamp;
  (** [pd.to_datetime] on one numeric cell *)
  datetime_of_num : Qc → option Timestamp;
  (** [x + y], [x - y], [x * y] and [x / y] on two floats: the exact result
      rounded to a float *)
  float_add : Qc → Qc → Qc;
  float_sub : Qc → Qc → Qc;
  float_mul : Qc → Qc → Qc;
  float_div : Qc → Qc → Qc;
  (** Whether [datetime.now() + pd.DateOffset(months=i)], at the time [now],
      is a date the library can hold; the sum raises when it is not.  The
      limit depends on the version of pandas: where the sum is a Timestamp of
      nanoseconds it lies in April 2262, where it keeps the resolution of
      [datetime] it is the end of the year 9999. *)
  clock_offset_fits : Timestamp → Z → bool
}.

(** [needle in hay] on text. *)
Fixpoint str_in (needle hay : string) : bool :=
  String.prefix needle hay ||
  match hay with
  | EmptyString => false
  | String _ rest => str_in needle rest
  end.

(** ** The civil calendar *)

Definition ns_per_day : Z := 86400 * 1000000000.

(** [pd.Timestamp.max] and [pd.Timestamp.min]: 2262-04-11 23:47:16.854775807
    and 1677-09-21 00:12:43.145224193. *)
Definition timestamp_max : Z := 9223372036854775807.
Definition timestamp_min : Z := -9223372036854775807.

(** Days since 1970-01-01 of the civil date [y]-[m]-[d]. *)
Definition days_from_civil (y m d : Z) : Z :=
  let y' := if m <=? 2 then y - 1 else y in
  let era := y' `div` 400 in
  let yoe := y' - era * 400 in
  let mp := if 2 <? m then m - 3 else m + 9 in
  let doy := (153 * mp + 2) `div` 5 + d - 1 in
  let doe := yoe * 365 + yoe `div` 4 - yoe `div` 100 + doy in
  era * 146097 + doe - 719468.

(** Year and month (1..12) of the day [z] days after 1970-01-01. *)
Definition civil_from_days (z : Z) : Z * Z :=
  let z' := z + 719468 in
  let era := z' `div` 146097 in
  let doe := z' - era * 146097 in
  let yoe := (doe - doe `div` 1460 + doe `div` 36524 - doe `div` 146096) `div` 365 in
  let doy := doe - (365 * yoe + yoe `div` 4 - yoe `div` 100) in
  let mp := (5 * doy + 2) `div` 153 in
  let m := if mp <? 10 then mp + 3 else mp - 9 in
  let y := yoe + era * 400 in
  (if m <=? 2 then y + 1 else y, m).

(** The calendar month of a Timestamp, counted from month 0 = January of
    year 0: the key of its month-end bucket. *)
Definition month_index (t : Timestamp) : Z :=
  let '(y, m) := civil_from_days (t `div` ns_per_day) in
  y * 12 + (m - 1).

(** April 2262, the month of [timestamp_max]: the last day of that month,
    and any day of a later month, is no Timestamp. *)
Definition month_limit : Z := 2262 * 12 + 3.

(** October 1677: the end of the month before it is the earliest end of a
    month that is a Timestamp. *)
Definition month_floor : Z := 1677 * 12 + 9.

(** The decimal digit of [n] at the units place, as a character. *)
Definition digit_char (n : Z) : ascii :=
  ascii_of_N (48 + Z.to_N (n `mod` 10)).

(** [n] in two, and in four, zero-padded decimal digits. *)
Definition two_digits (n : Z) : string :=
  String (digit_char (n `div` 10)) (String (digit_char n) "").
Definition four_digits (n : Z) : string :=
  String (digit_char (n `div` 1000)) (String (digit_char (n `div` 100)) (two_digits n)).

(** [t.strftime('%Y-%m')] for a Timestamp in month [mi], for the years of
    four digits. *)
Definition strftime_Ym (mi : Z) : string :=
  four_digits (mi `div` 12) +:+ "-" +:+ two_digits (mi `mod` 12 + 1).

(** ** An executable instance of the library

    It folds ASCII case, reads plain decimal integers and ISO [YYYY-MM-DD]
    dates and prints numbers with two decimals; what it cannot read is
    unparsable.  It rounds the result of an operation on floats to the
    nearest float of 53 significant bits, and it adds months to the clock as
    long as the month stays before [month_limit].  It serves to run the
    model on concrete tables. *)

Definition ascii_lower (a : ascii) : ascii :=
  let n := nat_of_ascii a in
  if (65 <=? n)%nat && (n <=? 90)%nat then ascii_of_nat (n + 32) else a.

Fixpoint lower_ascii (s : string) : string :=
  match s with
  | EmptyString => EmptyString
  | String a rest => String (ascii_lower a) (lower_ascii rest)
  end.

Definition digit_of_ascii (a : ascii) : option Z :=
  let n := nat_of_ascii a in
  if (48 <=? n)%nat && (n <=? 57)%nat then Some (Z.of_nat (n - 48)) else None.

Fixpoint digits_value (acc : Z) (s : string) : option Z :=
  match s with
  | EmptyString => Some acc
  | String a rest =>
      match digit_of_ascii a with
      | Some d => digits_value (10 * acc + d) rest
      | None => None
      end
  end.

Definition natural_of_str (s : string) : option Z :=
  match s with
  | EmptyString => None
  | _ => digits_value 0 s
  end.

Definition integer_of_str (s : string) : option Z :=
  match s with
  | String "-" rest => Z.opp <$> natural_of_str rest
  | _ => natural_of_str s
  end.

Definition Qc_of_Z (z : Z) : Qc := Q2Qc (inject_Z z).

Definition iso_date_of_str (s : string) : option Timestamp :=
  if bool_decide (String.length s = 10%nat ∧ String.get 4 s = Some "-"%char
                  ∧ String.get 7 s = Some "-"%char)
  then
    y ← natural_of_str (String.substring 0 4 s);
    m ← natural_of_str (String.substring 5 2 s);
    d ← natural_of_str (String.substring 8 2 s);
    if bool_decide (1 ≤ m ≤ 12 ∧ 1 ≤ d ≤ 31)%Z
    then Some (days_from_civil y m d * ns_per_day)%Z
    else None
  else None.

(** Nearest integer, ties to even. *)
Definition round_half_even (q : Qc) : Z :=
  let n := Qnum (this q) in
  let d := Z.pos (Qden (this q)) in
  let fl := (n `div` d)%Z in
  let r2 := (2 * (n - fl * d))%Z in
  if (r2 <? d)%Z then fl
  else if (d <? r2)%Z then (fl + 1)%Z
  else if Z.even fl then fl else (fl + 1)%Z.

Definition two_decimals (q : Qc) : string :=
  let c := round_half_even (q * Qc_of_Z 100)%Qc in
  let a := Z.abs c in
  (if (c <? 0)%Z then "-" else "") +:+ pretty (a `div` 100)%Z +:+ "." +:+
  two_digits (a `mod` 100)%Z.

Definition plain_number (q : Qc) : string :=
  if bool_decide (Qden (this q) = 1%positive) then pretty (Qnum (this q))
  else two_decimals q.

(** [2^e] for an integer [e]. *)
Definition pow2 (e : Z) : Qc :=
  if (0 <=? e)%Z then Qc_of_Z (2 ^ e) else (/ Qc_of_Z (2 ^ (- e)))%Qc.

(** The float nearest to [q], ties to even: a float has 53 significant bits;
    the range of its exponent is taken to be unlimited. *)
Definition round_to_float (q : Qc) : Qc :=
  let n := Z.abs (Qnum (this q)) in
  let d := Z.pos (Qden (this q)) in
  if (n =? 0)%Z then 0%Qc else
  let l0 := (Z.log2 n - Z.log2 d)%Z in
  let l := if bool_decide (pow2 l0 ≤ Qcabs q)%Qc then l0 else (l0 - 1)%Z in
  let e := (l - 52)%Z in
  (Qc_of_Z (round_half_even (q / pow2 e)) * pow2 e)%Qc.

Definition reference_lib : PyLib := {|
  str_lower := lower_ascii;
  str_of_num := plain_number;
  str_of_date := λ t, pretty t;
  format_2f := two_decimals;
  numeric_of_str := λ s, Qc_of_Z <$> integer_of_str s;
  numeric_of_date := λ _, None;
  datetime_of_str := iso_date_of_str;
  datetime_of_num := λ _, None;
  float_add := λ x y, round_to_float (x + y);
  float_sub := λ x y, round_to_float (x - y);
  float_mul := λ x y, round_to_float (x * y);
  float_div := λ x y, round_to_float (x / y);
  clock_offset_fits := λ now i, bool_decide (month_index now + i < month_limit)
|}.

(** ** The static keyword tables *)

Definition date_columns : list string :=
  ["Date"; "Transaction Date"; "تاريخ"; "تاريخ المعاملة"; "التاريخ"; "date";
   "datetime"; "time"].
Definition description_columns : list string :=
  ["Description"; "Transaction Details"; "وصف"; "تفاصيل المعاملة"; "الوصف";
   "البيان"; "التفاصيل"; "desc"; "details"].
Definition category_columns : list string :=
  ["Category"; "Type"; "فئة"; "تصنيف"; "نوع"; "cat"; "group"; "مجموعة"; "النوع"].
Definition income_columns : list string :=
  ["Income"; "Credit"; "دخل"; "إيرادات"; "ايرادات"; "مدين"; "credit"; "in";
   "revenue"; "دائن"; "دخل"].
Definition expense_columns : list string :=
  ["Expense"; "Expenses"; "Debit"; "مصروفات"; "مصاريف"; "دائن"; "debit"; "out";
   "مصرف"; "مصروف"; "خصم"].

(** The five canonical fields. *)
Definition canonical_fields : list string :=
  ["Date"; "Description"; "Category"; "Income"; "Expenses"].

(** [category_keywords], in the order the dict literal lists it. *)
Definition category_keywords : list (string * list string) :=
  [("رواتب", ["راتب"; "معاش"; "أجر"; "salary"; "wage"; "payroll"]);
   ("تبرعات", ["تبرع"; "هبة"; "دعم"; "donation"; "grant"; "support"]);
   ("استثمارات", ["أرباح"; "استثمار"; "عائد"; "dividend"; "investment"; "return"]);
   ("مبيعات", ["مبيعات"; "بيع"; "إيراد"; "sales"; "revenue"; "income"]);
   ("مصاريف تشغيلية", ["تشغيل"; "صيانة"; "خدمة"; "operation"; "maintenance"; "service"]);
   ("مصاريف إدارية", ["إدارة"; "مكتب"; "إيجار"; "administration"; "office"; "rent"]);
   ("مصاريف تسويقية", ["تسويق"; "إعلان"; "دعاية"; "marketing"; "advertising"; "promotion"]);
   ("مصاريف الموظفين", ["موظف"; "تأمين"; "تدريب"; "employee"; "insurance"; "training"]);
   ("مصاريف مالية", ["بنك"; "فائدة"; "رسوم"; "bank"; "interest"; "fees"]);
   ("مشتريات", ["شراء"; "مشتريات"; "بضاعة"; "purchase"; "goods"; "inventory"]);
   ("سفر", ["سفر"; "تذكرة"; "فندق"; "travel"; "ticket"; "hotel"])].

Definition other_income_label : string := "إيرادات أخرى".
Definition other_expenses_label : string := "مصاريف أخرى".
Definition uncategorized_label : string := "غير مصنف".

(** [category.startswith('مصاريف') or category == 'مشتريات' or category == 'سفر'] *)
Definition is_expense_category (category : string) : bool :=
  String.prefix "مصاريف" category
  || bool_decide (category = "مشتريات")
  || bool_decide (category = "سفر").

(** ['k' in column_mapping and column_mapping['k'] is not None], with the
    column it names. *)
Definition mapped (column_mapping : gmap string (option string)) (k : string)
  : option string :=
  mjoin (column_mapping !! k).

(** [x > 0] on a cell: [nan > 0] is [False], an object that is no number
    does not compare with an int. *)
Definition cell_gt0 (c : cell) : result bool :=
  match c with
  | CNum q => Ok (bool_decide (0 < q)%Qc)
  | CNaN => Ok false
  | _ => Raise
  end.

(** ['k' in row and row['k'] > 0] *)
Definition positive_field (row : gmap string cell) (k : string) : result bool :=
  match row !! k with
  | None => Ok false
  | Some c => cell_gt0 c
  end.

(** [Series.abs()] on one cell of a numeric column. *)
Definition cell_abs (c : cell) : cell :=
  match c with
  | CNum q => CNum (Qcabs q)
  | _ => c
  end.

(** [a - b] on cells of numeric columns. *)
Definition cell_sub (a b : cell) : cell :=
  match a, b with
  | CNum x, CNum y => CNum (x - y)%Qc
  | _, _ => CNaN
  end.

(** [Series.fillna(v)] on one cell. *)
Definition fillna (v c : cell) : cell := if isna c then v else c.

(** [Series.replace(old, new)] on one cell. *)
Definition replace_cell (old new c : cell) : cell :=
  if bool_decide (c = old) then new else c.

(** [df[name] = col] for a column as long as the frame, or for the first
    column of an empty [pd.DataFrame()]. *)
Definition setitem (df : DataFrame) (name : string) (col : list cell) : DataFrame :=
  {| df_columns :=
       if bool_decide (name ∈ df_columns df) then df_columns df
       else (df_columns df ++ [name])%list;
     df_rows :=
       if bool_decide (df_columns df = [] ∧ df_rows df = [])
       then (λ v, {[ name := v ]}) <$> col
       else zip_with (λ r v, <[ name := v ]> r) (df_rows df) col |}.

(** [df.dropna(subset=[name])] *)
Definition dropna (df : DataFrame) (name : string) : DataFrame :=
  {| df_columns := df_columns df;
     df_rows := filter (λ r, isna (row_get r name) = false) (df_rows df) |}.

(** [pd.date_range(end=now, periods=n, freq='D')]: the [n] days that end at
    [now].  The first of them is [n - 1] days before [now] and has to be a
    Timestamp; so has the day after [now], from which the library counts
    back. *)
Definition date_range (now : Timestamp) (n : nat) : result (list cell) :=
  if bool_decide (timestamp_min ≤ now - (Z.of_nat n - 1) * ns_per_day
                  ∧ now + ns_per_day ≤ timestamp_max)
  then Ok ((λ i : nat, CDate (now - (Z.of_nat n - 1 - Z.of_nat i) * ns_per_day))
           <$> seq 0 n)
  else Raise.

(** [[f"المعاملة #{i+1}" for i in range(n)]] *)
Definition default_descriptions (n : nat) : list cell :=
  (λ i : nat, CStr ("المعاملة #" +:+ pretty (Z.of_nat i + 1))) <$> seq 0 n.

(** [mapM] over a list, first exception wins. *)
Fixpoint result_mapM {A B} (f : A → result B) (l : list A) : result (list B) :=
  match l with
  | [] => Ok []
  | x :: l' => do y <- f x; do ys <- result_mapM f l'; Ok (y :: ys)
  end.

Section Model.
Context `{PyLib}.

(** [any(kw.lower() in col_str for kw in keywords)] *)
Definition any_keyword_in (keywords : list string) (col_str : string) : bool :=
  existsb (λ kw, str_in (str_lower kw) col_str) keywords.

(** ['k' not in column_mapping] *)
Definition unassigned (k : string) (column_mapping : gmap string (option string)) : bool :=
  bool_decide (column_mapping !! k = None).

(** One turn of the loop over [df.columns]. *)
Definition detect_column (column_mapping : gmap string (option string)) (col : string)
  : gmap string (option string) :=
  let col_str := str_lower col in
  if any_keyword_in date_columns col_str && unassigned "Date" column_mapping
  then <[ "Date" := Some col ]> column_mapping
  else if any_keyword_in description_columns col_str
          && unassigned "Description" column_mapping
  then <[ "Description" := Some col ]> column_mapping
  else if any_keyword_in category_columns col_str
          && unassigned "Category" column_mapping
  then <[ "Category" := Some col ]> column_mapping
  else if any_keyword_in income_columns col_str && unassigned "Income" column_mapping
  then <[ "Income" := Some col ]> column_mapping
  else if any_keyword_in expense_columns col_str
          && unassigned "Expenses" column_mapping
  then <[ "Expenses" := Some col ]> column_mapping
  else column_mapping.

Definition detect_excel_structure (df : DataFrame) : gmap string (option string) :=
  foldl detect_column ∅ (df_columns df).

(** [str(x)] of a cell; also one cell of [Series.astype(str)]. *)
Definition py_str (c : cell) : string :=
  match c with
  | CNone => "None"
  | CNaN => "nan"
  | CNaT => "NaT"
  | CNum q => str_of_num q
  | CStr s => s
  | CDate t => str_of_date t
  end.

(** One cell of [pd.to_datetime(col, errors='coerce')]. *)
Definition to_datetime (c : cell) : cell :=
  match c with
  | CDate t => CDate t
  | CStr s => from_option CDate CNaT (datetime_of_str s)
  | CNum q => from_option CDate CNaT (datetime_of_num q)
  | CNone | CNaN | CNaT => CNaT
  end.

(** One cell of [pd.to_numeric(col, errors='coerce')]. *)
Definition to_numeric (c : cell) : cell :=
  match c with
  | CNum q => CNum q
  | CStr s => from_option CNum CNaN (numeric_of_str s)
  | CDate t => from_option CNum CNaN (numeric_of_date t)
  | CNone | CNaN | CNaT => CNaN
  end.

(** The lower-cased description when the row has a usable one:
    ['Description' in row and pd.notna(row['Description'])
      and row['Description'] != ''']. *)
Definition usable_description (row : gmap string cell) : option string :=
  match row !! "Description" with
  | Some c =>
      if negb (isna c) && negb (bool_decide (c = CStr ""))
      then Some (str_lower (py_str c))
      else None
  | None => None
  end.

(** [any(keyword in description for keyword in keywords)] *)
Definition keyword_match (keywords : list string) (description : string) : bool :=
  existsb (λ keyword, str_in keyword description) keywords.

(** The loop over [category_keywords.items()]: the first category returned. *)
Fixpoint scan_categories (is_income is_expense : bool) (description : string)
    (table : list (string * list string)) : option string :=
  match table with
  | [] => None
  | (category, keywords) :: rest =>
      if keyword_match keywords description then
        if is_income && negb (is_expense_category category) then Some category
        else if is_expense && is_expense_category category then Some category
        else scan_categories is_income is_expense description rest
      else scan_categories is_income is_expense description rest
  end.

(** The default labels after the loop. *)
Definition default_label (is_income is_expense : bool) : string :=
  if is_income then other_income_label
  else if is_expense then other_expenses_label
  else uncategorized_label.

Definition classify_transactions (row : gmap string cell) : result string :=
  do is_income <- positive_field row "Income";
  do is_expense <- positive_field row "Expenses";
  match usable_description row
        ≫= λ description, scan_categories is_income is_expense description category_keywords
  with
  | Some category => Ok category
  | None => Ok (default_label is_income is_expense)
  end.

(** The cleanup of the Category column: [astype(str)], [fillna], and the two
    [replace] calls. *)
Definition clean_category (c : cell) : cell :=
  replace_cell (CStr "nan") (CStr uncategorized_label)
    (replace_cell (CStr "") (CStr uncategorized_label)
       (fillna (CStr uncategorized_label) (CStr (py_str c)))).

(** The Date block: the mapped column through [pd.to_datetime], or daily
    dates ending at [now]. *)
Definition date_block (now : Timestamp) (data : DataFrame)
    (column_mapping : gmap string (option string)) : result (list cell) :=
  match mapped column_mapping "Date" with
  | Some c => do col <- getcolumn data c; Ok (to_datetime <$> col)
  | None => date_range now (df_len data)
  end.

(** The Description block. *)
Definition description_block (data : DataFrame)
    (column_mapping : gmap string (option string)) : result (list cell) :=
  match mapped column_mapping "Description" with
  | Some c => getcolumn data c
  | None => Ok (default_descriptions (df_len data))
  end.

(** The Income block; the scalar [0] is broadcast over the rows that
    [processed_data] has by then. *)
Definition income_block (data processed_data : DataFrame)
    (column_mapping : gmap string (option string)) : result (list cell) :=
  match mapped column_mapping "Income" with
  | Some c =>
      do income_col <- getcolumn data c;
      Ok (fillna (CNum 0) <$> (to_numeric <$> income_col))
  | None => Ok (replicate (df_len processed_data) (CNum 0))
  end.

(** The Expenses block. *)
Definition expenses_block (data processed_data : DataFrame)
    (column_mapping : gmap string (option string)) : result (list cell) :=
  match mapped column_mapping "Expenses" with
  | Some c =>
      do expense_col <- getcolumn data c;
      Ok (cell_abs <$> (fillna (CNum 0) <$> (to_numeric <$> expense_col)))
  | None => Ok (replicate (df_len processed_data) (CNum 0))
  end.

(** The Category block: the mapped column, or [classify_transactions]
    applied to every row of [processed_data]. *)
Definition category_block (data processed_data : DataFrame)
    (column_mapping : gmap string (option string)) : result (list cell) :=
  match mapped column_mapping "Category" with
  | Some c => getcolumn data c
  | None =>
      do labels <- result_mapM classify_transactions (df_rows processed_data);
      Ok (CStr <$> labels)
  end.

(** [processed_data['Income'] - processed_data['Expenses']] *)
Definition net_column (processed_data : DataFrame) : list cell :=
  zip_with cell_sub ((λ r, row_get r "Income") <$> df_rows processed_data)
                    ((λ r, row_get r "Expenses") <$> df_rows processed_data).

Definition analyze_excel_data (now : Timestamp) (df : DataFrame)
    (column_mapping : gmap string (option string)) : result DataFrame :=
  let data := df in
  let processed_data := mkDataFrame [] [] in
  do date <- date_block now data column_mapping;
  let processed_data := setitem processed_data "Date" date in
  do description <- description_block data column_mapping;
  let processed_data := setitem processed_data "Description" description in
  do income <- income_block data processed_data column_mapping;
  let processed_data := setitem processed_data "Income" income in
  do expenses <- expenses_block data processed_data column_mapping;
  let processed_data := setitem processed_data "Expenses" expenses in
  do category <- category_block data processed_data column_mapping;
  let processed_data := setitem processed_data "Category" (clean_category <$> category) in
  let processed_data := setitem processed_data "Net" (net_column processed_data) in
  Ok (dropna processed_data "Date").

End Model.

(** ** The aggregator *)

(** One entry of [category_analysis]. *)
Record CategoryStats := mkCategoryStats {
  expenses : Qc;
  income : Qc;
  net : Qc
}.

Global Instance CategoryStats_eq_dec : EqDecision CategoryStats.
Proof. solve_decision. Defined.

(** The dict [generate_ai_insights] returns. *)
Record Analysis := mkAnalysis {
  summary : string;
  insights : list string;
  category_analysis : gmap string CategoryStats;
  trends : gmap string string;
  recommendations : list string
}.

Global Instance Analysis_eq_dec : EqDecision Analysis.
Proof. solve_decision. Defined.

(** A value of a numeric column as the sums read it: missing values are
    skipped, text and dates do not add up with numbers. *)
Definition summand (c : cell) : result Qc :=
  match c with
  | CNum q => Ok q
  | CNone | CNaN | CNaT => Ok 0%Qc
  | CStr _ | CDate _ => Raise
  end.

Definition Qc_sum (l : list Qc) : Qc := foldr Qcplus 0%Qc l.

(** [col.sum()] *)
Definition series_sum (col : list cell) : result Qc :=
  do nums <- result_mapM summand col; Ok (Qc_sum nums).

(** Adds [v] to the total of key [k] in a grouping kept sorted by key. *)
Fixpoint group_insert (k : string) (v : Qc) (acc : list (string * Qc))
  : list (string * Qc) :=
  match acc with
  | [] => [(k, v)]
  | (k', v') :: rest =>
      if bool_decide (k = k') then (k', (v' + v)%Qc) :: rest
      else if String.ltb k k' then (k, v) :: acc
      else (k', v') :: group_insert k v rest
  end.

(** [s.idxmax()] with [s.max()]: the first key, in the grouping's order, that
    carries the largest total. *)
Fixpoint idxmax (s : list (string * Qc)) : option (string * Qc) :=
  match s with
  | [] => None
  | (k, v) :: rest =>
      match idxmax rest with
      | Some (k', v') => if bool_decide (v' ≤ v)%Qc then Some (k, v) else Some (k', v')
      | None => Some (k, v)
      end
  end.

(** [s.get(k, 0)] *)
Fixpoint series_get (s : list (string * Qc)) (k : string) : Qc :=
  match s with
  | [] => 0%Qc
  | (k', v) :: rest => if bool_decide (k' = k) then v else series_get rest k
  end.

Definition no_data_analysis : Analysis :=
  {| summary := "لا توجد بيانات كافية للتحليل.";
     insights := ["لا توجد بيانات مالية متاحة للتحليل."];
     category_analysis := ∅;
     trends := ∅;
     recommendations := ["يرجى تحميل ملف بيانات مالية صالح للتحليل."] |}.

Definition not_available : string := "غير متوفر".

Definition positive_flow_insight : string :=
  "التدفق النقدي إيجابي، مما يشير إلى حالة مالية جيدة.".
Definition negative_flow_insight : string :=
  "التدفق النقدي سلبي، قد تحتاج إلى مراجعة النفقات أو زيادة الإيرادات.".

Definition negative_recommendations : list string :=
  ["خفض النفقات في الفئات ذات المصروفات العالية.";
   "البحث عن مصادر إيرادات جديدة لتحسين التدفق النقدي."].
Definition positive_recommendations : list string :=
  ["الاستمرار في الحفاظ على التوازن بين الإيرادات والمصروفات.";
   "استثمار الفائض النقدي في مجالات تساعد على نمو الإيرادات."].

Section Aggregator.
Context `{PyLib}.

(** The key a Category cell groups under; [groupby] leaves out the rows
    whose key is missing.  In a frame made by [analyze_excel_data] every
    category is text; a key that is not text is recorded by its [str]. *)
Definition group_key (c : cell) : option string :=
  if isna c then None else Some (py_str c).

(** [data.groupby(by)[col].sum()]: the totals per key, sorted by key. *)
Definition groupby_sum (keys vals : list cell) : result (list (string * Qc)) :=
  do nums <- result_mapM summand vals;
  Ok (foldl (λ acc kv, match group_key kv.1 with
                       | Some k => group_insert k kv.2 acc
                       | None => acc
                       end) [] (zip keys nums)).

(** The loop that fills [category_analysis]. *)
Definition merge_categories (expenses_by_category income_by_category : list (string * Qc))
  : gmap string CategoryStats :=
  let categories : gset string :=
    list_to_set expenses_by_category.*1 ∪ list_to_set income_by_category.*1 in
  set_to_map (λ category,
    let expense := series_get expenses_by_category category in
    let income := series_get income_by_category category in
    (category, {| expenses := expense; income := income; net := (income - expense)%Qc |}))
    categories.

Definition positive_summary (total_income total_expenses net_cash_flow : Qc) : string :=
  "إجمالي الإيرادات (" +:+ format_2f total_income +:+ ") أكبر من إجمالي المصروفات (" +:+ format_2f total_expenses +:+ ")، مما يعني أن هناك تدفق نقدي إيجابي بقيمة " +:+ format_2f net_cash_flow +:+ ".".

Definition negative_summary (total_income total_expenses net_cash_flow : Qc) : string :=
  "إجمالي المصروفات (" +:+ format_2f total_expenses +:+ ") أكبر من إجمالي الإيرادات (" +:+ format_2f total_income +:+ ")، مما يعني أن هناك تدفق نقدي سلبي بقيمة " +:+ format_2f (Qcabs net_cash_flow) +:+ ".".

Definition top_expense_insight (top_expense_category : string) (top_expense_value : Qc) : string :=
  "أكبر فئة مصروفات هي '" +:+ top_expense_category +:+ "' بقيمة " +:+ format_2f top_expense_value +:+ ".".

Definition top_income_insight (top_income_category : string) (top_income_value : Qc) : string :=
  "أكبر فئة إيرادات هي '" +:+ top_income_category +:+ "' بقيمة " +:+ format_2f top_income_value +:+ ".".

(** [(s.idxmax() if not s.empty else "غير متوفر", s.max() if not s.empty else 0)] *)
Definition top_of (s : list (string * Qc)) : string * Qc :=
  default (not_available, 0%Qc) (idxmax s).

Definition generate_ai_insights (data : option DataFrame) : result Analysis :=
  match data with
  | None => Ok no_data_analysis
  | Some data =>
      if df_empty data then Ok no_data_analysis else
      do income_col <- getitem data "Income";
      do total_income <- series_sum income_col;
      do expenses_col <- getitem data "Expenses";
      do total_expenses <- series_sum expenses_col;
      let net_cash_flow := (total_income - total_expenses)%Qc in
      let has_category := bool_decide ("Category" ∈ df_columns data) in
      do groups <-
        (if has_category then
           do category_col <- getitem data "Category";
           do expenses_by_category <- groupby_sum category_col expenses_col;
           do income_by_category <- groupby_sum category_col income_col;
           Ok (expenses_by_category, income_by_category)
         else Ok ([], []));
      let expenses_by_category := groups.1 in
      let income_by_category := groups.2 in
      let category_analysis :=
        if has_category then merge_categories expenses_by_category income_by_category
        else ∅ in
      let summary :=
        if bool_decide (0 ≤ net_cash_flow)%Qc
        then positive_summary total_income total_expenses net_cash_flow
        else negative_summary total_income total_expenses net_cash_flow in
      let insights :=
        if bool_decide (0 ≤ net_cash_flow)%Qc
        then [positive_flow_insight] else [negative_flow_insight] in
      let insights :=
        if has_category then
          let top_expense := top_of expenses_by_category in
          let top_income := top_of income_by_category in
          (insights ++ [top_expense_insight top_expense.1 top_expense.2]
                    ++ [top_income_insight top_income.1 top_income.2])%list
        else insights in
      let recommendations :=
        if bool_decide (net_cash_flow < 0)%Qc
        then negative_recommendations else positive_recommendations in
      Ok {| summary := summary;
            insights := insights;
            category_analysis := category_analysis;
            trends := ∅;
            recommendations := recommendations |}
  end.

End Aggregator.

(** ** The predictor *)

(** One entry of [monthly_predictions]. *)
Record Prediction := mkPrediction {
  month : string;
  predicted_income : Qc;
  predicted_expenses : Qc;
  predicted_net : Qc;
  growth_rate : Qc
}.

Global Instance Prediction_eq_dec : EqDecision Prediction.
Proof. solve_decision. Defined.

(** The dict [generate_financial_predictions] returns. *)
Record Forecast := mkForecast {
  forecast_summary : string;
  monthly_predictions : list Prediction
}.

Global Instance Forecast_eq_dec : EqDecision Forecast.
Proof. solve_decision. Defined.

Definition no_data_forecast : Forecast :=
  {| forecast_summary := "لا توجد بيانات كافية للتنبؤ.";
     monthly_predictions := [] |}.

Definition forecast_summary_text (months_ahead : Z) : string :=
  "تم إنشاء تنبؤات مالية للـ " +:+ pretty months_ahead +:+ " أشهر القادمة بناءً على متوسط الإيرادات والمصروفات السابقة مع افتراض نمو بسيط.".

(** The floats that the literals [0.01] and [0.005] denote. *)
Definition income_growth : Qc := (Qc_of_Z 5764607523034235 / Qc_of_Z (2 ^ 59))%Qc.
Definition expenses_growth : Qc := (Qc_of_Z 5764607523034235 / Qc_of_Z (2 ^ 60))%Qc.

(** The rows that carry a date, as (month, income, expenses); rows whose
    date is [NaT] belong to no group. *)
Definition dated_rows (dates : list cell) (incomes expenses : list Qc)
  : list (Z * (Qc * Qc)) :=
  omap (λ x, match x.1 with
             | CDate t => Some (month_index t, x.2)
             | _ => None
             end) (zip dates (zip incomes expenses)).

(** The months a [pd.Grouper(freq='M')] makes bins for: every calendar month
    from the earliest to the latest dated row, the months without rows
    included. *)
Definition month_bins (months : list Z) : list Z :=
  match months with
  | [] => []
  | m :: rest =>
      let lo := foldr Z.min m rest in
      let hi := foldr Z.max m rest in
      seqZ lo (hi - lo + 1)
  end.

(** The totals of one bin: an empty bin sums to 0. *)
Definition bin_totals (rows : list (Z * (Qc * Qc))) (mi : Z) : Qc * Qc :=
  let members := filter (λ r, r.1 = mi) rows in
  (Qc_sum (members.*2.*1), Qc_sum (members.*2.*2)).

(** [data.groupby(pd.Grouper(key='Date', freq='M')).agg({'Income': 'sum',
    'Expenses': 'sum'}).reset_index()]: one row per bin, in time order. *)
Definition data_by_month (rows : list (Z * (Qc * Qc))) : list (Z * (Qc * Qc)) :=
  (λ mi, (mi, bin_totals rows mi)) <$> month_bins rows.*1.

(** The body of the [for] loop of the [except] branch at index [i]. *)
Definition default_entry (now : Timestamp) (i : Z) : Prediction :=
  let next_month := month_index now + i in
  {| month := strftime_Ym next_month;
     predicted_income := 0%Qc;
     predicted_expenses := 0%Qc;
     predicted_net := 0%Qc;
     growth_rate := 0%Qc |}.

Section Predictor.
Context `{PyLib}.

(** [s.mean()] of a non-empty numeric series: its sum divided by its
    length, as floats. *)
Definition Qc_mean (l : list Qc) : Qc :=
  float_div (Qc_sum l) (Qc_of_Z (Z.of_nat (length l))).

(** The body of the first [for] loop at index [i]. *)
Definition predicted_entry (last_date : Z) (avg_income avg_expenses : Qc) (i : Z)
  : Prediction :=
  let next_month := last_date + i in
  let month_str := strftime_Ym next_month in
  let predicted_income :=
    float_mul avg_income (float_add 1 (float_mul (Qc_of_Z i) income_growth)) in
  let predicted_expenses :=
    float_mul avg_expenses (float_add 1 (float_mul (Qc_of_Z i) expenses_growth)) in
  let predicted_net := float_sub predicted_income predicted_expenses in
  {| month := month_str;
     predicted_income := predicted_income;
     predicted_expenses := predicted_expenses;
     predicted_net := predicted_net;
     growth_rate := income_growth |}.

(** The first [for] loop over the indices that are left.  [last_date] is the
    end of a month, and [last_date + pd.DateOffset(months=i)] raises
    [OutOfBoundsDatetime] once its month reaches [month_limit]; the entries
    appended until then stay in [monthly_data].  The flag tells whether the
    loop raised. *)
Fixpoint predicted_months (last_date : Z) (avg_income avg_expenses : Qc)
    (indices : list Z) (monthly_data : list Prediction) : list Prediction * bool :=
  match indices with
  | [] => (monthly_data, false)
  | i :: rest =>
      if bool_decide (last_date + i < month_limit)
      then predicted_months last_date avg_income avg_expenses rest
             (monthly_data ++ [predicted_entry last_date avg_income avg_expenses i])
      else (monthly_data, true)
  end.

(** The [for] loop of the [except] branch over the indices that are left; an
    exception here escapes the function. *)
Fixpoint default_months (now : Timestamp) (indices : list Z)
    (monthly_data : list Prediction) : result (list Prediction) :=
  match indices with
  | [] => Ok monthly_data
  | i :: rest =>
      if clock_offset_fits now i
      then default_months now rest (monthly_data ++ [default_entry now i])
      else Raise
  end.

(** The monthly grouping of the [try] block.  It raises when a column is
    missing or does not sum, and when the end of the month before its first
    bin is no Timestamp. *)
Definition monthly_totals (data : DataFrame) : result (list (Z * (Qc * Qc))) :=
  do dates <- getitem data "Date";
  do income_col <- getitem data "Income";
  do incomes <- result_mapM summand income_col;
  do expenses_col <- getitem data "Expenses";
  do expenses <- result_mapM summand expenses_col;
  let data_by_month := data_by_month (dated_rows dates incomes expenses) in
  if bool_decide (Forall (λ mi, month_floor ≤ mi) data_by_month.*1)
  then Ok data_by_month
  else Raise.

(** The [try] block after the assignment to [data['Date']]: the monthly
    grouping, the two means and the loop.  It returns the entries it has
    appended to [monthly_data] and whether it raised.  When no row carries a
    date it raises before the first [append] ([NaT] has no [strftime]). *)
Definition monthly_forecast (data : DataFrame) (months_ahead : Z)
  : list Prediction * bool :=
  match monthly_totals data with
  | Ok data_by_month =>
      match last data_by_month.*1 with
      | Some last_date =>
          let avg_income := Qc_mean data_by_month.*2.*1 in
          let avg_expenses := Qc_mean data_by_month.*2.*2 in
          predicted_months last_date avg_income avg_expenses (seqZ 1 months_ahead) []
      | None => ([], true)
      end
  | Raise => ([], true)
  end.

(** The function returns its dict, or raises, together with the state in
    which it leaves the object [data] the caller passed.  ['Date' in
    data.columns] holds exactly when [data['Date']] does not raise. *)
Definition generate_financial_predictions (now : Timestamp) (data : option DataFrame)
    (months_ahead : Z) : result Forecast * option DataFrame :=
  match data with
  | None => (Ok no_data_forecast, None)
  | Some data =>
      if df_empty data then (Ok no_data_forecast, Some data) else
      let '(monthly_data, data) :=
        match getitem data "Date" with
        | Ok dates =>
            if negb (forallb isna dates) then
              let data := setitem data "Date" (to_datetime <$> dates) in
              match monthly_forecast data months_ahead with
              | (monthly_data, false) => (Ok monthly_data, data)
              | (monthly_data, true) =>
                  (default_months now (seqZ 1 months_ahead) monthly_data, data)
              end
            else (Ok [], data)
        | Raise => (Ok [], data)
        end in
      (do monthly_data <- monthly_data;
       Ok {| forecast_summary := forecast_summary_text months_ahead;
             monthly_predictions := monthly_data |},
       Some data)
  end.

End Predictor.

(** ** The report and the application page

    [generate_professional_report] lays a PDF out with reportlab and draws
    its charts with matplotlib; [main] in [app.py] is a Streamlit page.  The
    layout, the drawing, the files and the widgets are the work of those
    libraries.  What the repository's own code computes for them is modelled
    here: the texts of the summary table and of the transactions table of the
    report, and the values that the analysis tab and the charts tab of the
    page show.  Number and date formatting are the operations of the class
    [ReportLib]. *)

Class ReportLib := {
  (** [format(x, ',.2f')] of a number *)
  format_grouped_2f : Qc → string;
  (** [format(t, ',.2f')] of a Timestamp *)
  format_date_2f : Timestamp → result string;
  (** [t.strftime('%Y-%m-%d')] *)
  strftime_Ymd : Timestamp → string
}.

(** [column_translations] *)
Definition column_translations : gmap string string :=
  list_to_map [("Date", "التاريخ"); ("Description", "الوصف"); ("Category", "الفئة");
               ("Income", "الإيرادات"); ("Expenses", "المصروفات"); ("Net", "الصافي")].

(** [row[col] != 0] *)
Definition cell_ne0 (c : cell) : bool :=
  match c with
  | CNum q => negb (bool_decide (q = 0%Qc))
  | _ => true
  end.

(** The rows the loop over [range(1, len(table_data))] shades. *)
Definition striped_rows (table_data : list (list string)) : list nat :=
  filter (λ i, i `mod` 2 = 0)%nat (seq 1 (length table_data - 1)).

(** [entry.items()] of one entry of [category_analysis]. *)
Definition stats_items (entry : CategoryStats) : list (string * Qc) :=
  [("expenses", expenses entry); ("income", income entry); ("net", net entry)].

(** The analysis tab of [main]: what the loop over
    [categories.get(key, {}).items()] lists under a heading. *)
Definition listed_categories (analysis_results : Analysis) (key : string)
  : list (string * Qc) :=
  let categories := category_analysis analysis_results in
  match categories !! key with
  | Some entry => stats_items entry
  | None => []
  end.

Section Report.
Context `{PyLib} `{ReportLib}.

(** [data[c].sum() if c in data.columns else 0] *)
Definition column_total (data : DataFrame) (c : string) : result Qc :=
  if bool_decide (c ∈ df_columns data)
  then do col <- getitem data c; series_sum col
  else Ok 0%Qc.

(** [summary_data] *)
Definition summary_data (data : DataFrame) : result (list (list string)) :=
  do total_income <- column_total data "Income";
  do total_expenses <- column_total data "Expenses";
  let net_income := (total_income - total_expenses)%Qc in
  let transaction_count := df_len data in
  Ok [["البند"; "القيمة"];
      ["إجمالي الإيرادات"; format_grouped_2f total_income];
      ["إجمالي المصروفات"; format_grouped_2f total_expenses];
      ["صافي الدخل"; format_grouped_2f net_income];
      ["عدد المعاملات"; pretty (Z.of_nat transaction_count)]].

(** [columns_to_display] *)
Definition columns_to_display (data : DataFrame) : list string :=
  filter (λ col, col ∈ df_columns data)
    ["Date"; "Description"; "Category"; "Income"; "Expenses"; "Net"].

(** [f"{x:,.2f}"] of a cell that is not missing; a text has no such
    format. *)
Definition format_amount (x : cell) : result string :=
  match x with
  | CNum q => Ok (format_grouped_2f q)
  | CDate t => format_date_2f t
  | _ => Raise
  end.

(** The text of one cell of the transactions table. *)
Definition table_cell (row : gmap string cell) (col : string) : result string :=
  let x := row_get row col in
  if bool_decide (col ∈ ["Income"; "Expenses"; "Net"]) && negb (isna x) && cell_ne0 x
  then format_amount x
  else if bool_decide (col = "Date") && negb (isna x)
  then Ok match x with
          | CDate t => strftime_Ymd t
          | _ => py_str x
          end
  else Ok (if negb (isna x) then py_str x else "").

(** [table_data]: the translated header and one row of texts for each of the
    first [min(len(data), 50)] records. *)
Definition table_data (data : DataFrame) : result (list (list string)) :=
  let columns_to_display := columns_to_display data in
  let header := (λ col, default col (column_translations !! col)) <$> columns_to_display in
  let transaction_count := (df_len data `min` 50)%nat in
  do rows <- result_mapM (λ row, result_mapM (table_cell row) columns_to_display)
               (take transaction_count (df_rows data));
  Ok (header :: rows).

(** The charts tab of [main]:
    [data[data[c] > 0].groupby('Category')[c].sum().reset_index()], the
    slices of a pie as (category, total). *)
Definition positive_by_category (data : DataFrame) (c : string)
  : result (list (string * Qc)) :=
  do col <- getitem data c;
  do mask <- result_mapM cell_gt0 col;
  let selected :=
    {| df_columns := df_columns data;
       df_rows := (filter (λ rb : gmap string cell * bool, rb.2 = true)
                     (zip (df_rows data) mask)).*1 |} in
  do category_col <- getitem selected "Category";
  do amounts <- getitem selected c;
  groupby_sum category_col amounts.

End Report.

(** ** The model read row by row, and the conditions of the claims *)

Section Views.
Context `{PyLib}.

(** Keys are canonical fields and values are headers already scanned. *)
Definition mapping_from (seen : list string) (m : gmap string (option string)) : Prop :=
  ∀ k v, m !! k = Some v → k ∈ canonical_fields ∧ ∃ h, v = Some h ∧ h ∈ seen.

(** No header serves two canonical fields. *)
Definition mapping_injective (m : gmap string (option string)) : Prop :=
  ∀ k1 k2 h, m !! k1 = Some (Some h) → m !! k2 = Some (Some h) → k1 = k2.

(** A field that is absent or holds a number ([nan] included). *)
Definition numeric_if_present (row : gmap string cell) (k : string) : Prop :=
  match row !! k with
  | None | Some (CNum _) | Some CNaN => True
  | Some _ => False
  end.

(** [income > 0], read off the row. *)
Definition amount_positive (row : gmap string cell) (k : string) : bool :=
  match row !! k with
  | Some (CNum q) => bool_decide (0 < q)%Qc
  | _ => false
  end.

(** A table entry whose keywords match the description and whose group
    agrees with the side of the transaction. *)
Definition passes_side_filter (is_income is_expense : bool) (description : string)
    (entry : string * list string) : bool :=
  keyword_match entry.2 description
  && ((is_income && negb (is_expense_category entry.1))
      || (is_expense && is_expense_category entry.1)).

(** No keyword match passes the side filter: the description is absent,
    missing or empty, or no entry of the table passes. *)
Definition no_match_passes (row : gmap string cell) : Prop :=
  match usable_description row with
  | None => True
  | Some description =>
      ∀ entry, entry ∈ category_keywords →
        passes_side_filter (amount_positive row "Income") (amount_positive row "Expenses")
          description entry = false
  end.

Definition date_cell (now : Timestamp) (n : nat) (m : gmap string (option string))
    (i : nat) (r : gmap string cell) : cell :=
  match mapped m "Date" with
  | Some c => to_datetime (row_get r c)
  | None => CDate (now - (Z.of_nat n - 1 - Z.of_nat i) * ns_per_day)
  end.

Definition description_cell (m : gmap string (option string))
    (i : nat) (r : gmap string cell) : cell :=
  match mapped m "Description" with
  | Some c => row_get r c
  | None => CStr ("المعاملة #" +:+ pretty (Z.of_nat i + 1))
  end.

Definition income_cell (m : gmap string (option string)) (r : gmap string cell) : cell :=
  match mapped m "Income" with
  | Some c => fillna (CNum 0) (to_numeric (row_get r c))
  | None => CNum 0
  end.

Definition expenses_cell (m : gmap string (option string)) (r : gmap string cell) : cell :=
  match mapped m "Expenses" with
  | Some c => cell_abs (fillna (CNum 0) (to_numeric (row_get r c)))
  | None => CNum 0
  end.

(** The row as [classify_transactions] sees it. *)
Definition partial_row (now : Timestamp) (n : nat) (m : gmap string (option string))
    (i : nat) (r : gmap string cell) : gmap string cell :=
  <[ "Expenses" := expenses_cell m r ]>
    (<[ "Income" := income_cell m r ]>
       (<[ "Description" := description_cell m i r ]>
          {[ "Date" := date_cell now n m i r ]})).

(** The label of a row: what [classify_transactions] returns. *)
Definition classify_label (row : gmap string cell) : string :=
  match classify_transactions row with
  | Ok label => label
  | Raise => uncategorized_label
  end.

Definition category_cell (now : Timestamp) (n : nat) (m : gmap string (option string))
    (i : nat) (r : gmap string cell) : cell :=
  clean_category
    match mapped m "Category" with
    | Some c => row_get r c
    | None => CStr (classify_label (partial_row now n m i r))
    end.

Definition canonical_row (now : Timestamp) (n : nat) (m : gmap string (option string))
    (i : nat) (r : gmap string cell) : gmap string cell :=
  <[ "Net" := cell_sub (income_cell m r) (expenses_cell m r) ]>
    (<[ "Category" := category_cell now n m i r ]> (partial_row now n m i r)).

(** The label heads exactly one column of the frame. *)
Definition heads_one_column (df : DataFrame) (c : string) : bool :=
  bool_decide (length (filter (λ x, x = c) (df_columns df)) = 1%nat).

(** The label a canonical field is mapped to, if any, heads exactly one
    column of the frame. *)
Definition column_mapped_once (df : DataFrame) (m : gmap string (option string))
    (k : string) : bool :=
  match mapped m k with
  | Some c => heads_one_column df c
  | None => true
  end.

Definition columns_mapped_once (df : DataFrame) (m : gmap string (option string)) : bool :=
  forallb (column_mapped_once df m) canonical_fields.

(** The dates the normalizer makes up when the mapping names no Date column
    are Timestamps: the day [len(df) - 1] days before the clock is one, and
    so is the day after the clock. *)
Definition dates_fit (now : Timestamp) (df : DataFrame) (m : gmap string (option string))
  : bool :=
  match mapped m "Date" with
  | Some _ => true
  | None =>
      bool_decide (timestamp_min ≤ now - (Z.of_nat (df_len df) - 1) * ns_per_day
                   ∧ now + ns_per_day ≤ timestamp_max)
  end.


(** The numbers are whole and their magnitudes add up to less than 2^53.
    pandas holds such numbers exactly, as int64 and as float64, and the sum
    of any of them and the difference of two such sums come out exact in
    either type, in whatever order they are added. *)
Definition whole_amounts (l : list Qc) : bool :=
  forallb (λ q, bool_decide (Qden (this q) = 1%positive)) l
  && bool_decide (foldr (λ q s, Z.abs (Qnum (this q)) + s) 0 l < 2 ^ 53).

Definition canonical_columns : list string :=
  ["Date"; "Description"; "Income"; "Expenses"; "Category"; "Net"].

(** The column [k] of a frame, read cell by cell. *)
Definition column (data : DataFrame) (k : string) : list cell :=
  (λ r, row_get r k) <$> df_rows data.

(** A column the sums accept: it exists and holds numbers and missing
    values only. *)
Definition numeric_column (data : DataFrame) (k : string) : Prop :=
  k ∈ df_columns data
  ∧ Forall (λ c, match c with CStr _ | CDate _ => False | _ => True end) (column data k).

(** Its values as the sums read them. *)
Definition column_numbers (data : DataFrame) (k : string) : list Qc :=
  (λ c, match c with CNum q => q | _ => 0%Qc end) <$> column data k.

(** The historical records that carry a date, read record by record: the
    month of the date, the income and the expenses (a missing amount counts
    as 0).  A record whose date does not parse is left out. *)
Definition history_rows (data : DataFrame) : list (Z * (Qc * Qc)) :=
  omap (λ r, match to_datetime (row_get r "Date") with
             | CDate t =>
                 Some (month_index t,
                       (match row_get r "Income" with CNum q => q | _ => 0%Qc end,
                        match row_get r "Expenses" with CNum q => q | _ => 0%Qc end))
             | _ => None
             end) (df_rows data).

(** The frame after [data['Date'] = pd.to_datetime(data['Date'], errors='coerce')]. *)
Definition with_parsed_dates (data : DataFrame) : DataFrame :=
  {| df_columns := df_columns data;
     df_rows := (λ r, <[ "Date" := to_datetime (row_get r "Date") ]> r) <$> df_rows data |}.


(** Whether the call ends in the except branch. *)
Definition takes_fallback (data : option DataFrame) (months_ahead : Z) : bool :=
  match data with
  | None => false
  | Some data =>
      negb (df_empty data)
      && match getitem data "Date" with
         | Ok dates =>
             negb (forallb isna dates)
             && (monthly_forecast (setitem data "Date" (to_datetime <$> dates))
                   months_ahead).2
         | Raise => false
         end
  end.

(** The keyword list the loop tests for a canonical field. *)
Definition field_keywords (k : string) : list string :=
  if bool_decide (k = "Date") then date_columns
  else if bool_decide (k = "Description") then description_columns
  else if bool_decide (k = "Category") then category_columns
  else if bool_decide (k = "Income") then income_columns
  else if bool_decide (k = "Expenses") then expense_columns
  else [].

(** The header, lower-cased, contains a lower-cased keyword of the list. *)
Definition header_matches (keywords : list string) (col : string) : bool :=
  any_keyword_in keywords (str_lower col).

(** The header matches the keyword list of some canonical field. *)
Definition recognised (col : string) : bool :=
  existsb (λ k, header_matches (field_keywords k) col) canonical_fields.

(** Every label [classify_transactions] can return. *)
Definition known_labels : list string :=
  category_keywords.*1 ++ [other_income_label; other_expenses_label; uncategorized_label].

(** The mapping that sends every canonical field to the column of its own
    name: the one under which a normalized table is read again. *)
Definition canonical_mapping : gmap string (option string) :=
  list_to_map [("Date", Some "Date"); ("Description", Some "Description");
               ("Category", Some "Category"); ("Income", Some "Income");
               ("Expenses", Some "Expenses")].

(** One turn of the loop of [groupby_sum]. *)
Definition group_step (acc : list (string * Qc)) (kv : cell * Qc) : list (string * Qc) :=
  match group_key kv.1 with
  | Some k => group_insert k kv.2 acc
  | None => acc
  end.

(** The grouping [groupby_sum] makes of the numbers of column [c]. *)
Definition grouping (data : DataFrame) (c : string) : list (string * Qc) :=
  foldl group_step [] (zip (column data "Category") (column_numbers data c)).

(** The keys of a grouping grow strictly, in the order of [String.ltb]. *)
Fixpoint keys_ascend (s : list (string * Qc)) : Prop :=
  match s with
  | [] => True
  | kv :: rest => Forall (λ kv', String.ltb kv.1 kv'.1 = true) rest ∧ keys_ascend rest
  end.

(** The records whose Category cell groups under [k]. *)
Definition category_rows (data : DataFrame) (k : string) : list (gmap string cell) :=
  filter (λ r, group_key (row_get r "Category") = Some k) (df_rows data).

(** The number a cell adds to a sum. *)
Definition cell_number (c : cell) : Qc :=
  match c with
  | CNum q => q
  | _ => 0%Qc
  end.

(** The total of column [c] over the records of category [k]. *)
Definition category_total (data : DataFrame) (c k : string) : Qc :=
  Qc_sum ((λ r, cell_number (row_get r c)) <$> category_rows data k).


(** The data is present and not empty, and
    ['Date' in data.columns and not data['Date'].isna().all()] holds. *)
Definition has_dates (data : option DataFrame) : bool :=
  match data with
  | Some data =>
      negb (df_empty data)
      && bool_decide ("Date" ∈ df_columns data)
      && negb (forallb isna (column data "Date"))
  | None => false
  end.

End Views.

(** ** Sample tables *)

(** The two transactions of the specification's worked example and a third
    whose date does not parse. *)
Definition sample_df : DataFrame :=
  mkDataFrame ["Description"; "Income"; "Expenses"; "Date"]
    [ list_to_map [("Description", CStr "Salary payment"); ("Income", CNum (Qc_of_Z 5000));
                   ("Expenses", CNum 0%Qc); ("Date", CStr "2024-01-15")];
      list_to_map [("Description", CStr "Office rent"); ("Income", CNum 0%Qc);
                   ("Expenses", CNum (Qc_of_Z (-1200))); ("Date", CStr "2024-01-20")];
      list_to_map [("Description", CStr "Lunch"); ("Income", CNum 0%Qc);
                   ("Expenses", CNum (Qc_of_Z 30)); ("Date", CStr "not-a-date")] ].

Definition sample_mapping : gmap string (option string) :=
  list_to_map [("Date", Some "Date"); ("Description", Some "Description");
               ("Income", Some "Income"); ("Expenses", Some "Expenses")].

Definition salary_record : gmap string cell :=
  list_to_map [("Date", CDate 1705276800000000000); ("Description", CStr "Salary payment");
               ("Income", CNum (Qc_of_Z 5000)); ("Expenses", CNum 0%Qc);
               ("Category", CStr "رواتب"); ("Net", CNum (Qc_of_Z 5000))].

Definition rent_record : gmap string cell :=
  list_to_map [("Date", CDate 1705708800000000000); ("Description", CStr "Office rent");
               ("Income", CNum 0%Qc); ("Expenses", CNum (Qc_of_Z 1200));
               ("Category", CStr "مصاريف إدارية"); ("Net", CNum (Qc_of_Z (-1200)))].

(** What the normalizer makes of [sample_df]. *)
Definition sample_records : DataFrame :=
  mkDataFrame ["Date"; "Description"; "Income"; "Expenses"; "Category"; "Net"]
    [salary_record; rent_record].

(** The row [classify_transactions] sees for the rent payment. *)
Definition rent_row : gmap string cell :=
  list_to_map [("Description", CStr "Office rent"); ("Income", CNum 0%Qc);
               ("Expenses", CNum (Qc_of_Z 1200))].

(** Two columns that carry the same header. *)
Definition twin_headers_df : DataFrame := mkDataFrame ["date in"; "date in"] [].

(** One refund entered as a negative income. *)
Definition refund_df : DataFrame :=
  mkDataFrame ["Income"] [ {[ "Income" := CNum (Qc_of_Z (-5)) ]} ].

Definition refund_mapping : gmap string (option string) :=
  {[ "Income" := Some "Income" ]}.



(** A record whose category is missing. *)
Definition no_category_df : DataFrame :=
  mkDataFrame ["Date"; "Description"; "Income"; "Expenses"; "Category"; "Net"]
    [ <[ "Category" := CNaN ]> salary_record ].

(** A table with a Category column that holds [None], [nan], the empty
    text and a label. *)
Definition categories_df : DataFrame :=
  mkDataFrame ["Type"; "Income"]
    [ list_to_map [("Type", CNone); ("Income", CNum 1%Qc)];
      list_to_map [("Type", CNaN); ("Income", CNum 1%Qc)];
      list_to_map [("Type", CStr ""); ("Income", CNum 1%Qc)];
      list_to_map [("Type", CStr "Rent"); ("Income", CNum 1%Qc)] ].

Definition categories_mapping : gmap string (option string) :=
  list_to_map [("Category", Some "Type"); ("Income", Some "Income")].

(** A frame whose Date column still holds text. *)
Definition text_dates_df : DataFrame :=
  mkDataFrame ["Date"; "Income"; "Expenses"]
    [ list_to_map [("Date", CStr "2024-01-15"); ("Income", CNum (Qc_of_Z 100));
                   ("Expenses", CNum 0%Qc)] ].

(** A frame with dates and no Income column. *)
Definition dates_only_df : DataFrame :=
  mkDataFrame ["Date"] [ {[ "Date" := CDate 1705276800000000000 ]} ].

(** One record dated 2262-01-15, three months before the last Timestamp. *)
Definition late_df : DataFrame :=
  mkDataFrame ["Date"; "Income"; "Expenses"]
    [ list_to_map [("Date", CDate (days_from_civil 2262 1 15 * ns_per_day));
                   ("Income", CNum (Qc_of_Z 100)); ("Expenses", CNum 0%Qc)] ].

(** A record without any amount, whose description holds a keyword. *)
Definition idle_row : gmap string cell :=
  list_to_map [("Description", CStr "Salary payment"); ("Income", CNum 0%Qc);
               ("Expenses", CNum 0%Qc)].

(** A table with an Expenses column and no Income column. *)
Definition expenses_only_df : DataFrame :=
  mkDataFrame ["Expenses"] [ {[ "Expenses" := CNum (Qc_of_Z 30) ]} ].

(** ** An executable instance of the formatting of the report

    It prints a number with two decimals and a comma between each group of
    three digits, and a date as year-month-day. *)

(** Day of the month (1..31) of the day [z] days after 1970-01-01. *)
Definition civil_day (z : Z) : Z :=
  let z' := z + 719468 in
  let era := z' `div` 146097 in
  let doe := z' - era * 146097 in
  let yoe := (doe - doe `div` 1460 + doe `div` 36524 - doe `div` 146096) `div` 365 in
  let doy := doe - (365 * yoe + yoe `div` 4 - yoe `div` 100) in
  let mp := (5 * doy + 2) `div` 153 in
  doy - (153 * mp + 2) `div` 5 + 1.

Definition year_month_day (t : Timestamp) : string :=
  let z := t `div` ns_per_day in
  let '(y, m) := civil_from_days z in
  four_digits y +:+ "-" +:+ two_digits m +:+ "-" +:+ two_digits (civil_day z).

Definition three_digits (n : Z) : string :=
  String (digit_char (n `div` 100)) (two_digits n).

(** [n >= 0] in decimal with a comma between groups of three digits. *)
Fixpoint grouped_digits (fuel : nat) (n : Z) : string :=
  match fuel with
  | O => pretty n
  | S fuel' =>
      if n <? 1000 then pretty n
      else grouped_digits fuel' (n `div` 1000) +:+ "," +:+ three_digits (n `mod` 1000)
  end.

Definition grouped_two_decimals (q : Qc) : string :=
  let c := round_half_even (q * Qc_of_Z 100)%Qc in
  let a := Z.abs c in
  (if (c <? 0)%Z then "-" else "") +:+ grouped_digits 12 (a `div` 100)%Z +:+ "." +:+
  two_digits (a `mod` 100)%Z.

Definition reference_report_lib : ReportLib := {|
  format_grouped_2f := grouped_two_decimals;
  format_date_2f := λ _, Ok ",.2f";
  strftime_Ymd := year_month_day
|}.

(** * Theorems *)

Section Facts.
Context `{PyLib}.

(** A turn of the loop leaves the mapping alone or assigns the header to one
    canonical field that had no column yet. *)
Lemma detect_column_cases (m : gmap string (option string)) (col : string) :
  detect_column m col = m ∨
  ∃ k, k ∈ canonical_fields ∧ m !! k = None ∧ detect_column m col = <[ k := Some col ]> m.
Proof.
  unfold detect_column, unassigned.
  repeat match goal with
  | |- context [ ?a && bool_decide ?P ] =>
      destruct a; simpl; [ destruct (bool_decide_reflect P) | ]; simpl
  end;
  first [ by left | right; eexists; split; [ | split; [ eassumption | reflexivity ] ] ];
  unfold canonical_fields; set_solver.
Qed.

Lemma detect_fold_from (cols seen : list string) (m : gmap string (option string)) :
  mapping_from seen m → mapping_from (seen ++ cols) (foldl detect_column m cols).
Proof.
  revert seen m. induction cols as [|col cols IH]; intros seen m Hm; simpl.
  - by rewrite app_nil_r.
  - replace (seen ++ col :: cols) with ((seen ++ [col]) ++ cols) by by rewrite <- app_assoc.
    apply IH. intros k v Hk.
    destruct (detect_column_cases m col) as [Heq | (k' & Hin & Hnone & Heq)];
      rewrite Heq in Hk.
    + destruct (Hm k v Hk) as (? & h & ? & ?). split; [done|].
      exists h. split; [done|]. apply elem_of_app. by left.
    + destruct (decide (k' = k)) as [-> | Hne].
      * rewrite lookup_insert_eq in Hk. injection Hk as <-. split; [done|].
        exists col. split; [done|]. apply elem_of_app. right. by apply list_elem_of_singleton.
      * rewrite lookup_insert_ne in Hk by done.
        destruct (Hm k v Hk) as (? & h & ? & ?). split; [done|].
        exists h. split; [done|]. apply elem_of_app. by left.
Qed.

Lemma detect_fold_injective (cols seen : list string) (m : gmap string (option string)) :
  NoDup (seen ++ cols) → mapping_from seen m → mapping_injective m →
  mapping_injective (foldl detect_column m cols).
Proof.
  revert seen m. induction cols as [|col cols IH]; intros seen m Hnd Hm Hinj; simpl.
  - done.
  - assert (Hfresh : col ∉ seen).
    { apply NoDup_app in Hnd as (_ & Hdisj & _). intros Hin.
      apply (Hdisj col Hin). by left. }
    apply (IH (seen ++ [col])).
    + by rewrite <- app_assoc.
    + apply (detect_fold_from [col] seen m Hm).
    + destruct (detect_column_cases m col) as [Heq | (k' & Hin & Hnone & Heq)];
        rewrite Heq; [done|].
      intros k1 k2 h H1 H2.
      destruct (decide (k' = k1)) as [E1 | Hne1], (decide (k' = k2)) as [E2 | Hne2];
        [congruence | subst k1 | subst k2 | ].
      * rewrite lookup_insert_eq in H1. injection H1 as <-.
        rewrite lookup_insert_ne in H2 by done.
        destruct (Hm _ _ H2) as (_ & h & [= <-] & ?). done.
      * rewrite lookup_insert_eq in H2. injection H2 as <-.
        rewrite lookup_insert_ne in H1 by done.
        destruct (Hm _ _ H1) as (_ & h & [= <-] & ?). done.
      * rewrite lookup_insert_ne in H1, H2 by done. by eapply Hinj.
Qed.

(** C3 (as amended): for every list of headers, every key of the detected
    mapping is one of the five canonical fields and every value is a header
    of the list; when the headers are pairwise distinct, no header is
    assigned to two canonical fields. *)
Theorem detect_excel_structure_mapping (df : DataFrame) :
  (∀ k v, detect_excel_structure df !! k = Some v →
     k ∈ canonical_fields ∧ ∃ h, v = Some h ∧ h ∈ df_columns df)
  ∧ (NoDup (df_columns df) →
     ∀ k1 k2 h, detect_excel_structure df !! k1 = Some (Some h) →
                detect_excel_structure df !! k2 = Some (Some h) → k1 = k2).
Proof.
  assert (H0 : mapping_from [] (∅ : gmap string (option string))).
  { intros k v Hk. by rewrite lookup_empty in Hk. }
  split.
  - apply (detect_fold_from (df_columns df) [] ∅ H0).
  - intros Hnd. apply (detect_fold_injective (df_columns df) [] ∅); [done|done|].
    intros k1 k2 h Hk. by rewrite lookup_empty in Hk.
Qed.

Lemma positive_field_numeric (row : gmap string cell) (k : string) :
  numeric_if_present row k → positive_field row k = Ok (amount_positive row k).
Proof.
  unfold numeric_if_present, positive_field, amount_positive.
  destruct (row !! k) as [[]|]; simpl; done.
Qed.

(** The loop returns the first entry that passes. *)
Lemma scan_categories_find (is_income is_expense : bool) (description : string)
    (table : list (string * list string)) :
  scan_categories is_income is_expense description table
  = fst <$> List.find (passes_side_filter is_income is_expense description) table.
Proof.
  induction table as [|[category keywords] rest IH]; [done|].
  cbn [scan_categories List.find]. unfold passes_side_filter at 1. cbn [fst snd].
  rewrite IH.
  destruct (keyword_match keywords description), is_income, is_expense,
    (is_expense_category category); done.
Qed.

Lemma scan_categories_elem (is_income is_expense : bool) (description category : string)
    (table : list (string * list string)) :
  scan_categories is_income is_expense description table = Some category →
  category ∈ table.*1.
Proof.
  induction table as [|[c kws] rest IH]; [done|]. cbn [scan_categories].
  intros Hs. rewrite fmap_cons. cbn [fst].
  repeat match type of Hs with
  | (if ?b then _ else _) = _ => destruct b
  end; try (injection Hs as <-; by left); right; by apply IH.
Qed.

Lemma scan_categories_none (is_income is_expense : bool) (description : string)
    (table : list (string * list string)) :
  (∀ entry, entry ∈ table → passes_side_filter is_income is_expense description entry = false) →
  scan_categories is_income is_expense description table = None.
Proof.
  induction table as [|[c kws] rest IH]; [done|]. intros Hall.
  cbn [scan_categories].
  pose proof (Hall (c, kws) ltac:(by left)) as Hc. unfold passes_side_filter in Hc.
  cbn [fst snd] in Hc.
  assert (Hrest : scan_categories is_income is_expense description rest = None).
  { apply IH. intros e He. apply Hall. by right. }
  destruct (keyword_match kws description); [|done].
  destruct is_income, is_expense, (is_expense_category c); cbn in Hc |- *; done.
Qed.

(** On numeric amounts the function returns: the first entry that passes, or
    the default label. *)
Lemma classify_transactions_value (row : gmap string cell) :
  numeric_if_present row "Income" → numeric_if_present row "Expenses" →
  classify_transactions row
  = Ok (default (default_label (amount_positive row "Income") (amount_positive row "Expenses"))
          (usable_description row
           ≫= λ description,
                scan_categories (amount_positive row "Income")
                  (amount_positive row "Expenses") description category_keywords)).
Proof.
  intros Hi He. unfold classify_transactions.
  rewrite (positive_field_numeric _ _ Hi), (positive_field_numeric _ _ He). cbn [result_bind].
  by destruct (usable_description row ≫= _).
Qed.

Lemma category_names_nonempty : Forall (λ c : string, c ≠ "") category_keywords.*1.
Proof. by apply (bool_decide_unpack _). Qed.

Lemma default_label_nonempty (is_income is_expense : bool) :
  default_label is_income is_expense ≠ "".
Proof. by destruct is_income, is_expense. Qed.

(** C2: on every row whose income and expenses are numbers (the description
    may be absent) the classifier returns one label, never the empty string;
    when no keyword match passes the side filter, it is the other-income label
    if income > 0, else the other-expenses label if expenses > 0, else the
    uncategorized label. *)
Theorem classify_transactions_total (row : gmap string cell) :
  numeric_if_present row "Income" →
  numeric_if_present row "Expenses" →
  ∃ label : string,
    classify_transactions row = Ok label
    ∧ label ≠ ""
    ∧ (no_match_passes row →
       label = if amount_positive row "Income" then other_income_label
               else if amount_positive row "Expenses" then other_expenses_label
               else uncategorized_label).
Proof.
  intros Hi He. rewrite (classify_transactions_value _ Hi He).
  unfold no_match_passes.
  destruct (usable_description row) as [description|]; cbn [mbind option_bind].
  - destruct (scan_categories _ _ description category_keywords) as [category|] eqn:Hs.
    + exists category. split; [done|]. split.
      * apply scan_categories_elem in Hs.
        pose proof category_names_nonempty as Hne. rewrite Forall_forall in Hne. by apply Hne.
      * intros Hnone. by rewrite (scan_categories_none _ _ _ _ Hnone) in Hs.
    + eexists. split; [done|]. split; [apply default_label_nonempty|done].
  - eexists. split; [done|]. split; [apply default_label_nonempty|done].
Qed.

(** *** Lists built row by row *)

Lemma zip_with_imap {A B C D} (f : B → C → D) (g : nat → A → B) (h : nat → A → C)
    (l : list A) :
  zip_with f (imap g l) (imap h l) = imap (λ i x, f (g i x) (h i x)) l.
Proof.
  revert g h. induction l as [|x l IH]; intros g h; [done|].
  cbn. f_equal. apply IH.
Qed.

Lemma replicate_imap {A B} (v : B) (l : list A) :
  replicate (length l) v = imap (λ _ _, v) l.
Proof.
  rewrite (imap_seq_0 l (λ _, v)).
  induction l as [|x l IH]; [done|]. cbn. f_equal.
  rewrite IH. by rewrite <- fmap_S_seq, <- list_fmap_compose.
Qed.

Lemma result_mapM_imap {A B C} (f : B → result C) (g : B → C) (p : nat → A → B)
    (l : list A) :
  (∀ i x, f (p i x) = Ok (g (p i x))) →
  result_mapM f (imap p l) = Ok (imap (λ i x, g (p i x)) l).
Proof.
  revert p. induction l as [|x l IH]; intros p Hf; [done|].
  cbn. rewrite Hf. cbn. rewrite (IH (p ∘ S)); [done|]. intros i y. apply Hf.
Qed.

(** *** The cells of row [i] of [processed_data], read off row [r] of [data] *)

Lemma income_cell_num (m : gmap string (option string)) (r : gmap string cell) :
  ∃ q, income_cell m r = CNum q.
Proof.
  unfold income_cell. destruct (mapped m "Income") as [c|]; [|by eexists].
  unfold to_numeric, fillna.
  destruct (row_get r c) as [| | |q|s|t]; cbn; try by eexists.
  - destruct (numeric_of_str s); cbn; by eexists.
  - destruct (numeric_of_date t); cbn; by eexists.
Qed.

Lemma expenses_cell_num (m : gmap string (option string)) (r : gmap string cell) :
  ∃ q, expenses_cell m r = CNum q ∧ (0 ≤ q)%Qc.
Proof.
  unfold expenses_cell. destruct (mapped m "Expenses") as [c|]; [|by eexists].
  assert (Hn : ∃ q, fillna (CNum 0) (to_numeric (row_get r c)) = CNum q).
  { unfold to_numeric, fillna.
    destruct (row_get r c) as [| | |q|s|t]; cbn; try by eexists.
    - destruct (numeric_of_str s); cbn; by eexists.
    - destruct (numeric_of_date t); cbn; by eexists. }
  destruct Hn as [q ->]. cbn. eexists. split; [done|]. apply Qcabs_nonneg.
Qed.

Lemma classify_partial_row (now : Timestamp) (n : nat) (m : gmap string (option string))
    (i : nat) (r : gmap string cell) :
  classify_transactions (partial_row now n m i r)
  = Ok (classify_label (partial_row now n m i r)).
Proof.
  destruct (income_cell_num m r) as [qi Hi], (expenses_cell_num m r) as (qe & He & _).
  unfold classify_label. rewrite classify_transactions_value; [done| |].
  - unfold numeric_if_present, partial_row.
    rewrite lookup_insert_ne by done. rewrite lookup_insert_eq. by rewrite Hi.
  - unfold numeric_if_present, partial_row. rewrite lookup_insert_eq. by rewrite He.
Qed.

(** *** The five blocks *)

Lemma getcolumn_imap (df : DataFrame) (c : string) :
  getcolumn df c = if heads_one_column df c
                   then Ok (imap (λ _ r, row_get r c) (df_rows df)) else Raise.
Proof.
  unfold getcolumn, heads_one_column. case_bool_decide; [|done].
  by rewrite (imap_const (λ r, row_get r c)).
Qed.

Lemma date_block_rows (now : Timestamp) (df : DataFrame) (m : gmap string (option string)) :
  date_block now df m
  = if column_mapped_once df m "Date" && dates_fit now df m
    then Ok (imap (date_cell now (df_len df) m) (df_rows df)) else Raise.
Proof.
  unfold date_block, column_mapped_once, dates_fit, date_cell.
  destruct (mapped m "Date") as [c|].
  - rewrite getcolumn_imap, andb_true_r. destruct (heads_one_column df c); [|done].
    cbn. by rewrite fmap_imap.
  - unfold date_range. cbn [andb]. case_bool_decide; [|done]. unfold df_len. f_equal.
    by rewrite <- (imap_seq_0 (df_rows df)
        (λ i, CDate (now - (Z.of_nat (length (df_rows df)) - 1 - Z.of_nat i) * ns_per_day))).
Qed.

Lemma description_block_rows (df : DataFrame) (m : gmap string (option string)) :
  description_block df m
  = if column_mapped_once df m "Description"
    then Ok (imap (description_cell m) (df_rows df)) else Raise.
Proof.
  unfold description_block, column_mapped_once, description_cell.
  destruct (mapped m "Description") as [c|].
  - apply getcolumn_imap.
  - unfold default_descriptions, df_len. f_equal.
    by rewrite <- (imap_seq_0 (df_rows df)
        (λ i, CStr ("المعاملة #" +:+ pretty (Z.of_nat i + 1)))).
Qed.

Lemma income_block_rows (df pd : DataFrame) (m : gmap string (option string)) :
  df_len pd = df_len df →
  income_block df pd m
  = if column_mapped_once df m "Income"
    then Ok (imap (λ _, income_cell m) (df_rows df)) else Raise.
Proof.
  intros Hlen. unfold income_block, column_mapped_once, income_cell.
  destruct (mapped m "Income") as [c|].
  - rewrite getcolumn_imap. destruct (heads_one_column df c); [|done].
    cbn. by rewrite !fmap_imap.
  - rewrite Hlen. unfold df_len. by rewrite replicate_imap.
Qed.

Lemma expenses_block_rows (df pd : DataFrame) (m : gmap string (option string)) :
  df_len pd = df_len df →
  expenses_block df pd m
  = if column_mapped_once df m "Expenses"
    then Ok (imap (λ _, expenses_cell m) (df_rows df)) else Raise.
Proof.
  intros Hlen. unfold expenses_block, column_mapped_once, expenses_cell.
  destruct (mapped m "Expenses") as [c|].
  - rewrite getcolumn_imap. destruct (heads_one_column df c); [|done].
    cbn. by rewrite !fmap_imap.
  - rewrite Hlen. unfold df_len. by rewrite replicate_imap.
Qed.

Lemma category_block_rows (now : Timestamp) (df pd : DataFrame)
    (m : gmap string (option string)) :
  df_rows pd = imap (partial_row now (df_len df) m) (df_rows df) →
  category_block df pd m
  = if column_mapped_once df m "Category"
    then Ok (imap (λ i r, match mapped m "Category" with
                          | Some c => row_get r c
                          | None => CStr (classify_label (partial_row now (df_len df) m i r))
                          end) (df_rows df))
    else Raise.
Proof.
  intros Hrows. unfold category_block, column_mapped_once.
  destruct (mapped m "Category") as [c|].
  - apply getcolumn_imap.
  - rewrite Hrows.
    rewrite (result_mapM_imap classify_transactions classify_label).
    + cbn. by rewrite fmap_imap.
    + intros i r. apply classify_partial_row.
Qed.

(** *** The whole function, row by row *)

Lemma setitem_first {A} (name : string) (v : nat → A → cell) (l : list A) :
  setitem (mkDataFrame [] []) name (imap v l)
  = mkDataFrame [name] (imap (λ i r, {[ name := v i r ]}) l).
Proof. unfold setitem. cbn. f_equal. by rewrite fmap_imap. Qed.

Lemma setitem_next {A} (cols : list string) (p : nat → A → gmap string cell)
    (name : string) (v : nat → A → cell) (l : list A) :
  cols ≠ [] → name ∉ cols →
  setitem (mkDataFrame cols (imap p l)) name (imap v l)
  = mkDataFrame (cols ++ [name]) (imap (λ i r, <[ name := v i r ]> (p i r)) l).
Proof.
  intros Hne Hnot. unfold setitem. cbn [df_columns df_rows].
  rewrite (bool_decide_eq_false_2 _ Hnot).
  rewrite bool_decide_eq_false_2 by (intros [? _]; done).
  by rewrite zip_with_imap.
Qed.

Lemma partial_row_income (now : Timestamp) (n : nat) (m : gmap string (option string))
    (i : nat) (r : gmap string cell) (c : cell) :
  row_get (<[ "Category" := c ]> (partial_row now n m i r)) "Income" = income_cell m r.
Proof.
  unfold row_get, partial_row.
  rewrite lookup_insert_ne by done. rewrite lookup_insert_ne by done.
  by rewrite lookup_insert_eq.
Qed.

Lemma partial_row_expenses (now : Timestamp) (n : nat) (m : gmap string (option string))
    (i : nat) (r : gmap string cell) (c : cell) :
  row_get (<[ "Category" := c ]> (partial_row now n m i r)) "Expenses" = expenses_cell m r.
Proof.
  unfold row_get, partial_row.
  rewrite lookup_insert_ne by done. by rewrite lookup_insert_eq.
Qed.

(** The function raises exactly when a mapped label does not head one
    column of the frame or the dates it has to make up are no Timestamps;
    otherwise row [i] of its result, before the rows without a date are
    dropped, is [canonical_row] of row [i] of the input. *)
Lemma analyze_excel_data_rows (now : Timestamp) (df : DataFrame)
    (m : gmap string (option string)) :
  analyze_excel_data now df m
  = if columns_mapped_once df m && dates_fit now df m
    then Ok {| df_columns := canonical_columns;
               df_rows := filter (λ r, isna (row_get r "Date") = false)
                            (imap (canonical_row now (df_len df) m) (df_rows df)) |}
    else Raise.
Proof.
  unfold analyze_excel_data, columns_mapped_once, canonical_fields. cbn [forallb].
  rewrite date_block_rows.
  destruct (column_mapped_once df m "Date"); cbn [result_bind andb]; [|done].
  destruct (dates_fit now df m); cbn [result_bind]; [|by rewrite andb_false_r].
  rewrite andb_true_r.
  rewrite setitem_first, description_block_rows.
  destruct (column_mapped_once df m "Description"); cbn [result_bind andb]; [|done].
  rewrite setitem_next by (try done; compute_done).
  rewrite income_block_rows by (unfold df_len; cbn; by rewrite length_imap).
  destruct (column_mapped_once df m "Income"); cbn [result_bind andb];
    [|by rewrite andb_false_r].
  rewrite setitem_next by (try done; compute_done).
  rewrite expenses_block_rows by (unfold df_len; cbn; by rewrite length_imap).
  destruct (column_mapped_once df m "Expenses"); cbn [result_bind andb];
    [|by rewrite andb_false_r].
  rewrite setitem_next by (try done; compute_done).
  rewrite (category_block_rows now) by done.
  destruct (column_mapped_once df m "Category"); cbn [result_bind andb]; [|done].
  rewrite fmap_imap, setitem_next by (try done; compute_done).
  unfold net_column. cbn [df_rows]. rewrite !fmap_imap, zip_with_imap.
  rewrite setitem_next by (try done; compute_done).
  unfold dropna. cbn [df_rows df_columns].
  do 2 f_equal;
    try (apply imap_ext; intros i r _; cbn;
         by rewrite partial_row_income, partial_row_expenses).
Qed.

Lemma canonical_row_lookup (now : Timestamp) (n : nat) (m : gmap string (option string))
    (i : nat) (r : gmap string cell) :
  canonical_row now n m i r !! "Date" = Some (date_cell now n m i r)
  ∧ canonical_row now n m i r !! "Income" = Some (income_cell m r)
  ∧ canonical_row now n m i r !! "Expenses" = Some (expenses_cell m r)
  ∧ canonical_row now n m i r !! "Category" = Some (category_cell now n m i r)
  ∧ canonical_row now n m i r !! "Net"
    = Some (cell_sub (income_cell m r) (expenses_cell m r)).
Proof.
  unfold canonical_row, partial_row.
  repeat split;
    repeat first [ rewrite lookup_insert_eq | rewrite lookup_insert_ne by done
                 | rewrite lookup_singleton_eq ]; done.
Qed.

(** The rows of a result, traced back to the rows of the input. *)
Lemma analyze_excel_data_row_origin (now : Timestamp) (df : DataFrame)
    (m : gmap string (option string)) (out : DataFrame) (r : gmap string cell) :
  analyze_excel_data now df m = Ok out → r ∈ df_rows out →
  ∃ i r_in, df_rows df !! i = Some r_in
    ∧ r = canonical_row now (df_len df) m i r_in
    ∧ isna (row_get r "Date") = false.
Proof.
  rewrite analyze_excel_data_rows.
  destruct (columns_mapped_once df m && dates_fit now df m); [|done].
  intros [= <-]. cbn [df_rows]. intros [Hdate Hin]%list_elem_of_filter.
  apply elem_of_lookup_imap_1 in Hin as (i & r_in & -> & Hi). eauto.
Qed.

Lemma clean_category_text (c : cell) :
  clean_category c
  = CStr (if bool_decide (py_str c = "" ∨ py_str c = "nan")
          then uncategorized_label else py_str c).
Proof.
  unfold clean_category, fillna, replace_cell. cbn [isna].
  destruct (decide (py_str c = "")) as [E|N].
  - rewrite E. by vm_compute.
  - rewrite (bool_decide_eq_false_2 (CStr (py_str c) = CStr "")) by congruence.
    destruct (decide (py_str c = "nan")) as [E'|N'].
    + rewrite E'. by vm_compute.
    + rewrite (bool_decide_eq_false_2 (CStr (py_str c) = CStr "nan")) by congruence.
      rewrite bool_decide_eq_false_2; [done|]. by intros [|].
Qed.

Lemma clean_category_nonempty (c : cell) :
  ∃ cat, clean_category c = CStr cat ∧ cat ≠ "".
Proof.
  rewrite clean_category_text. eexists. split; [done|].
  case_bool_decide as Hd; [done|]. intros E. apply Hd. by left.
Qed.





Lemma canonical_row_description (now : Timestamp) (n : nat)
    (m : gmap string (option string)) (i : nat) (r : gmap string cell) :
  canonical_row now n m i r !! "Description" = Some (description_cell m i r).
Proof.
  unfold canonical_row, partial_row.
  repeat first [ rewrite lookup_insert_eq | rewrite lookup_insert_ne by done ]. done.
Qed.


Lemma to_datetime_cases (c : cell) :
  to_datetime c = CNaT ∨ ∃ t, to_datetime c = CDate t.
Proof.
  destruct c as [| | |q|s|t]; cbn; eauto.
  - destruct (datetime_of_num q); cbn; eauto.
  - destruct (datetime_of_str s); cbn; eauto.
Qed.

Lemma length_filter_imap {A B} (P : B → Prop) `{∀ x, Decision (P x)}
    (Q : A → Prop) `{∀ x, Decision (Q x)} (f : nat → A → B) (l : list A) :
  (∀ i x, P (f i x) ↔ Q x) →
  length (filter P (imap f l)) = length (filter Q l).
Proof.
  revert f. induction l as [|x l IH]; intros f Hf; [done|].
  assert (Htail : length (filter P (imap (f ∘ S) l)) = length (filter Q l)).
  { apply IH. intros i y. apply Hf. }
  rewrite imap_cons, !filter_cons.
  destruct (decide (P (f 0%nat x))) as [Hp|Hp], (decide (Q x)) as [Hq|Hq]; cbn.
  - by rewrite Htail.
  - exfalso. by apply Hq, (Hf 0%nat x).
  - exfalso. by apply Hp, (Hf 0%nat x).
  - exact Htail.
Qed.

Lemma length_filter_complement {A} (P : A → Prop) `{∀ x, Decision (P x)} (l : list A) :
  (length (filter P l) + length (filter (λ x, ¬ P x) l) = length l)%nat.
Proof.
  induction l as [|x l IH]; [done|]. rewrite !filter_cons.
  destruct (decide (P x)), (decide (¬ P x)); cbn; try lia; done.
Qed.

(** C4 (as amended): when the mapping names a Date column and every mapped
    label heads one column of the table, the normalizer returns a table from
    which the rows whose date value does not parse are dropped: every record
    of the output carries the parsed, non-null date of the input row it
    comes from (no default is put in), every input row whose date parses has
    its record in the output, and the output has as many rows as the input
    less the unparsable ones -- exactly one less for exactly one unparsable
    date. *)
Theorem analyze_excel_data_drops_unparsable (now : Timestamp) (df : DataFrame)
    (m : gmap string (option string)) (c : string) :
  m !! "Date" = Some (Some c) → columns_mapped_once df m = true →
  ∃ out, analyze_excel_data now df m = Ok out
    ∧ (∀ r, r ∈ df_rows out →
         ∃ i r_in t, df_rows df !! i = Some r_in
           ∧ to_datetime (row_get r_in c) = CDate t
           ∧ r !! "Date" = Some (CDate t)
           ∧ r !! "Description" = Some (description_cell m i r_in))
    ∧ (∀ i r_in t, df_rows df !! i = Some r_in → to_datetime (row_get r_in c) = CDate t →
         ∃ r, r ∈ df_rows out
           ∧ r !! "Date" = Some (CDate t)
           ∧ r !! "Description" = Some (description_cell m i r_in))
    ∧ (length (df_rows out)
       + length (filter (λ r_in, to_datetime (row_get r_in c) = CNaT) (df_rows df))
       = length (df_rows df))%nat
    ∧ (length (filter (λ r_in, to_datetime (row_get r_in c) = CNaT) (df_rows df)) = 1%nat →
       (length (df_rows out) + 1 = length (df_rows df))%nat).
Proof.
  intros Hm Hcols.
  assert (Hmapped : mapped m "Date" = Some c) by (unfold mapped; by rewrite Hm).
  assert (Hfit : dates_fit now df m = true) by (unfold dates_fit; by rewrite Hmapped).
  assert (Hdate : ∀ i r_in, row_get (canonical_row now (df_len df) m i r_in) "Date"
                            = to_datetime (row_get r_in c)).
  { intros i r_in. unfold row_get at 1.
    destruct (canonical_row_lookup now (df_len df) m i r_in) as (-> & _).
    unfold date_cell. by rewrite Hmapped. }
  rewrite analyze_excel_data_rows, Hcols, Hfit. eexists. split; [done|]. cbn [df_rows].
  assert (Hlen : (length (filter (λ r, isna (row_get r "Date") = false)
                    (imap (canonical_row now (df_len df) m) (df_rows df)))
                  + length (filter (λ r_in, to_datetime (row_get r_in c) = CNaT) (df_rows df))
                  = length (df_rows df))%nat).
  { rewrite (length_filter_imap _ (λ r_in, ¬ to_datetime (row_get r_in c) = CNaT)).
    - rewrite Nat.add_comm. apply length_filter_complement.
    - intros i x. rewrite Hdate.
      destruct (to_datetime_cases (row_get x c)) as [-> | [t ->]]; cbn;
        split; intros; try done; congruence. }
  split; [|split; [|split]].
  - intros r [Hna Hin]%list_elem_of_filter.
    apply elem_of_lookup_imap_1 in Hin as (i & r_in & -> & Hi).
    rewrite Hdate in Hna.
    destruct (to_datetime_cases (row_get r_in c)) as [E | [t E]]; rewrite E in Hna; [done|].
    exists i, r_in, t. rewrite canonical_row_description. repeat split; try done.
    destruct (canonical_row_lookup now (df_len df) m i r_in) as (-> & _).
    unfold date_cell. by rewrite Hmapped, E.
  - intros i r_in t Hi E. exists (canonical_row now (df_len df) m i r_in).
    rewrite canonical_row_description. split; [|split; [|done]].
    + apply list_elem_of_filter. split.
      * by rewrite Hdate, E.
      * by apply elem_of_lookup_imap_2.
    + destruct (canonical_row_lookup now (df_len df) m i r_in) as (-> & _).
      unfold date_cell. by rewrite Hmapped, E.
  - exact Hlen.
  - intros H1. rewrite H1 in Hlen. exact Hlen.
Qed.


(** C6: on a null or empty record set the aggregator returns the canned
    no-data result: a summary, no category aggregates, exactly one insight and
    exactly one recommendation. *)
Theorem generate_ai_insights_no_data (data : option DataFrame) :
  (data = None ∨ ∃ df, data = Some df ∧ df_empty df = true) →
  ∃ a, generate_ai_insights data = Ok a
    ∧ summary a = "لا توجد بيانات كافية للتحليل."
    ∧ category_analysis a = ∅
    ∧ (∃ insight, insights a = [insight])
    ∧ (∃ recommendation, recommendations a = [recommendation]).
Proof.
  intros [-> | (df & -> & Hempty)]; cbn; [|rewrite Hempty];
    (exists no_data_analysis; repeat split; cbn; eauto).
Qed.


Lemma getitem_column (data : DataFrame) (k : string) :
  k ∈ df_columns data → getitem data k = Ok (column data k).
Proof. intros Hk. unfold getitem. by rewrite bool_decide_eq_true_2. Qed.

Lemma summand_numeric (col : list cell) :
  Forall (λ c, match c with CStr _ | CDate _ => False | _ => True end) col →
  result_mapM summand col = Ok ((λ c, match c with CNum q => q | _ => 0%Qc end) <$> col).
Proof.
  induction 1 as [|c col Hc _ IH]; [done|]. cbn. rewrite IH.
  by destruct c.
Qed.


Lemma setitem_parsed_dates (data : DataFrame) :
  df_empty data = false → "Date" ∈ df_columns data →
  setitem data "Date" (to_datetime <$> column data "Date") = with_parsed_dates data.
Proof.
  intros Hne Hdate. unfold setitem, with_parsed_dates, column.
  rewrite (bool_decide_eq_true_2 _ Hdate). f_equal.
  rewrite bool_decide_eq_false_2.
  - by rewrite !zip_with_fmap_r, zip_with_diag.
  - intros [Hc _]. unfold df_empty in Hne. by rewrite Hc in Hne.
Qed.

Lemma column_parsed_dates (data : DataFrame) (k : string) :
  column (with_parsed_dates data) k
  = if bool_decide (k = "Date") then to_datetime <$> column data "Date" else column data k.
Proof.
  unfold column, with_parsed_dates. cbn [df_rows].
  rewrite <- !list_fmap_compose. case_bool_decide as Hk.
  - subst k. apply list_fmap_ext. intros _ r _. cbn. unfold row_get at 1.
    by rewrite lookup_insert_eq.
  - apply list_fmap_ext. intros _ r _. cbn. unfold row_get.
    by rewrite lookup_insert_ne.
Qed.

Lemma month_bins_span (months : list Z) :
  months ≠ [] →
  ∃ earliest latest,
    earliest ∈ months ∧ latest ∈ months
    ∧ (∀ mi, mi ∈ months → earliest ≤ mi ≤ latest)
    ∧ month_bins months = seqZ earliest (latest - earliest + 1).
Proof.
  destruct months as [|m rest]; [done|]. intros _. cbn [month_bins].
  exists (foldr Z.min m rest), (foldr Z.max m rest).
  assert (Hmax : foldr Z.max m rest ∈ m :: rest
                 ∧ ∀ mi, mi ∈ m :: rest → mi ≤ foldr Z.max m rest).
  { induction rest as [|x rest IH]; cbn.
    - split; [by left|]. intros mi ->%list_elem_of_singleton. lia.
    - destruct IH as [Hin Hle]. split.
      + destruct (Z.max_spec x (foldr Z.max m rest)) as [[_ ->]|[_ ->]].
        * apply elem_of_cons in Hin as [->|Hin]; [by left|by do 2 right].
        * right. by left.
      + intros mi [->|[->|Hmi]%elem_of_cons]%elem_of_cons.
        * etransitivity; [apply (Hle m); by left|]. lia.
        * lia.
        * etransitivity; [apply (Hle mi); by right|]. lia. }
  assert (Hmin : foldr Z.min m rest ∈ m :: rest
                 ∧ ∀ mi, mi ∈ m :: rest → foldr Z.min m rest ≤ mi).
  { clear Hmax. induction rest as [|x rest IH]; cbn.
    - split; [by left|]. intros mi ->%list_elem_of_singleton. lia.
    - destruct IH as [Hin Hle]. split.
      + destruct (Z.min_spec x (foldr Z.min m rest)) as [[_ ->]|[_ ->]].
        * right. by left.
        * apply elem_of_cons in Hin as [->|Hin]; [by left|by do 2 right].
      + intros mi [->|[->|Hmi]%elem_of_cons]%elem_of_cons.
        * etransitivity; [|apply (Hle m); by left]. lia.
        * lia.
        * etransitivity; [|apply (Hle mi); by right]. lia. }
  destruct Hmax as [Hmax_in Hmax], Hmin as [Hmin_in Hmin].
  split; [done|]. split; [done|]. split; [|done].
  intros mi Hmi. split; [by apply Hmin|by apply Hmax].
Qed.

Lemma data_by_month_months (rows : list (Z * (Qc * Qc))) :
  (data_by_month rows).*1 = month_bins rows.*1.
Proof.
  unfold data_by_month. rewrite <- list_fmap_compose.
  etransitivity; [|apply list_fmap_id]. by apply list_fmap_ext.
Qed.

Lemma month_bins_cover (months : list Z) (mi : Z) :
  mi ∈ months → mi ∈ month_bins months.
Proof.
  destruct months as [|m rest]; [done|]. intros Hmi. cbn [month_bins].
  assert (Hbounds : foldr Z.min m rest ≤ mi ≤ foldr Z.max m rest).
  { clear -Hmi. induction rest as [|x rest IH]; cbn.
    - apply list_elem_of_singleton in Hmi. lia.
    - apply elem_of_cons in Hmi as [->|[->|Hmi]%elem_of_cons].
      + assert (foldr Z.min m rest ≤ m ≤ foldr Z.max m rest) by (apply IH; by left). lia.
      + lia.
      + assert (foldr Z.min m rest ≤ mi ≤ foldr Z.max m rest) by (apply IH; by right). lia. }
  apply elem_of_seqZ. lia.
Qed.

Lemma Qc_sum_zeros {A} (l : list A) : Qc_sum ((λ _, 0%Qc) <$> l) = 0%Qc.
Proof.
  induction l as [|x l IH]; [done|]. rewrite fmap_cons.
  change (0 + Qc_sum ((λ _, 0%Qc) <$> l) = 0)%Qc. rewrite IH. ring.
Qed.

Lemma Qc_sum_plus {A} (f g : A → Qc) (l : list A) :
  Qc_sum ((λ x, f x + g x)%Qc <$> l) = (Qc_sum (f <$> l) + Qc_sum (g <$> l))%Qc.
Proof.
  induction l as [|x l IH]; [cbn; ring|]. rewrite !fmap_cons.
  change (f x + g x + Qc_sum ((λ x, f x + g x)%Qc <$> l)
          = f x + Qc_sum (f <$> l) + (g x + Qc_sum (g <$> l)))%Qc.
  rewrite IH. ring.
Qed.

Lemma Qc_sum_single (bins : list Z) (mi : Z) (v : Qc) :
  NoDup bins → mi ∈ bins →
  Qc_sum ((λ b, if decide (mi = b) then v else 0%Qc) <$> bins) = v.
Proof.
  induction 1 as [|b bins Hb _ IH]; [by inversion 1|]. rewrite fmap_cons.
  change (Qc_sum (?x :: ?l)) with (x + Qc_sum l)%Qc.
  intros [->|Hmi]%elem_of_cons.
  - rewrite decide_True by done.
    rewrite (list_fmap_ext _ (λ _, 0%Qc) bins).
    + rewrite Qc_sum_zeros. ring.
    + intros _ b' Hb'%list_elem_of_lookup_2. cbn. rewrite decide_False; [done|].
      by intros ->.
  - rewrite decide_False by (by intros ->). rewrite (IH Hmi). ring.
Qed.

(** Summing the bins gives back the sum over the rows: the bucketing neither
    loses a dated row nor counts one twice. *)
Lemma bins_partition (f : Z * (Qc * Qc) → Qc) (rows : list (Z * (Qc * Qc)))
    (bins : list Z) :
  NoDup bins → (∀ r, r ∈ rows → r.1 ∈ bins) →
  Qc_sum ((λ b, Qc_sum (f <$> filter (λ r, r.1 = b) rows)) <$> bins) = Qc_sum (f <$> rows).
Proof.
  intros Hnd. induction rows as [|r rows IH]; intros Hcover.
  - apply Qc_sum_zeros.
  - rewrite fmap_cons. change (Qc_sum (?x :: ?l)) with (x + Qc_sum l)%Qc.
    rewrite (list_fmap_ext _
      (λ b, (if decide (r.1 = b) then f r else 0%Qc)
            + Qc_sum (f <$> filter (λ r', r'.1 = b) rows))%Qc bins).
    + rewrite Qc_sum_plus, Qc_sum_single, IH; [done| |done|].
      * intros r' Hr'. apply Hcover. by right.
      * apply Hcover. by left.
    + intros _ b _. cbn beta. rewrite filter_cons.
      destruct (decide (r.1 = b)); [rewrite fmap_cons|];
        change (Qc_sum (?x :: ?l)) with (x + Qc_sum l)%Qc; ring.
Qed.

(** The monthly totals add up to the totals of the dated rows. *)
Lemma data_by_month_conserves (rows : list (Z * (Qc * Qc))) :
  Qc_sum (data_by_month rows).*2.*1 = Qc_sum rows.*2.*1
  ∧ Qc_sum (data_by_month rows).*2.*2 = Qc_sum rows.*2.*2.
Proof.
  assert (Hnd : NoDup (month_bins rows.*1)).
  { unfold month_bins. destruct rows.*1; [constructor|apply NoDup_seqZ]. }
  assert (Hcover : ∀ r, r ∈ rows → r.1 ∈ month_bins rows.*1).
  { intros r Hr. apply month_bins_cover. by apply list_elem_of_fmap_2. }
  split.
  - transitivity (Qc_sum ((λ r, r.2.1) <$> rows));
      [|by rewrite <- list_fmap_compose].
    rewrite <- (bins_partition (λ r, r.2.1) rows _ Hnd Hcover).
    unfold data_by_month, bin_totals. rewrite <- !list_fmap_compose.
    f_equal. apply list_fmap_ext. intros _ b _. cbn. by rewrite <- list_fmap_compose.
  - transitivity (Qc_sum ((λ r, r.2.2) <$> rows));
      [|by rewrite <- list_fmap_compose].
    rewrite <- (bins_partition (λ r, r.2.2) rows _ Hnd Hcover).
    unfold data_by_month, bin_totals. rewrite <- !list_fmap_compose.
    f_equal. apply list_fmap_ext. intros _ b _. cbn. by rewrite <- list_fmap_compose.
Qed.

(** The grouping of the model sees the records that [history_rows] reads. *)
Lemma dated_rows_history (data : DataFrame) :
  dated_rows (to_datetime <$> column data "Date")
    (column_numbers data "Income") (column_numbers data "Expenses")
  = history_rows data.
Proof.
  unfold dated_rows, history_rows, column_numbers, column.
  induction (df_rows data) as [|r rows IH]; [done|].
  rewrite !fmap_cons. cbn [zip zip_with omap list_omap fst snd].
  fold (zip (to_datetime <$> ((λ r, row_get r "Date") <$> rows))
          (zip ((λ c, match c with CNum q => q | _ => 0%Qc end)
                <$> ((λ r, row_get r "Income") <$> rows))
               ((λ c, match c with CNum q => q | _ => 0%Qc end)
                <$> ((λ r, row_get r "Expenses") <$> rows)))).
  change (list_omap ?f ?l) with (omap f l). rewrite IH.
  by destruct (to_datetime (row_get r "Date")).
Qed.

Lemma history_rows_nonempty (data : DataFrame) :
  (∃ c t, c ∈ column data "Date" ∧ to_datetime c = CDate t) → history_rows data ≠ [].
Proof.
  intros (c & t & Hc & Ht). unfold column in Hc.
  apply list_elem_of_fmap in Hc as (r & -> & Hr).
  intros Hnil.
  assert (Hin : (month_index t,
                 (match row_get r "Income" with CNum q => q | _ => 0%Qc end,
                  match row_get r "Expenses" with CNum q => q | _ => 0%Qc end))
                ∈ history_rows data).
  { unfold history_rows. apply list_elem_of_omap. exists r. split; [done|]. by rewrite Ht. }
  rewrite Hnil in Hin. by inversion Hin.
Qed.

(** The first loop when every month it asks for is a Timestamp. *)
Lemma predicted_months_all (last_date : Z) (avg_income avg_expenses : Qc)
    (indices : list Z) (monthly_data : list Prediction) :
  Forall (λ i, last_date + i < month_limit) indices →
  predicted_months last_date avg_income avg_expenses indices monthly_data
  = (monthly_data ++ (predicted_entry last_date avg_income avg_expenses <$> indices), false).
Proof.
  intros Hall. revert monthly_data.
  induction Hall as [|i rest Hi _ IH]; intros monthly_data; cbn [predicted_months].
  - by rewrite app_nil_r.
  - rewrite (bool_decide_eq_true_2 _ Hi), IH, fmap_cons. by rewrite <- app_assoc.
Qed.

(** The first loop in general: it appends entries for a beginning of the
    indices, and it raises unless it gets through all of them. *)
Lemma predicted_months_some (last_date : Z) (avg_income avg_expenses : Qc)
    (indices : list Z) (monthly_data : list Prediction) :
  ∃ n : nat,
    (predicted_months last_date avg_income avg_expenses indices monthly_data).1
    = monthly_data
      ++ (predicted_entry last_date avg_income avg_expenses <$> take n indices)
    ∧ ((predicted_months last_date avg_income avg_expenses indices monthly_data).2 = false →
       Forall (λ i, last_date + i < month_limit) indices).
Proof.
  revert monthly_data. induction indices as [|i rest IH]; intros monthly_data.
  - exists 0%nat. cbn. by rewrite app_nil_r.
  - cbn [predicted_months]. case_bool_decide as Hi.
    + destruct (IH (monthly_data ++ [predicted_entry last_date avg_income avg_expenses i]))
        as (n & Hl & Hb).
      exists (S n). rewrite Hl. cbn [take]. rewrite fmap_cons, <- app_assoc.
      split; [done|]. intros Hf. constructor; [done|by apply Hb].
    + exists 0%nat. cbn. by rewrite app_nil_r.
Qed.

(** The loop of the except branch, when it returns. *)
Lemma default_months_all (now : Timestamp) (indices : list Z)
    (monthly_data : list Prediction) :
  Forall (λ i, clock_offset_fits now i = true) indices →
  default_months now indices monthly_data
  = Ok (monthly_data ++ (default_entry now <$> indices)).
Proof.
  intros Hall. revert monthly_data.
  induction Hall as [|i rest Hi _ IH]; intros monthly_data; cbn [default_months].
  - by rewrite app_nil_r.
  - rewrite Hi, IH, fmap_cons. by rewrite <- app_assoc.
Qed.

Lemma default_months_ok (now : Timestamp) (indices : list Z)
    (monthly_data l : list Prediction) :
  default_months now indices monthly_data = Ok l →
  l = monthly_data ++ (default_entry now <$> indices).
Proof.
  revert monthly_data. induction indices as [|i rest IH]; intros monthly_data;
    cbn [default_months].
  - intros [= <-]. by rewrite app_nil_r.
  - destruct (clock_offset_fits now i); [|done]. intros ->%IH.
    by rewrite fmap_cons, <- app_assoc.
Qed.

(** The monthly grouping on a frame with numeric columns. *)
Lemma monthly_totals_history (data : DataFrame) :
  "Date" ∈ df_columns data →
  numeric_column data "Income" → numeric_column data "Expenses" →
  monthly_totals (with_parsed_dates data)
  = if bool_decide (Forall (λ mi, month_floor ≤ mi) (month_bins (history_rows data).*1))
    then Ok (data_by_month (history_rows data)) else Raise.
Proof.
  intros Hdate [Hic Hin] [Hec Hen]. unfold monthly_totals.
  rewrite !getitem_column by done. cbn [result_bind].
  rewrite !column_parsed_dates.
  rewrite (bool_decide_eq_true_2 ("Date" = "Date")) by done.
  rewrite (bool_decide_eq_false_2 ("Income" = "Date")) by done.
  rewrite (bool_decide_eq_false_2 ("Expenses" = "Date")) by done.
  rewrite (summand_numeric _ Hin), (summand_numeric _ Hen). cbn [result_bind].
  fold (column_numbers data "Income") (column_numbers data "Expenses").
  by rewrite dated_rows_history, data_by_month_months.
Qed.

(** The two means: the totals of the dated records over the number of
    months from the earliest to the latest. *)
Lemma data_by_month_means (rows : list (Z * (Qc * Qc))) (earliest latest : Z) :
  earliest ≤ latest →
  month_bins rows.*1 = seqZ earliest (latest - earliest + 1) →
  Qc_mean (data_by_month rows).*2.*1
  = float_div (Qc_sum rows.*2.*1) (Qc_of_Z (latest - earliest + 1))
  ∧ Qc_mean (data_by_month rows).*2.*2
    = float_div (Qc_sum rows.*2.*2) (Qc_of_Z (latest - earliest + 1)).
Proof.
  intros Hle Hbins.
  destruct (data_by_month_conserves rows) as [Hci Hce].
  assert (Hlen : ∀ (f : Z * (Qc * Qc) → Qc),
            Z.of_nat (length (f <$> data_by_month rows)) = latest - earliest + 1).
  { intros f. rewrite length_fmap. rewrite <- (length_fmap fst).
    rewrite data_by_month_months, Hbins, length_seqZ. lia. }
  unfold Qc_mean. rewrite Hci, Hce.
  rewrite <- !list_fmap_compose. by rewrite !Hlen.
Qed.

(** The try block on a frame with a usable date and numeric columns: the
    grouping raises when the earliest month lies before [month_floor];
    otherwise the loop runs from the latest month with the two means. *)
Lemma monthly_forecast_history (data : DataFrame) (months_ahead : Z) :
  "Date" ∈ df_columns data →
  (∃ c t, c ∈ column data "Date" ∧ to_datetime c = CDate t) →
  numeric_column data "Income" → numeric_column data "Expenses" →
  ∃ earliest latest : Z,
    earliest ∈ (history_rows data).*1
    ∧ latest ∈ (history_rows data).*1
    ∧ (∀ mi, mi ∈ (history_rows data).*1 → earliest ≤ mi ≤ latest)
    ∧ monthly_forecast (with_parsed_dates data) months_ahead
      = if bool_decide (month_floor ≤ earliest)
        then predicted_months latest
               (float_div (Qc_sum (history_rows data).*2.*1) (Qc_of_Z (latest - earliest + 1)))
               (float_div (Qc_sum (history_rows data).*2.*2) (Qc_of_Z (latest - earliest + 1)))
               (seqZ 1 months_ahead) []
        else ([], true).
Proof.
  intros Hdate Husable Hinc Hexp.
  destruct (month_bins_span (history_rows data).*1)
    as (earliest & latest & Hlo & Hhi & Hb & Hbins).
  { intros Hnil%fmap_nil_inv. by apply (history_rows_nonempty data Husable). }
  assert (Hle : earliest ≤ latest) by (specialize (Hb latest Hhi); lia).
  exists earliest, latest. split; [done|]. split; [done|]. split; [done|].
  unfold monthly_forecast. rewrite (monthly_totals_history _ Hdate Hinc Hexp), Hbins.
  destruct (decide (month_floor ≤ earliest)) as [Hfloor|Hfloor].
  - rewrite (bool_decide_eq_true_2 (month_floor ≤ earliest)) by done.
    rewrite bool_decide_eq_true_2.
    + rewrite data_by_month_months, Hbins, last_lookup, length_seqZ.
      rewrite lookup_seqZ_lt by lia.
      replace (earliest + Z.of_nat (Nat.pred (Z.to_nat (latest - earliest + 1)))) with latest
        by lia.
      by destruct (data_by_month_means _ _ _ Hle Hbins) as [-> ->].
    + apply Forall_forall. intros mi Hmi%elem_of_seqZ. lia.
  - rewrite (bool_decide_eq_false_2 (month_floor ≤ earliest)) by done.
    rewrite bool_decide_eq_false_2; [done|].
    rewrite Forall_forall. intros Hall. apply Hfloor, Hall, elem_of_seqZ. lia.
Qed.

(** *** Month labels in time order *)








Lemma usable_date_not_all_na (dates : list cell) (c : cell) (t : Timestamp) :
  c ∈ dates → to_datetime c = CDate t → forallb isna dates = false.
Proof.
  intros Hc Ht. destruct (forallb isna dates) eqn:E; [|done].
  rewrite forallb_forall in E. apply list_elem_of_In, E in Hc.
  by destruct c.
Qed.

(** On a frame with a usable date the function runs its try block on the
    frame with parsed dates, which is also the state it leaves the caller's
    frame in; when the block raises, the except branch appends its entries
    to those the block has appended. *)
Lemma generate_financial_predictions_usable (now : Timestamp) (data : DataFrame)
    (months_ahead : Z) :
  df_empty data = false → "Date" ∈ df_columns data →
  (∃ c t, c ∈ column data "Date" ∧ to_datetime c = CDate t) →
  generate_financial_predictions now (Some data) months_ahead
  = (do monthly_data <-
       (if (monthly_forecast (with_parsed_dates data) months_ahead).2
        then default_months now (seqZ 1 months_ahead)
               (monthly_forecast (with_parsed_dates data) months_ahead).1
        else Ok (monthly_forecast (with_parsed_dates data) months_ahead).1);
     Ok {| forecast_summary := forecast_summary_text months_ahead;
           monthly_predictions := monthly_data |},
     Some (with_parsed_dates data)).
Proof.
  intros Hne Hdate (c & t & Hc & Ht). unfold generate_financial_predictions.
  rewrite Hne, (getitem_column _ _ Hdate), (usable_date_not_all_na _ _ _ Hc Ht).
  cbn [negb]. rewrite (setitem_parsed_dates _ Hne Hdate).
  by destruct (monthly_forecast _ _) as [monthly_data []].
Qed.



(** The state of the caller's frame after a call that passes the date test:
    its Date column has been overwritten with the parsed dates. *)
Lemma generate_financial_predictions_state (now : Timestamp) (data : DataFrame)
    (months_ahead : Z) :
  df_empty data = false → "Date" ∈ df_columns data →
  forallb isna (column data "Date") = false →
  (generate_financial_predictions now (Some data) months_ahead).2
  = Some (with_parsed_dates data).
Proof.
  intros Hne Hdate Hna. unfold generate_financial_predictions.
  rewrite Hne, (getitem_column _ _ Hdate), Hna. cbn [negb].
  rewrite (setitem_parsed_dates _ Hne Hdate).
  by destruct (monthly_forecast _ _) as [monthly_data []].
Qed.

(** A frame whose Date column holds a text is not the frame the call leaves
    behind: afterwards every Date cell is a Timestamp or [NaT]. *)
Lemma generate_financial_predictions_overwrites_text (now : Timestamp) (data : DataFrame)
    (months_ahead : Z) (r : gmap string cell) (s : string) :
  df_empty data = false → "Date" ∈ df_columns data →
  r ∈ df_rows data → r !! "Date" = Some (CStr s) →
  ∃ data', (generate_financial_predictions now (Some data) months_ahead).2 = Some data'
    ∧ data' ≠ data
    ∧ Forall (λ r', ∃ d, r' !! "Date" = Some d ∧ (d = CNaT ∨ ∃ t, d = CDate t))
        (df_rows data').
Proof.
  intros Hne Hdate Hr Hs. exists (with_parsed_dates data).
  assert (Hall : Forall (λ r', ∃ d, r' !! "Date" = Some d ∧ (d = CNaT ∨ ∃ t, d = CDate t))
                   (df_rows (with_parsed_dates data))).
  { unfold with_parsed_dates. cbn [df_rows]. apply Forall_fmap, Forall_forall.
    intros r0 _. cbn. rewrite lookup_insert_eq. eexists. split; [done|].
    apply to_datetime_cases. }
  split; [|split; [|done]].
  - apply generate_financial_predictions_state; [done..|].
    destruct (forallb isna (column data "Date")) eqn:E; [|done].
    rewrite forallb_forall in E.
    assert (Hin : In (CStr s) (column data "Date")).
    { apply list_elem_of_In. unfold column.
      apply (list_elem_of_fmap_2' _ _ r); [done|]. unfold row_get. by rewrite Hs. }
    by apply E in Hin.
  - intros Heq. rewrite Heq in Hall. rewrite Forall_forall in Hall.
    destruct (Hall r Hr) as (d & Hd & [-> | [t ->]]); congruence.
Qed.

(** A frame whose Date column already holds Timestamps (or [NaT]) in every
    row is left as it was. *)
Lemma generate_financial_predictions_keeps_datetimes (now : Timestamp) (data : DataFrame)
    (months_ahead : Z) :
  Forall (λ r, ∃ d, r !! "Date" = Some d ∧ to_datetime d = d) (df_rows data) →
  (generate_financial_predictions now (Some data) months_ahead).2 = Some data.
Proof.
  intros Hall. unfold generate_financial_predictions.
  destruct (df_empty data) eqn:Hne; [done|].
  unfold getitem. case_bool_decide as Hdate; [|done].
  fold (column data "Date").
  assert (Hsame : with_parsed_dates data = data).
  { destruct data as [cols rows]. unfold with_parsed_dates. cbn [df_columns df_rows] in *.
    f_equal. clear Hne Hdate.
    induction Hall as [|r rows (d & Hd & Hfix) _ IH]; [done|].
    rewrite fmap_cons. f_equal; [|exact IH].
    unfold row_get. rewrite Hd. simpl. rewrite Hfix. by apply insert_id. }
  destruct (negb (forallb isna (column data "Date"))); [|done].
  rewrite (setitem_parsed_dates _ Hne Hdate), Hsame.
  by destruct (monthly_forecast _ _) as [monthly_data []].
Qed.

Ltac detect_column_branches :=
  unfold detect_column, unassigned;
  repeat match goal with
  | |- context [ ?a && bool_decide ?P ] =>
      destruct a eqn:?; cbn [andb]; [ destruct (bool_decide_reflect P) | ]; cbn [andb]
  end.

Lemma detect_column_date (m : gmap string (option string)) (col : string) :
  detect_column m col !! "Date"
  = (if header_matches date_columns col && bool_decide (m !! "Date" = None)
     then Some (Some col) else (m !! "Date")).
Proof.
  unfold header_matches. detect_column_branches;
    rewrite ?lookup_insert_eq, ?lookup_insert_ne by done; try done.
  all: by rewrite bool_decide_eq_false_2.
Qed.

Lemma detect_fold_date (cols : list string) (m : gmap string (option string)) :
  foldl detect_column m cols !! "Date"
  = match m !! "Date" with
    | Some v => Some v
    | None => fmap (M:=option) Some (List.find (header_matches date_columns) cols)
    end.
Proof.
  revert m. induction cols as [|col cols IH]; intros m; cbn [foldl List.find].
  - by destruct (m !! "Date").
  - rewrite IH, detect_column_date.
    destruct (m !! "Date") as [v|] eqn:Hm.
    + rewrite bool_decide_eq_false_2 by done. by rewrite andb_false_r.
    + rewrite bool_decide_eq_true_2 by done. rewrite andb_true_r.
      by destruct (header_matches date_columns col).
Qed.

(** X1: the Date field goes to the first header, in column order, that
    contains a date keyword; it stays unassigned when no header does. *)
Theorem detect_excel_structure_first_date (df : DataFrame) :
  detect_excel_structure df !! "Date"
  = fmap (M:=option) Some (List.find (header_matches date_columns) (df_columns df)).
Proof. unfold detect_excel_structure. by rewrite detect_fold_date, lookup_empty. Qed.

Lemma detect_column_sound (m : gmap string (option string)) (col : string) :
  (∀ k h, m !! k = Some (Some h) → header_matches (field_keywords k) h = true) →
  ∀ k h, detect_column m col !! k = Some (Some h) →
    header_matches (field_keywords k) h = true.
Proof.
  intros Hm k h. unfold header_matches in *. detect_column_branches; try apply Hm.
  all: match goal with
       | |- <[ ?k' := _ ]> _ !! _ = _ → _ =>
           destruct (decide (k' = k)) as [<-|Hne];
           [ rewrite lookup_insert_eq; intros [= <-]; done
           | rewrite lookup_insert_ne by done; apply Hm ]
       end.
Qed.

Lemma detect_fold_sound (cols : list string) (m : gmap string (option string)) :
  (∀ k h, m !! k = Some (Some h) → header_matches (field_keywords k) h = true) →
  ∀ k h, foldl detect_column m cols !! k = Some (Some h) →
    header_matches (field_keywords k) h = true.
Proof.
  revert m. induction cols as [|col cols IH]; intros m Hm; simpl; [done|].
  apply IH. by apply detect_column_sound.
Qed.

(** X2: a header is assigned to a canonical field only if it contains one of
    that field's keywords. *)
Theorem detect_excel_structure_sound (df : DataFrame) (k h : string) :
  detect_excel_structure df !! k = Some (Some h) →
  header_matches (field_keywords k) h = true.
Proof.
  apply detect_fold_sound. intros k' h' Hk. by rewrite lookup_empty in Hk.
Qed.

Lemma detect_fold_extends (cols : list string) (m : gmap string (option string)) :
  m ⊆ foldl detect_column m cols.
Proof.
  revert m. induction cols as [|col cols IH]; intros m; simpl; [done|].
  etrans; [|apply IH].
  destruct (detect_column_cases m col) as [-> | (k & _ & Hnone & ->)]; [done|].
  by apply insert_subseteq.
Qed.

(** X3: columns appended to the right of a sheet never change a field the
    scan has already assigned. *)
Theorem detect_excel_structure_extends (cols more : list string)
    (rows rows' : list (gmap string cell)) :
  detect_excel_structure (mkDataFrame cols rows)
  ⊆ detect_excel_structure (mkDataFrame (cols ++ more) rows').
Proof.
  unfold detect_excel_structure. cbn [df_columns]. rewrite foldl_app.
  apply detect_fold_extends.
Qed.

Lemma recognised_cases (col : string) :
  recognised col
  = any_keyword_in date_columns (str_lower col)
    || (any_keyword_in description_columns (str_lower col)
    || (any_keyword_in category_columns (str_lower col)
    || (any_keyword_in income_columns (str_lower col)
    || (any_keyword_in expense_columns (str_lower col) || false)))).
Proof. reflexivity. Qed.

Lemma detect_column_unrecognised (m : gmap string (option string)) (col : string) :
  recognised col = false → detect_column m col = m.
Proof.
  rewrite recognised_cases, !orb_false_iff. intros (Hd & Hs & Hc & Hi & He & _).
  unfold detect_column. by rewrite Hd, Hs, Hc, Hi, He.
Qed.

Lemma detect_column_recognised (col : string) :
  recognised col = true → detect_column ∅ col ≠ ∅.
Proof.
  rewrite recognised_cases. intros Hr.
  detect_column_branches; try apply insert_non_empty;
    try (exfalso; match goal with Hn : ¬ _ |- _ => apply Hn, lookup_empty end).
  done.
Qed.

Lemma detect_fold_empty (cols : list string) :
  foldl detect_column ∅ cols = ∅ ↔ Forall (λ col, recognised col = false) cols.
Proof.
  induction cols as [|col cols IH]; simpl.
  - split; [by constructor | done].
  - split.
    + intros Hfold.
      assert (Hstep : detect_column ∅ col = ∅).
      { apply (anti_symm (⊆)); [|apply map_empty_subseteq].
        rewrite <- Hfold at 2. apply detect_fold_extends. }
      rewrite Hstep in Hfold. constructor; [|by apply IH].
      destruct (recognised col) eqn:Hr; [|done].
      by destruct (detect_column_recognised col Hr).
    + intros Hall. inversion Hall as [|? ? Hcol Hrest]; subst.
      rewrite detect_column_unrecognised by done. by apply IH.
Qed.

(** X4: the mapping is empty exactly when no header contains a keyword of any
    of the five lists; this is the case in which the application reports an
    unrecognised file. *)
Theorem detect_excel_structure_empty (df : DataFrame) :
  detect_excel_structure df = ∅
  ↔ Forall (λ col, recognised col = false) (df_columns df).
Proof. apply detect_fold_empty. Qed.

Lemma positive_field_ok (row : gmap string cell) (k : string) (b : bool) :
  positive_field row k = Ok b → b = amount_positive row k.
Proof.
  unfold positive_field, amount_positive.
  destruct (row !! k) as [[]|]; simpl; congruence.
Qed.

Lemma scan_categories_side (is_income is_expense : bool) (description category : string)
    (table : list (string * list string)) :
  scan_categories is_income is_expense description table = Some category →
  (is_income && negb (is_expense_category category))
  || (is_expense && is_expense_category category) = true.
Proof.
  induction table as [|[c kws] rest IH]; [done|]. cbn [scan_categories].
  destruct (keyword_match kws description); [|done].
  destruct (is_income && negb (is_expense_category c)) eqn:Hi.
  { intros [= <-]. by rewrite Hi. }
  destruct (is_expense && is_expense_category c) eqn:He.
  { intros [= <-]. rewrite He. by rewrite orb_true_r. }
  done.
Qed.

Lemma classify_transactions_cases (row : gmap string cell) (label : string) :
  classify_transactions row = Ok label →
  (∃ description,
     usable_description row = Some description
     ∧ scan_categories (amount_positive row "Income") (amount_positive row "Expenses")
         description category_keywords = Some label)
  ∨ label = default_label (amount_positive row "Income") (amount_positive row "Expenses").
Proof.
  unfold classify_transactions.
  destruct (positive_field row "Income") as [is_income|] eqn:Hi; [|done].
  destruct (positive_field row "Expenses") as [is_expense|] eqn:He; [|done].
  apply positive_field_ok in Hi, He. subst. cbn [result_bind].
  destruct (usable_description row) as [description|]; cbn [mbind option_bind].
  - destruct (scan_categories _ _ _ _) as [category|] eqn:Hs.
    + intros [= <-]. left. by exists description.
    + intros [= <-]. by right.
  - intros [= <-]. by right.
Qed.

(** X5: a label of the expense group (one that starts with the expense
    prefix, purchases or travel) is returned only for a row whose expenses
    are positive, and any other label except the uncategorized one only for
    a row whose income is positive. *)
Theorem classify_transactions_side (row : gmap string cell) (label : string) :
  classify_transactions row = Ok label →
  (is_expense_category label = true → amount_positive row "Expenses" = true)
  ∧ (is_expense_category label = false → label ≠ uncategorized_label →
     amount_positive row "Income" = true).
Proof.
  intros Hc. destruct (classify_transactions_cases _ _ Hc) as [(d & _ & Hs) | ->].
  - apply scan_categories_side in Hs.
    destruct (amount_positive row "Income"), (amount_positive row "Expenses"),
      (is_expense_category label); cbn in Hs; done.
  - by destruct (amount_positive row "Income"), (amount_positive row "Expenses").
Qed.

Lemma scan_categories_no_side (description : string) (table : list (string * list string)) :
  scan_categories false false description table = None.
Proof.
  induction table as [|[c kws] rest IH]; [done|]. cbn [scan_categories].
  by destruct (keyword_match kws description).
Qed.

(** X6: a row with neither positive income nor positive expenses is
    uncategorized, whatever its description says. *)
Theorem classify_transactions_no_amount (row : gmap string cell) :
  numeric_if_present row "Income" → numeric_if_present row "Expenses" →
  amount_positive row "Income" = false → amount_positive row "Expenses" = false →
  classify_transactions row = Ok uncategorized_label.
Proof.
  intros Hi He Hni Hne. rewrite (classify_transactions_value _ Hi He), Hni, Hne.
  destruct (usable_description row) as [d|]; cbn [mbind option_bind]; [|done].
  by rewrite scan_categories_no_side.
Qed.

(** X7: whatever the row, a label the classifier returns is one of the
    eleven categories of the keyword table or one of the three defaults. *)
Theorem classify_transactions_labels (row : gmap string cell) (label : string) :
  classify_transactions row = Ok label → label ∈ known_labels.
Proof.
  intros Hc. unfold known_labels. apply elem_of_app.
  destruct (classify_transactions_cases _ _ Hc) as [(d & _ & Hs) | ->].
  - left. by eapply scan_categories_elem.
  - right. destruct (amount_positive row "Income"), (amount_positive row "Expenses");
      unfold default_label; set_solver.
Qed.

Lemma mapped_lookup (m : gmap string (option string)) (k c : string) :
  mapped m k = Some c ↔ m !! k = Some (Some c).
Proof.
  unfold mapped. destruct (m !! k) as [[c'|]|]; cbn; split; congruence.
Qed.

Lemma columns_mapped_once_missing (df : DataFrame) (m : gmap string (option string)) :
  columns_mapped_once df m = false
  ↔ ∃ k c, k ∈ canonical_fields ∧ m !! k = Some (Some c)
           ∧ length (filter (λ x, x = c) (df_columns df)) ≠ 1%nat.
Proof.
  unfold columns_mapped_once. split.
  - unfold canonical_fields. cbn [forallb]. rewrite !andb_false_iff.
    intros Hf.
    assert (Hone : ∃ k, k ∈ canonical_fields ∧ column_mapped_once df m k = false).
    { unfold canonical_fields.
      destruct Hf as [Hp|[Hp|[Hp|[Hp|[Hp|Hp]]]]]; [..|done];
        eexists; (split; [|exact Hp]); set_solver. }
    destruct Hone as (k & Hk & Hp). exists k.
    unfold column_mapped_once in Hp. destruct (mapped m k) as [c|] eqn:Hm; [|done].
    exists c. split; [done|]. split; [by apply mapped_lookup|].
    by apply bool_decide_eq_false_1 in Hp.
  - intros (k & c & Hk & Hm & Hc). apply not_true_iff_false.
    rewrite forallb_forall. intros Hall.
    specialize (Hall k ltac:(by apply list_elem_of_In)).
    unfold column_mapped_once in Hall. apply mapped_lookup in Hm. rewrite Hm in Hall.
    by apply bool_decide_eq_true_1 in Hall.
Qed.

(** X8: a canonical field mapped to a label that heads no column of the
    table, or several columns, makes the normalizer raise; a field that is
    absent from the mapping or mapped to None does not.  Without a Date
    column in the mapping the normalizer also raises when the table has so
    many rows that the first of the daily dates it makes up would fall
    before the earliest Timestamp.  It raises for no other reason than such
    a label or, when it has to make up the dates, a day that is no
    Timestamp. *)
Theorem analyze_excel_data_raises (now : Timestamp) (df : DataFrame)
    (m : gmap string (option string)) :
  ((∃ k c, k ∈ canonical_fields ∧ m !! k = Some (Some c)
           ∧ length (filter (λ x, x = c) (df_columns df)) ≠ 1%nat) →
   analyze_excel_data now df m = Raise)
  ∧ (mapped m "Date" = None
     ∧ now - (Z.of_nat (length (df_rows df)) - 1) * ns_per_day < timestamp_min →
     analyze_excel_data now df m = Raise)
  ∧ (analyze_excel_data now df m = Raise →
     (∃ k c, k ∈ canonical_fields ∧ m !! k = Some (Some c)
             ∧ length (filter (λ x, x = c) (df_columns df)) ≠ 1%nat)
     ∨ (mapped m "Date" = None
        ∧ ¬ (timestamp_min ≤ now - (Z.of_nat (length (df_rows df)) - 1) * ns_per_day
             ∧ now + ns_per_day ≤ timestamp_max))).
Proof.
  rewrite <- columns_mapped_once_missing, analyze_excel_data_rows.
  split; [|split].
  - by intros ->.
  - intros [Hdate Hlow]. unfold dates_fit, df_len. rewrite Hdate.
    rewrite (bool_decide_eq_false_2 (_ ∧ _)) by lia. by rewrite andb_false_r.
  - destruct (columns_mapped_once df m); [|by left]. cbn [andb].
    unfold dates_fit, df_len. destruct (mapped m "Date"); [done|].
    case_bool_decide; [done|]. intros _. by right.
Qed.

Lemma canonical_row_dom (now : Timestamp) (n : nat) (m : gmap string (option string))
    (i : nat) (r : gmap string cell) :
  dom (canonical_row now n m i r) = list_to_set canonical_columns.
Proof.
  unfold canonical_row, partial_row, canonical_columns.
  rewrite !dom_insert_L, dom_singleton_L. cbn [list_to_set foldr].
  apply set_eq. intros k. rewrite !elem_of_union, !elem_of_singleton, elem_of_empty.
  tauto.
Qed.

(** X9: whatever the input columns are called, a table the normalizer returns
    has the six columns Date, Description, Income, Expenses, Category, Net, in
    this order, and every record carries exactly these six fields. *)
Theorem analyze_excel_data_schema (now : Timestamp) (df : DataFrame)
    (m : gmap string (option string)) (out : DataFrame) :
  analyze_excel_data now df m = Ok out →
  df_columns out = ["Date"; "Description"; "Income"; "Expenses"; "Category"; "Net"]
  ∧ ∀ r, r ∈ df_rows out →
      dom r = {[ "Date"; "Description"; "Income"; "Expenses"; "Category"; "Net" ]}.
Proof.
  intros Hout. split.
  - rewrite analyze_excel_data_rows in Hout.
    destruct (columns_mapped_once df m && dates_fit now df m); [|done].
    by injection Hout as <-.
  - intros r Hr.
    destruct (analyze_excel_data_row_origin _ _ _ _ _ Hout Hr) as (i & r_in & _ & -> & _).
    rewrite canonical_row_dom. unfold canonical_columns. cbn [list_to_set foldr].
    apply set_eq. intros k. rewrite !elem_of_union, !elem_of_singleton, elem_of_empty.
    tauto.
Qed.

Lemma filter_all {A} (P : A → Prop) `{∀ x, Decision (P x)} (l : list A) :
  Forall P l → filter P l = l.
Proof.
  induction 1 as [|x l Hx Hl IH]; [done|].
  rewrite filter_cons_True by done. by rewrite IH.
Qed.

Lemma imap_fixed {A} (f : nat → A → A) (l : list A) :
  (∀ i x, l !! i = Some x → f i x = x) → imap f l = l.
Proof.
  intros Hf. apply list_eq. intros i. rewrite list_lookup_imap.
  destruct (l !! i) as [x|] eqn:Hx; [|done]. cbn. by rewrite (Hf i x Hx).
Qed.

Lemma canonical_row_date (now : Timestamp) (n : nat) (m : gmap string (option string))
    (i : nat) (r : gmap string cell) :
  row_get (canonical_row now n m i r) "Date" = date_cell now n m i r.
Proof.
  unfold row_get. by destruct (canonical_row_lookup now n m i r) as (-> & _).
Qed.

(** X10: when the mapping names no Date column, every mapped label heads
    one column of the table, and the day [n - 1] days before the clock and
    the day after the clock are Timestamps, no row is dropped and row i of n
    rows is dated n - 1 - i days before the current time, so that the last
    row carries the current time itself. *)
Theorem analyze_excel_data_default_dates (now : Timestamp) (df : DataFrame)
    (m : gmap string (option string)) :
  mapped m "Date" = None → columns_mapped_once df m = true →
  timestamp_min ≤ now - (Z.of_nat (length (df_rows df)) - 1) * ns_per_day →
  now + ns_per_day ≤ timestamp_max →
  ∃ out, analyze_excel_data now df m = Ok out
    ∧ length (df_rows out) = length (df_rows df)
    ∧ ∀ (i : nat) r, df_rows out !! i = Some r →
        r !! "Date"
        = Some (CDate (now - (Z.of_nat (length (df_rows df)) - 1 - Z.of_nat i) * ns_per_day)).
Proof.
  intros Hdate Hcols Hlo Hhi.
  assert (Hfit : dates_fit now df m = true).
  { unfold dates_fit, df_len. rewrite Hdate. by apply bool_decide_eq_true_2. }
  rewrite analyze_excel_data_rows, Hcols, Hfit. eexists. split; [done|].
  cbn [df_rows]. rewrite filter_all.
  - split; [by rewrite length_imap|]. intros i r. rewrite list_lookup_imap.
    destruct (df_rows df !! i) as [r_in|]; [|done]. cbn. intros [= <-].
    destruct (canonical_row_lookup now (df_len df) m i r_in) as (-> & _).
    unfold date_cell. by rewrite Hdate.
  - apply Forall_forall. intros r (i & r_in & -> & _)%elem_of_lookup_imap_1.
    rewrite canonical_row_date. unfold date_cell. by rewrite Hdate.
Qed.

Lemma clean_category_fixed (c : cell) : clean_category (clean_category c) = clean_category c.
Proof.
  rewrite (clean_category_text c). set (cat := if bool_decide _ then _ else _).
  rewrite clean_category_text. cbn [py_str]. f_equal.
  rewrite bool_decide_eq_false_2; [done|].
  subst cat. case_bool_decide as Hd.
  - by intros [|].
  - done.
Qed.

(** A record of the normalizer, read again under the canonical mapping, is
    the same record. *)
Lemma canonical_row_fixed (now now' : Timestamp) (n n' : nat)
    (m : gmap string (option string)) (i i' : nat) (r : gmap string cell) :
  isna (date_cell now n m i r) = false →
  canonical_row now' n' canonical_mapping i' (canonical_row now n m i r)
  = canonical_row now n m i r.
Proof.
  intros Hdate.
  destruct (canonical_row_lookup now n m i r) as (Hd & Hi & He & Hc & _).
  pose proof (canonical_row_description now n m i r) as Hs.
  set (row := canonical_row now n m i r) in *.
  assert (Edate : date_cell now' n' canonical_mapping i' row = date_cell now n m i r).
  { unfold date_cell at 1. change (mapped canonical_mapping "Date") with (Some "Date").
    unfold row_get. rewrite Hd. cbn [default].
    unfold date_cell in *. destruct (mapped m "Date") as [c|]; [|done].
    destruct (to_datetime_cases (row_get r c)) as [E | [t E]]; rewrite E in *; done. }
  assert (Edesc : description_cell canonical_mapping i' row = description_cell m i r).
  { unfold description_cell at 1.
    change (mapped canonical_mapping "Description") with (Some "Description").
    unfold row_get. by rewrite Hs. }
  assert (Einc : income_cell canonical_mapping row = income_cell m r).
  { unfold income_cell at 1. change (mapped canonical_mapping "Income") with (Some "Income").
    unfold row_get. rewrite Hi. cbn [default].
    by destruct (income_cell_num m r) as [q ->]. }
  assert (Eexp : expenses_cell canonical_mapping row = expenses_cell m r).
  { unfold expenses_cell at 1.
    change (mapped canonical_mapping "Expenses") with (Some "Expenses").
    unfold row_get. rewrite He. cbn [default].
    destruct (expenses_cell_num m r) as (q & -> & Hq). cbn. by rewrite Qcabs_pos. }
  assert (Ecat : category_cell now' n' canonical_mapping i' row = category_cell now n m i r).
  { unfold category_cell at 1.
    change (mapped canonical_mapping "Category") with (Some "Category").
    unfold row_get. rewrite Hc. cbn [default]. unfold category_cell.
    apply clean_category_fixed. }
  unfold canonical_row at 1. unfold partial_row at 1.
  rewrite Ecat, Einc, Eexp, Edesc, Edate. done.
Qed.

(** X11: normalizing a normalized table again, with every canonical field
    mapped to the column of its own name, returns the same table, at any
    later time. *)
Theorem analyze_excel_data_idempotent (now now' : Timestamp) (df : DataFrame)
    (m : gmap string (option string)) (out : DataFrame) :
  analyze_excel_data now df m = Ok out →
  analyze_excel_data now' out canonical_mapping = Ok out.
Proof.
  intros Hout.
  assert (Hrows : ∀ r, r ∈ df_rows out →
            ∃ i r_in, r = canonical_row now (df_len df) m i r_in
                      ∧ isna (date_cell now (df_len df) m i r_in) = false).
  { intros r Hr.
    destruct (analyze_excel_data_row_origin _ _ _ _ _ Hout Hr) as (i & r_in & _ & -> & Hd).
    rewrite canonical_row_date in Hd. eauto. }
  assert (Hcols : df_columns out = canonical_columns).
  { rewrite analyze_excel_data_rows in Hout.
    destruct (columns_mapped_once df m && dates_fit now df m); [|done].
    by injection Hout as <-. }
  rewrite analyze_excel_data_rows.
  assert (Hpresent : columns_mapped_once out canonical_mapping = true).
  { unfold columns_mapped_once, column_mapped_once, heads_one_column.
    rewrite Hcols. by vm_compute. }
  rewrite Hpresent. change (dates_fit now' out canonical_mapping) with true.
  cbn [andb]. f_equal. destruct out as [cols rows]. cbn [df_columns df_rows] in *.
  rewrite Hcols. f_equal.
  rewrite imap_fixed.
  - apply filter_all, Forall_forall. intros r Hr.
    destruct (Hrows r Hr) as (i & r_in & -> & Hd). by rewrite canonical_row_date.
  - intros i' r Hr.
    destruct (Hrows r (list_elem_of_lookup_2 _ _ _ Hr)) as (i & r_in & -> & Hd).
    by apply canonical_row_fixed.
Qed.

Lemma heads_one_column_NoDup (df : DataFrame) (c : string) :
  NoDup (df_columns df) → c ∈ df_columns df → heads_one_column df c = true.
Proof.
  intros Hnd Hc. unfold heads_one_column. apply bool_decide_eq_true_2.
  assert (Hnone : ∀ l : list string, c ∉ l → filter (λ x, x = c) l = []).
  { induction l as [|y l IHl]; [done|]. intros Hn.
    rewrite filter_cons_False; [apply IHl|]; set_solver. }
  induction Hnd as [|x cols Hx Hnd IH]; [by inversion Hc|].
  rewrite filter_cons. destruct (decide (x = c)) as [->|Hne].
  - cbn. by rewrite (Hnone cols Hx).
  - apply IH. by apply elem_of_cons in Hc as [->|Hc].
Qed.

Lemma detect_columns_mapped_once (df : DataFrame) :
  NoDup (df_columns df) → columns_mapped_once df (detect_excel_structure df) = true.
Proof.
  intros Hnd.
  destruct (columns_mapped_once df (detect_excel_structure df)) eqn:Hp; [done|].
  apply columns_mapped_once_missing in Hp as (k & c & _ & Hm & Hc).
  assert (H0 : mapping_from [] (∅ : gmap string (option string))).
  { intros k' v Hk. by rewrite lookup_empty in Hk. }
  destruct (detect_fold_from (df_columns df) [] ∅ H0 k (Some c) Hm) as (_ & h & [= <-] & Hin).
  pose proof (heads_one_column_NoDup df c Hnd Hin) as Hone.
  by apply bool_decide_eq_true_1 in Hone.
Qed.

(** X12: on a table whose headers are pairwise distinct, the normalizer does
    not raise under the mapping the detector builds for that table, provided
    that, when no header is detected as the date, the day [n - 1] days
    before the clock and the day after the clock are Timestamps ([n] the
    number of rows); it returns a table with at most as many records as the
    input has rows. *)
Theorem analyze_excel_data_after_detect (now : Timestamp) (df : DataFrame) :
  NoDup (df_columns df) →
  (detect_excel_structure df !! "Date" = None →
   timestamp_min ≤ now - (Z.of_nat (length (df_rows df)) - 1) * ns_per_day
   ∧ now + ns_per_day ≤ timestamp_max) →
  ∃ out, analyze_excel_data now df (detect_excel_structure df) = Ok out
    ∧ (length (df_rows out) ≤ length (df_rows df))%nat.
Proof.
  intros Hnd Hfit.
  assert (Hfit' : dates_fit now df (detect_excel_structure df) = true).
  { unfold dates_fit, mapped, df_len.
    destruct (detect_excel_structure df !! "Date") as [[c|]|] eqn:Hd; [done| |].
    - assert (H0 : mapping_from [] (∅ : gmap string (option string))).
      { intros k' v Hk. by rewrite lookup_empty in Hk. }
      by destruct (detect_fold_from (df_columns df) [] ∅ H0 "Date" None Hd)
        as (_ & h & [=] & _).
    - cbn. apply bool_decide_eq_true_2. by apply Hfit. }
  rewrite analyze_excel_data_rows, (detect_columns_mapped_once df Hnd), Hfit'.
  eexists. split; [done|]. cbn [df_rows].
  etrans; [apply length_filter|]. by rewrite length_imap.
Qed.

Lemma known_labels_clean : Forall (λ l : string, l ≠ "" ∧ l ≠ "nan") known_labels.
Proof. by apply (bool_decide_unpack _). Qed.

(** X13: when the mapping names no Category column, the category of every
    record is one of the classifier's fourteen labels, and it is a label of
    the expense group only if the record's expenses are positive. *)
Theorem analyze_excel_data_derived_categories (now : Timestamp) (df : DataFrame)
    (m : gmap string (option string)) (out : DataFrame) (r : gmap string cell) :
  mapped m "Category" = None →
  analyze_excel_data now df m = Ok out → r ∈ df_rows out →
  ∃ label, r !! "Category" = Some (CStr label)
    ∧ label ∈ known_labels
    ∧ (is_expense_category label = true →
       ∃ q, r !! "Expenses" = Some (CNum q) ∧ (0 < q)%Qc).
Proof.
  intros Hcat Hout Hr.
  destruct (analyze_excel_data_row_origin _ _ _ _ _ Hout Hr) as (i & r_in & _ & -> & _).
  destruct (canonical_row_lookup now (df_len df) m i r_in) as (_ & _ & He & Hc & _).
  pose proof (classify_partial_row now (df_len df) m i r_in) as Hclass.
  set (row := partial_row now (df_len df) m i r_in) in *.
  set (label := classify_label row) in *.
  assert (Hknown : label ∈ known_labels).
  { unfold known_labels. apply elem_of_app.
    destruct (classify_transactions_cases _ _ Hclass) as [(d & _ & Hs) | ->].
    - left. by eapply scan_categories_elem.
    - right. destruct (amount_positive row "Income"), (amount_positive row "Expenses");
        unfold default_label; set_solver. }
  exists label. split; [|split; [done|]].
  - rewrite Hc. unfold category_cell. rewrite Hcat. fold row. fold label.
    rewrite clean_category_text. cbn [py_str].
    rewrite bool_decide_eq_false_2; [done|].
    pose proof known_labels_clean as Hclean. rewrite Forall_forall in Hclean.
    destruct (Hclean label Hknown). by intros [|].
  - intros Hgroup. rewrite He.
    assert (Hpos : amount_positive row "Expenses" = true).
    { destruct (classify_transactions_cases _ _ Hclass) as [(d & _ & Hs) | Hdef].
      - apply scan_categories_side in Hs. rewrite Hgroup in Hs.
        destruct (amount_positive row "Income"), (amount_positive row "Expenses");
          cbn in Hs; done.
      - rewrite Hdef in Hgroup.
        by destruct (amount_positive row "Income"), (amount_positive row "Expenses"). }
    unfold amount_positive, row, partial_row in Hpos.
    rewrite lookup_insert_eq in Hpos.
    destruct (expenses_cell m r_in) as [| | |q| |]; try done.
    exists q. split; [done|]. by apply bool_decide_eq_true_1 in Hpos.
Qed.

Lemma ltb_lt (a b : string) : String.ltb a b = true ↔ String_as_OT.lt a b.
Proof.
  rewrite <- String_as_OT.cmp_lt. unfold String.ltb, String_as_OT.cmp.
  by destruct (String.compare a b).
Qed.

Lemma ltb_trans (a b c : string) :
  String.ltb a b = true → String.ltb b c = true → String.ltb a c = true.
Proof. rewrite !ltb_lt. apply String_as_OT.lt_trans. Qed.

Lemma ltb_neq (a b : string) : String.ltb a b = true → a ≠ b.
Proof. rewrite ltb_lt. apply String_as_OT.lt_not_eq. Qed.

Lemma ltb_total (a b : string) : a ≠ b → String.ltb a b = false → String.ltb b a = true.
Proof.
  unfold String.ltb. rewrite (String.compare_antisym b a).
  destruct (String.compare a b) eqn:E; try done.
  apply String.compare_eq_iff in E. done.
Qed.

Lemma group_insert_keys (k k0 : string) (v : Qc) (acc : list (string * Qc)) :
  k ∈ (group_insert k0 v acc).*1 ↔ k = k0 ∨ k ∈ acc.*1.
Proof.
  induction acc as [|[k1 v1] rest IH]; cbn [group_insert].
  - rewrite fmap_cons. cbn. rewrite elem_of_cons. tauto.
  - case_bool_decide as Heq.
    + subst k1. rewrite !fmap_cons. cbn [fst]. rewrite !elem_of_cons. tauto.
    + destruct (String.ltb k0 k1).
      * rewrite !fmap_cons. cbn [fst]. rewrite !elem_of_cons. tauto.
      * rewrite !fmap_cons. cbn [fst]. rewrite !elem_of_cons, IH. tauto.
Qed.

Lemma group_insert_ascend (k : string) (v : Qc) (acc : list (string * Qc)) :
  keys_ascend acc → keys_ascend (group_insert k v acc).
Proof.
  induction acc as [|[k1 v1] rest IH]; cbn [group_insert keys_ascend].
  - done.
  - intros [Hhead Hrest]. case_bool_decide as Heq.
    + done.
    + destruct (String.ltb k k1) eqn:Hlt; cbn [keys_ascend fst].
      * split; [|done]. constructor; [done|].
        eapply Forall_impl; [exact Hhead|]. intros kv Hkv. by eapply ltb_trans.
      * split; [|by apply IH].
        apply Forall_forall. intros [k2 v2] Hin. cbn [fst].
        assert (Hk2 : k2 ∈ (group_insert k v rest).*1).
        { apply list_elem_of_fmap. by exists (k2, v2). }
        apply group_insert_keys in Hk2 as [-> | Hk2].
        -- by apply ltb_total.
        -- apply list_elem_of_fmap in Hk2 as ([k3 v3] & -> & Hin3).
           rewrite Forall_forall in Hhead. by apply (Hhead (k3, v3)).
Qed.

Lemma series_get_fresh (s : list (string * Qc)) (k : string) :
  k ∉ s.*1 → series_get s k = 0%Qc.
Proof.
  induction s as [|[k1 v1] rest IH]; [done|]. rewrite fmap_cons. cbn [fst series_get].
  intros Hk. rewrite not_elem_of_cons in Hk. destruct Hk as [Hne Hk].
  rewrite bool_decide_eq_false_2 by done. by apply IH.
Qed.

Lemma keys_ascend_fresh (k k1 : string) (v1 : Qc) (rest : list (string * Qc)) :
  keys_ascend ((k1, v1) :: rest) → String.ltb k k1 = true → k ∉ ((k1, v1) :: rest).*1.
Proof.
  cbn [keys_ascend fst]. intros [Hhead _] Hlt. rewrite fmap_cons. cbn [fst].
  rewrite not_elem_of_cons. split; [by apply ltb_neq|].
  intros ([k2 v2] & -> & Hin)%list_elem_of_fmap. cbn [fst] in *.
  rewrite Forall_forall in Hhead. specialize (Hhead _ Hin). cbn [fst] in Hhead.
  apply (ltb_neq k2 k2); [|done]. by apply (ltb_trans _ k1).
Qed.

Lemma series_get_group_insert (k k' : string) (v : Qc) (acc : list (string * Qc)) :
  keys_ascend acc →
  series_get (group_insert k v acc) k'
  = (series_get acc k' + (if bool_decide (k = k') then v else 0))%Qc.
Proof.
  induction acc as [|[k1 v1] rest IH]; cbn [group_insert].
  - intros _. cbn [series_get]. case_bool_decide; ring.
  - intros Hasc. destruct (decide (k = k1)) as [<-|Heq].
    + rewrite (bool_decide_eq_true_2 (k = k)) by done.
      cbn [series_get]. case_bool_decide; ring.
    + rewrite (bool_decide_eq_false_2 (k = k1)) by done.
      destruct (String.ltb k k1) eqn:Hlt.
      * cbn [series_get]. destruct (decide (k = k')) as [<-|Hk].
        -- rewrite !(bool_decide_eq_true_2 (k = k)) by done.
           rewrite (bool_decide_eq_false_2 (k1 = k)) by done.
           pose proof (keys_ascend_fresh _ _ _ _ Hasc Hlt) as Hfresh.
           rewrite fmap_cons, not_elem_of_cons in Hfresh.
           rewrite (series_get_fresh rest k) by apply Hfresh. ring.
        -- rewrite !(bool_decide_eq_false_2 (k = k')) by done. ring.
      * cbn [series_get]. destruct (decide (k1 = k')) as [<-|Hk1].
        -- rewrite (bool_decide_eq_true_2 (k1 = k1)) by done.
           rewrite (bool_decide_eq_false_2 (k = k1)) by done. ring.
        -- rewrite (bool_decide_eq_false_2 (k1 = k')) by done.
           apply IH. by destruct Hasc.
Qed.

Lemma group_fold (kvs : list (cell * Qc)) (acc : list (string * Qc)) :
  keys_ascend acc →
  keys_ascend (foldl group_step acc kvs)
  ∧ (∀ k, k ∈ (foldl group_step acc kvs).*1
          ↔ k ∈ acc.*1 ∨ filter (λ kv, group_key kv.1 = Some k) kvs ≠ [])
  ∧ (∀ k, series_get (foldl group_step acc kvs) k
          = (series_get acc k
             + Qc_sum (snd <$> filter (λ kv, group_key kv.1 = Some k) kvs))%Qc).
Proof.
  revert acc. induction kvs as [|[c v] kvs IH]; intros acc Hasc; cbn [foldl].
  - split; [done|]. split.
    + intros k. rewrite filter_nil. tauto.
    + intros k. rewrite filter_nil. cbn. ring.
  - assert (Hstep : keys_ascend (group_step acc (c, v))).
    { unfold group_step. cbn [fst snd]. destruct (group_key c); [|done].
      by apply group_insert_ascend. }
    destruct (IH _ Hstep) as (Hres & Hkeys & Hget). split; [done|]. split.
    + intros k. rewrite Hkeys, filter_cons. unfold group_step. cbn [fst snd].
      destruct (group_key c) as [k0|].
      * rewrite group_insert_keys. destruct (decide (Some k0 = Some k)) as [[= ->]|Hne].
        -- split; [|tauto]. intros _. by right.
        -- split; [|tauto]. intros [[-> | ?] | ?]; [done|tauto|tauto].
      * destruct (decide (None = Some k)); [done|]. tauto.
    + intros k. rewrite Hget, filter_cons. unfold group_step. cbn [fst snd].
      destruct (group_key c) as [k0|].
      * rewrite series_get_group_insert by done.
        destruct (decide (Some k0 = Some k)) as [[= ->]|Hne].
        -- rewrite bool_decide_eq_true_2 by done. rewrite fmap_cons. cbn [snd].
           match goal with
           | |- context [ Qc_sum (?x :: ?l) ] =>
               change (Qc_sum (x :: l)) with (x + Qc_sum l)%Qc
           end. ring.
        -- rewrite bool_decide_eq_false_2 by congruence. ring.
      * destruct (decide (None = Some k)); [done|]. done.
Qed.

Lemma filter_zip_rows (f : gmap string cell → cell) (g : gmap string cell → Qc)
    (k : string) (rows : list (gmap string cell)) :
  filter (λ kv : cell * Qc, group_key kv.1 = Some k) (zip (f <$> rows) (g <$> rows))
  = (λ r, (f r, g r)) <$> filter (λ r, group_key (f r) = Some k) rows.
Proof.
  induction rows as [|r rows IH]; [done|].
  rewrite !fmap_cons. cbn [zip zip_with]. rewrite !filter_cons. cbn [fst].
  destruct (decide (group_key (f r) = Some k)); rewrite IH; done.
Qed.

(** What the loop of [groupby_sum] leaves: ascending keys, one for every
    category of the table, each with the total of its records. *)
Lemma grouping_spec (data : DataFrame) (c : string) :
  keys_ascend (grouping data c)
  ∧ (∀ k, k ∈ (grouping data c).*1 ↔ category_rows data k ≠ [])
  ∧ (∀ k, series_get (grouping data c) k = category_total data c k).
Proof.
  unfold grouping, column_numbers, column, category_total, category_rows.
  rewrite <- list_fmap_compose.
  match goal with
  | |- context [ foldl group_step [] ?kvs ] =>
      destruct (group_fold kvs [] I) as (Hasc & Hkeys & Hget)
  end.
  split; [done|]. split.
  - intros k. rewrite Hkeys.
    rewrite (filter_zip_rows (λ r, row_get r "Category")).
    rewrite fmap_nil. split.
    + intros [Hin|Hne]; [by inversion Hin|]. intros E. by rewrite E in Hne.
    + intros Hne. right. intros E. by apply fmap_nil_inv in E.
  - intros k. rewrite Hget.
    rewrite (filter_zip_rows (λ r, row_get r "Category")).
    rewrite <- list_fmap_compose. cbn [series_get].
    match goal with
    | |- (_ + Qc_sum ?l)%Qc = Qc_sum ?r => change l with r
    end. ring.
Qed.

Lemma groupby_sum_numeric (data : DataFrame) (c : string) :
  numeric_column data c →
  groupby_sum (column data "Category") (column data c) = Ok (grouping data c).
Proof.
  intros [_ Hnum]. unfold groupby_sum. by rewrite (summand_numeric _ Hnum).
Qed.

Lemma merge_categories_lookup (expenses_by_category income_by_category : list (string * Qc))
    (k : string) :
  merge_categories expenses_by_category income_by_category !! k
  = if bool_decide (k ∈ expenses_by_category.*1 ∨ k ∈ income_by_category.*1)
    then Some {| expenses := series_get expenses_by_category k;
                 income := series_get income_by_category k;
                 net := (series_get income_by_category k
                         - series_get expenses_by_category k)%Qc |}
    else None.
Proof.
  unfold merge_categories.
  match goal with
  | |- set_to_map ?f ?X !! k = _ =>
      pose proof (λ x, lookup_set_to_map (M:=gmap string) f X k x (λ y y' _ _ Hy, Hy))
        as Hspec
  end.
  case_bool_decide as Hk.
  - apply Hspec. exists k. split; [|done].
    rewrite elem_of_union, !elem_of_list_to_set. done.
  - apply eq_None_not_Some. intros [x Hx]. apply Hspec in Hx as (y & Hy & [= -> _]).
    rewrite elem_of_union, !elem_of_list_to_set in Hy. done.
Qed.

(** The dict the aggregator returns on a non-empty table with numeric
    Income and Expenses columns. *)
Lemma generate_ai_insights_value (data : DataFrame) :
  df_empty data = false →
  numeric_column data "Income" →
  numeric_column data "Expenses" →
  let total_income := Qc_sum (column_numbers data "Income") in
  let total_expenses := Qc_sum (column_numbers data "Expenses") in
  let net_cash_flow := (total_income - total_expenses)%Qc in
  let has_category := bool_decide ("Category" ∈ df_columns data) in
  generate_ai_insights (Some data)
  = Ok {| summary :=
            if bool_decide (0 ≤ net_cash_flow)%Qc
            then positive_summary total_income total_expenses net_cash_flow
            else negative_summary total_income total_expenses net_cash_flow;
          insights :=
            (if bool_decide (0 ≤ net_cash_flow)%Qc
             then [positive_flow_insight] else [negative_flow_insight])
            ++ (if has_category then
                  [top_expense_insight (top_of (grouping data "Expenses")).1
                                       (top_of (grouping data "Expenses")).2;
                   top_income_insight (top_of (grouping data "Income")).1
                                      (top_of (grouping data "Income")).2]
                else []);
          category_analysis :=
            if has_category
            then merge_categories (grouping data "Expenses") (grouping data "Income")
            else ∅;
          trends := ∅;
          recommendations :=
            if bool_decide (net_cash_flow < 0)%Qc
            then negative_recommendations else positive_recommendations |}.
Proof.
  intros Hne Hi He. intros. unfold generate_ai_insights. rewrite Hne.
  pose proof (groupby_sum_numeric data "Income" Hi) as Hgi.
  pose proof (groupby_sum_numeric data "Expenses" He) as Hge.
  destruct Hi as [Hic Hin], He as [Hec Hen].
  rewrite (getitem_column _ _ Hic), (getitem_column _ _ Hec). cbn [result_bind].
  unfold series_sum.
  rewrite (summand_numeric _ Hin), (summand_numeric _ Hen). cbn [result_bind].
  fold (column_numbers data "Income") (column_numbers data "Expenses").
  fold total_income total_expenses net_cash_flow.
  unfold getitem. fold (column data "Category"). fold has_category.
  destruct has_category; cbn [result_bind fst snd].
  - rewrite Hge, Hgi. cbn [result_bind fst snd].
    by destruct (bool_decide (0 ≤ net_cash_flow)%Qc).
  - rewrite app_nil_r. done.
Qed.

Lemma generate_ai_insights_category_totals_aux (data : DataFrame) :
  df_empty data = false →
  numeric_column data "Income" →
  numeric_column data "Expenses" →
  "Category" ∈ df_columns data →
  ∃ a, generate_ai_insights (Some data) = Ok a
    ∧ ∀ k, category_analysis a !! k
           = if bool_decide (category_rows data k = []) then None
             else Some {| expenses := category_total data "Expenses" k;
                          income := category_total data "Income" k;
                          net := (category_total data "Income" k
                                  - category_total data "Expenses" k)%Qc |}.
Proof.
  intros Hne Hi He Hcat. rewrite (generate_ai_insights_value data Hne Hi He).
  eexists. split; [done|]. intros k. cbn [category_analysis].
  rewrite bool_decide_eq_true_2 by done. rewrite merge_categories_lookup.
  destruct (grouping_spec data "Expenses") as (_ & Hke & Hge).
  destruct (grouping_spec data "Income") as (_ & Hki & Hgi).
  rewrite Hge, Hgi. destruct (decide (category_rows data k = [])) as [Hrows|Hrows].
  - rewrite (bool_decide_eq_true_2 (category_rows data k = [])) by done.
    rewrite bool_decide_eq_false_2; [done|]. rewrite Hke, Hki. tauto.
  - rewrite (bool_decide_eq_false_2 (category_rows data k = [])) by done.
    rewrite bool_decide_eq_true_2; [done|]. left. by apply Hke.
Qed.






(** X16: on a non-empty table with pairwise distinct column labels and
    numeric Income and Expenses columns of whole amounts (their magnitudes
    adding up to less than 2^53, so that the totals are exact), summary,
    first insight and recommendations are chosen by one test, total expenses
    <= total income: a table that breaks even gets the positive summary, the
    positive insight and the positive recommendations. *)
Theorem generate_ai_insights_flow (data : DataFrame) :
  df_empty data = false →
  NoDup (df_columns data) →
  numeric_column data "Income" →
  numeric_column data "Expenses" →
  whole_amounts (column_numbers data "Income" ++ column_numbers data "Expenses") = true →
  let total_income := Qc_sum (column_numbers data "Income") in
  let total_expenses := Qc_sum (column_numbers data "Expenses") in
  ∃ a, generate_ai_insights (Some data) = Ok a
    ∧ if bool_decide (total_expenses ≤ total_income)%Qc
      then summary a
           = positive_summary total_income total_expenses (total_income - total_expenses)
           ∧ head (insights a) = Some positive_flow_insight
           ∧ recommendations a = positive_recommendations
      else summary a
           = negative_summary total_income total_expenses (total_income - total_expenses)
           ∧ head (insights a) = Some negative_flow_insight
           ∧ recommendations a = negative_recommendations.
Proof.
  intros Hne _ Hi He _. intros. rewrite (generate_ai_insights_value data Hne Hi He).
  eexists. split; [done|]. cbn [summary insights recommendations].
  fold total_income total_expenses.
  assert (Hiff : (0 ≤ total_income - total_expenses)%Qc ↔ (total_expenses ≤ total_income)%Qc).
  { unfold Qcminus. symmetry. apply Qcle_minus_iff. }
  case_bool_decide as Hle.
  - rewrite (bool_decide_eq_true_2 (0 ≤ _)%Qc) by by apply Hiff.
    rewrite (bool_decide_eq_false_2 (_ < _)%Qc); [done|]. apply Qcle_not_lt. by apply Hiff.
  - rewrite (bool_decide_eq_false_2 (0 ≤ _)%Qc) by by rewrite Hiff.
    rewrite (bool_decide_eq_true_2 (_ < _)%Qc); [done|]. apply Qcnot_le_lt. by rewrite Hiff.
Qed.

(** X17: on a non-empty table that lacks the Income column or the Expenses
    column the aggregator raises; it has no default for a missing amount
    column. *)
Theorem generate_ai_insights_missing_column (data : DataFrame) :
  df_empty data = false →
  "Income" ∉ df_columns data ∨ "Expenses" ∉ df_columns data →
  generate_ai_insights (Some data) = Raise.
Proof.
  intros Hne Hmiss. unfold generate_ai_insights. rewrite Hne.
  destruct (decide ("Income" ∈ df_columns data)) as [Hin|Hin].
  - destruct Hmiss as [?|Hex]; [done|].
    destruct (getitem data "Income") as [income_col|]; [|done]. cbn [result_bind].
    destruct (series_sum income_col); [|done]. cbn [result_bind].
    unfold getitem at 1. by rewrite bool_decide_eq_false_2.
  - unfold getitem at 1. by rewrite bool_decide_eq_false_2.
Qed.

Lemma monthly_forecast_length (data : DataFrame) (months_ahead : Z) :
  (length (monthly_forecast data months_ahead).1 ≤ Z.to_nat months_ahead)%nat
  ∧ ((monthly_forecast data months_ahead).2 = false →
     length (monthly_forecast data months_ahead).1 = Z.to_nat months_ahead).
Proof.
  unfold monthly_forecast.
  destruct (monthly_totals data) as [totals|]; [|cbn; split; [lia|done]].
  destruct (last totals.*1) as [last_date|]; [|cbn; split; [lia|done]].
  match goal with
  | |- context [ predicted_months ?l ?a ?e ?ix [] ] =>
      destruct (predicted_months_some l a e ix []) as (n & Hl & Hb);
      pose proof (predicted_months_all l a e ix []) as Hall
  end.
  destruct (predicted_months _ _ _ _ _) as [monthly_data raised]. cbn [fst snd] in *.
  subst monthly_data. cbn [app]. rewrite length_fmap, length_take, length_seqZ.
  split; [lia|]. intros ->. specialize (Hall (Hb eq_refl)).
  apply (f_equal (λ p, length p.1)) in Hall. cbn [fst app] in Hall.
  rewrite !length_fmap, length_take, length_seqZ in Hall. lia.
Qed.

(** X18: on data with pairwise distinct column labels, whenever the
    predictor returns, it returns no entry if the data is missing or empty,
    has no Date column or has only missing dates, whatever [months_ahead]
    is; in every other case it returns at least [months_ahead] entries and
    at most twice as many (more than [months_ahead] when the try block has
    appended entries before it raises). *)
Theorem generate_financial_predictions_length (now : Timestamp) (data : option DataFrame)
    (months_ahead : Z) (f : Forecast) :
  (∀ frame, data = Some frame → NoDup (df_columns frame)) →
  (generate_financial_predictions now data months_ahead).1 = Ok f →
  if has_dates data
  then (Z.to_nat months_ahead ≤ length (monthly_predictions f) ≤ 2 * Z.to_nat months_ahead)%nat
  else monthly_predictions f = [].
Proof.
  intros _. unfold generate_financial_predictions, has_dates.
  destruct data as [data|]; [|by intros [= <-]].
  destruct (df_empty data); [by intros [= <-]|]. cbn [negb andb].
  unfold getitem. fold (column data "Date").
  destruct (bool_decide ("Date" ∈ df_columns data)); [|by intros [= <-]]. cbn [andb].
  destruct (forallb isna (column data "Date")); [by intros [= <-]|]. cbn [negb].
  pose proof (monthly_forecast_length
    (setitem data "Date" (to_datetime <$> column data "Date")) months_ahead) as [Hle Heq].
  destruct (monthly_forecast _ _) as [monthly_data raised]. cbn [fst snd] in *.
  destruct raised; cbn [fst].
  - destruct (default_months now (seqZ 1 months_ahead) monthly_data) as [l|] eqn:Hd; [|done].
    apply default_months_ok in Hd as ->. intros [= <-]. cbn [monthly_predictions].
    rewrite length_app, length_fmap, length_seqZ. lia.
  - intros [= <-]. cbn [monthly_predictions]. rewrite Heq by done. lia.
Qed.

Lemma history_rows_none (data : DataFrame) :
  Forall (λ c, to_datetime c = CNaT) (column data "Date") → history_rows data = [].
Proof.
  unfold history_rows, column. intros Hall.
  induction (df_rows data) as [|r rows IH]; [done|].
  rewrite fmap_cons in Hall. apply Forall_cons in Hall as [Hr Hall].
  cbn [omap list_omap]. rewrite Hr. by apply IH.
Qed.

Lemma monthly_forecast_raises (data : DataFrame) (months_ahead : Z) :
  "Date" ∈ df_columns data →
  "Income" ∉ df_columns data ∨ "Expenses" ∉ df_columns data
  ∨ Forall (λ c, to_datetime c = CNaT) (column data "Date") →
  monthly_forecast (with_parsed_dates data) months_ahead = ([], true).
Proof.
  intros Hdate Hcause. unfold monthly_forecast, monthly_totals.
  rewrite (getitem_column (with_parsed_dates data) "Date") by done. cbn [result_bind].
  unfold getitem at 1. cbn [with_parsed_dates df_columns].
  case_bool_decide as Hi; [|done]. cbn [result_bind].
  destruct (result_mapM summand _) as [incomes|]; [|done]. cbn [result_bind].
  unfold getitem at 1. cbn [with_parsed_dates df_columns].
  case_bool_decide as He; [|done]. cbn [result_bind].
  destruct (result_mapM summand _) as [expenses|]; [|done]. cbn [result_bind].
  destruct Hcause as [?|[?|Hnat]]; [done..|].
  rewrite column_parsed_dates, (bool_decide_eq_true_2 ("Date" = "Date")) by done.
  assert (Hnone : dated_rows (to_datetime <$> column data "Date") incomes expenses = []).
  { clear -Hnat. unfold dated_rows. revert incomes expenses.
    induction Hnat as [|c dates Hc _ IH]; intros incomes expenses; [done|].
    rewrite fmap_cons, Hc.
    destruct incomes as [|qi incomes]; [done|]. destruct expenses as [|qe expenses]; [done|].
    cbn [zip zip_with omap list_omap fst]. apply IH. }
  by rewrite Hnone.
Qed.

(** X19: when the date test passes but the Income or the Expenses column is
    missing, or no date parses, the try block raises before it appends an
    entry; if the clock shows a year of four digits and can be moved
    [months_ahead] months ahead, the predictor then returns [months_ahead]
    entries of zeros with growth rate 0, labelled with the months that
    follow the current time. *)
Theorem generate_financial_predictions_fallback (now : Timestamp) (data : DataFrame)
    (months_ahead : Z) :
  df_empty data = false →
  NoDup (df_columns data) →
  "Date" ∈ df_columns data →
  forallb isna (column data "Date") = false →
  "Income" ∉ df_columns data ∨ "Expenses" ∉ df_columns data
  ∨ Forall (λ c, to_datetime c = CNaT) (column data "Date") →
  12000 ≤ month_index now →
  (∀ i, 1 ≤ i ≤ months_ahead → clock_offset_fits now i = true) →
  (generate_financial_predictions now (Some data) months_ahead).1
  = Ok {| forecast_summary := forecast_summary_text months_ahead;
          monthly_predictions :=
            (λ i, {| month := strftime_Ym (month_index now + i);
                     predicted_income := 0%Qc;
                     predicted_expenses := 0%Qc;
                     predicted_net := 0%Qc;
                     growth_rate := 0%Qc |}) <$> seqZ 1 months_ahead |}.
Proof.
  intros Hne _ Hdate Hna Hcause _ Hclock. unfold generate_financial_predictions.
  rewrite Hne, (getitem_column _ _ Hdate), Hna. cbn [negb].
  rewrite (setitem_parsed_dates _ Hne Hdate).
  rewrite (monthly_forecast_raises _ _ Hdate Hcause).
  rewrite default_months_all; [done|].
  apply Forall_forall. intros i Hi%elem_of_seqZ. apply Hclock. lia.
Qed.

(** The shape of a table the normalizer returns. *)
Lemma analyze_excel_data_output (now : Timestamp) (df : DataFrame)
    (m : gmap string (option string)) (out : DataFrame) :
  analyze_excel_data now df m = Ok out →
  df_columns out = canonical_columns
  ∧ Forall (λ r, ∃ t inc exp cat,
              r !! "Date" = Some (CDate t) ∧ r !! "Income" = Some (CNum inc)
              ∧ r !! "Expenses" = Some (CNum exp) ∧ r !! "Category" = Some (CStr cat))
      (df_rows out).
Proof.
  intros Hout. split.
  - rewrite analyze_excel_data_rows in Hout.
    destruct (columns_mapped_once df m && dates_fit now df m); [|done].
    by injection Hout as <-.
  - apply Forall_forall. intros r Hr.
    destruct (analyze_excel_data_row_origin _ _ _ _ _ Hout Hr) as (i & r_in & _ & -> & Hd).
    rewrite canonical_row_date in Hd.
    destruct (canonical_row_lookup now (df_len df) m i r_in) as (-> & -> & -> & -> & _).
    destruct (income_cell_num m r_in) as [inc ->].
    destruct (expenses_cell_num m r_in) as (exp & -> & _).
    unfold category_cell. destruct (clean_category_nonempty
      match mapped m "Category" with
      | Some c => row_get r_in c
      | None => CStr (classify_label (partial_row now (df_len df) m i r_in))
      end) as (cat & -> & _).
    assert (∃ t, date_cell now (df_len df) m i r_in = CDate t) as [t ->].
    { unfold date_cell in *. destruct (mapped m "Date") as [c|]; [|by eexists].
      destruct (to_datetime_cases (row_get r_in c)) as [E | [t E]]; rewrite E in *;
        [done|by eexists]. }
    by exists t, inc, exp, cat.
Qed.

Lemma output_numeric_column (data : DataFrame) (k : string) :
  k ∈ df_columns data →
  Forall (λ r, ∃ q, r !! k = Some (CNum q)) (df_rows data) →
  numeric_column data k.
Proof.
  intros Hk Hall. split; [done|]. unfold column. apply Forall_fmap.
  eapply Forall_impl; [exact Hall|]. intros r [q Hq]. cbn. unfold row_get. by rewrite Hq.
Qed.

Lemma history_rows_month (data : DataFrame) (mi : Z) :
  mi ∈ (history_rows data).*1 →
  ∃ r t, r ∈ df_rows data ∧ to_datetime (row_get r "Date") = CDate t ∧ mi = month_index t.
Proof.
  intros (x & -> & Hx)%list_elem_of_fmap. unfold history_rows in Hx.
  apply list_elem_of_omap in Hx as (r & Hr & Hx).
  destruct (to_datetime (row_get r "Date")) as [| | | | |t] eqn:Ht; try done.
  injection Hx as <-. by exists r, t.
Qed.

(** X22: on a table the normalizer returned, a forecast leaves the table as
    it was: the in-place conversion of the dates changes nothing.  When
    every record is dated in October 1677 or later and [months_ahead]
    months after each record end before April 2262, the forecast is the same
    at whatever time it is made: the except branch, which reads the clock,
    is not taken. *)
Theorem generate_financial_predictions_after_analyze (now now1 now2 : Timestamp)
    (df : DataFrame) (m : gmap string (option string)) (out : DataFrame)
    (months_ahead : Z) :
  analyze_excel_data now df m = Ok out →
  (generate_financial_predictions now1 (Some out) months_ahead).2 = Some out
  ∧ ((∀ r t, r ∈ df_rows out → r !! "Date" = Some (CDate t) →
        month_floor ≤ month_index t ∧ month_index t + months_ahead < month_limit) →
     generate_financial_predictions now1 (Some out) months_ahead
     = generate_financial_predictions now2 (Some out) months_ahead).
Proof.
  intros Hout. destruct (analyze_excel_data_output _ _ _ _ Hout) as [Hcols Hrows].
  split.
  - apply generate_financial_predictions_keeps_datetimes.
    eapply Forall_impl; [exact Hrows|]. intros r (t & inc & exp & cat & Hd & _).
    by exists (CDate t).
  - intros Hwindow. destruct (df_empty out) eqn:Hne.
    { unfold generate_financial_predictions. by rewrite Hne. }
    assert (Hdate : "Date" ∈ df_columns out) by (rewrite Hcols; compute_done).
    assert (Husable : ∃ c t, c ∈ column out "Date" ∧ to_datetime c = CDate t).
    { unfold df_empty in Hne. apply orb_false_iff in Hne as [_ Hr].
      apply bool_decide_eq_false_1 in Hr.
      destruct (df_rows out) as [|r rows] eqn:Erows; [done|].
      apply Forall_cons in Hrows as [(t & _ & _ & _ & Hd & _) _].
      exists (CDate t), t. split; [|done]. unfold column. rewrite Erows, fmap_cons.
      unfold row_get at 1. rewrite Hd. by left. }
    rewrite !(generate_financial_predictions_usable _ _ _ Hne Hdate Husable).
    destruct (monthly_forecast_history out months_ahead Hdate Husable)
      as (earliest & latest & Hlo & Hhi & _ & ->).
    + apply output_numeric_column; [rewrite Hcols; compute_done|].
      eapply Forall_impl; [exact Hrows|]. intros r (t & inc & exp & cat & _ & Hi & _).
      by exists inc.
    + apply output_numeric_column; [rewrite Hcols; compute_done|].
      eapply Forall_impl; [exact Hrows|]. intros r (t & inc & exp & cat & _ & _ & He & _).
      by exists exp.
    + assert (Hin : ∀ mi, mi ∈ (history_rows out).*1 →
                month_floor ≤ mi ∧ mi + months_ahead < month_limit).
      { intros mi (r & t & Hr & Ht & ->)%history_rows_month.
        rewrite Forall_forall in Hrows.
        destruct (Hrows r Hr) as (t' & _ & _ & _ & Hd & _).
        unfold row_get in Ht. rewrite Hd in Ht. injection Ht as <-.
        by apply (Hwindow r t'). }
      destruct (Hin earliest Hlo) as [Hfloor _]. destruct (Hin latest Hhi) as [_ Hlimit].
      rewrite (bool_decide_eq_true_2 _ Hfloor), predicted_months_all; [done|].
      apply Forall_forall. intros i Hi%elem_of_seqZ. lia.
Qed.

(** X23: on a table the normalizer returned, the aggregator never raises; when
    the table has a record it returns three insights and two
    recommendations, and the category of every record has an entry in
    [category_analysis]. *)
Theorem generate_ai_insights_after_analyze (now : Timestamp) (df : DataFrame)
    (m : gmap string (option string)) (out : DataFrame) :
  analyze_excel_data now df m = Ok out →
  ∃ a, generate_ai_insights (Some out) = Ok a
    ∧ (df_rows out ≠ [] →
       length (insights a) = 3%nat
       ∧ length (recommendations a) = 2%nat
       ∧ ∀ r cat, r ∈ df_rows out → r !! "Category" = Some (CStr cat) →
           is_Some (category_analysis a !! cat)).
Proof.
  intros Hout. destruct (analyze_excel_data_output _ _ _ _ Hout) as [Hcols Hrows].
  destruct (df_empty out) eqn:Hne.
  { exists no_data_analysis. unfold generate_ai_insights. rewrite Hne. split; [done|].
    intros Hr. unfold df_empty in Hne. rewrite Hcols in Hne.
    apply orb_true_iff in Hne as [Hc|Hc]; apply bool_decide_eq_true_1 in Hc; done. }
  assert (Hi : numeric_column out "Income").
  { apply output_numeric_column; [rewrite Hcols; compute_done|].
    eapply Forall_impl; [exact Hrows|]. intros r (t & inc & exp & cat & _ & Hi & _).
    by exists inc. }
  assert (He : numeric_column out "Expenses").
  { apply output_numeric_column; [rewrite Hcols; compute_done|].
    eapply Forall_impl; [exact Hrows|]. intros r (t & inc & exp & cat & _ & _ & He & _).
    by exists exp. }
  rewrite (generate_ai_insights_value out Hne Hi He).
  eexists. split; [done|]. intros _.
  cbn [insights recommendations category_analysis].
  rewrite (bool_decide_eq_true_2 ("Category" ∈ df_columns out))
    by (rewrite Hcols; compute_done).
  split; [by destruct (bool_decide (0 ≤ _)%Qc)|].
  split; [by destruct (bool_decide (_ < _)%Qc)|].
  intros r cat Hr Hcat. rewrite merge_categories_lookup.
  destruct (grouping_spec out "Expenses") as (_ & Hkeys & _).
  rewrite bool_decide_eq_true_2; [done|]. left. apply Hkeys.
  intros Hnil. assert (Hin : r ∈ category_rows out cat).
  { unfold category_rows. apply list_elem_of_filter. split; [|done].
    unfold row_get. rewrite Hcat. done. }
  rewrite Hnil in Hin. by inversion Hin.
Qed.

Lemma seqZ_prefix (m k' k : Z) :
  0 ≤ k' ≤ k → seqZ m k' = take (Z.to_nat k') (seqZ m k).
Proof.
  intros Hk. unfold seqZ. rewrite <- fmap_take, take_seq. do 2 f_equal. lia.
Qed.

Lemma monthly_forecast_prefix (data : DataFrame) (k' k : Z) :
  0 ≤ k' ≤ k →
  (monthly_forecast data k).2 = false →
  monthly_forecast data k' = (take (Z.to_nat k') (monthly_forecast data k).1, false).
Proof.
  intros Hk. unfold monthly_forecast.
  destruct (monthly_totals data) as [totals|]; [|done].
  destruct (last totals.*1) as [last_date|]; [|done].
  match goal with
  | |- context [ predicted_months ?l ?a ?e (seqZ 1 k) [] ] =>
      destruct (predicted_months_some l a e (seqZ 1 k) []) as (n & _ & Hb);
      pose proof (predicted_months_all l a e (seqZ 1 k) []) as Hall;
      pose proof (predicted_months_all l a e (seqZ 1 k') []) as Hall'
  end.
  intros Hf. specialize (Hb Hf). rewrite (Hall Hb), Hall'.
  - cbn [fst app]. by rewrite <- fmap_take, <- seqZ_prefix.
  - rewrite Forall_forall in Hb. apply Forall_forall.
    intros i Hi%elem_of_seqZ. apply Hb, elem_of_seqZ. lia.
Qed.

(** X24: on data with pairwise distinct column labels, when the forecast for
    [k] months does not end in the except branch, the forecast for fewer
    months does not either and is the beginning of the forecast for [k]
    months of the same data: asking for more months adds entries at the end
    and changes none. *)
Theorem generate_financial_predictions_prefix (now : Timestamp) (data : option DataFrame)
    (months k : Z) :
  (∀ frame, data = Some frame → NoDup (df_columns frame)) →
  0 ≤ months ≤ k →
  takes_fallback data k = false →
  ∃ f_months f_k,
    (generate_financial_predictions now data months).1 = Ok f_months
    ∧ (generate_financial_predictions now data k).1 = Ok f_k
    ∧ takes_fallback data months = false
    ∧ monthly_predictions f_months = take (Z.to_nat months) (monthly_predictions f_k).
Proof.
  intros _ Hk. unfold generate_financial_predictions, takes_fallback.
  destruct data as [data|];
    [|intros _; eexists _, _; repeat split; by destruct (Z.to_nat months)].
  destruct (df_empty data);
    [intros _; eexists _, _; repeat split; by destruct (Z.to_nat months)|].
  destruct (getitem data "Date") as [dates|];
    [|intros _; eexists _, _; repeat split; by destruct (Z.to_nat months)].
  destruct (negb (forallb isna dates));
    [|intros _; eexists _, _; repeat split; by destruct (Z.to_nat months)].
  cbn [negb andb]. intros Hf.
  rewrite (monthly_forecast_prefix _ months k Hk Hf).
  destruct (monthly_forecast _ k) as [monthly_data raised]. cbn [snd] in Hf. subst raised.
  cbn [fst snd result_bind]. by eexists _, _.
Qed.

(** The first loop over [n] consecutive indices from [lo] on: it gets
    through when the last month it asks for lies before [month_limit];
    otherwise it appends the entries for the months before [month_limit]
    and raises. *)
Lemma predicted_months_seqZ (last_date : Z) (avg_income avg_expenses : Qc)
    (n : nat) (lo : Z) (monthly_data : list Prediction) :
  predicted_months last_date avg_income avg_expenses (seqZ lo (Z.of_nat n)) monthly_data
  = if bool_decide (n = 0%nat ∨ last_date + lo + Z.of_nat n ≤ month_limit)
    then (monthly_data
          ++ (predicted_entry last_date avg_income avg_expenses <$> seqZ lo (Z.of_nat n)),
          false)
    else (monthly_data
          ++ (predicted_entry last_date avg_income avg_expenses
              <$> seqZ lo (month_limit - last_date - lo)),
          true).
Proof.
  revert lo monthly_data. induction n as [|n IH]; intros lo monthly_data.
  - rewrite bool_decide_eq_true_2 by by left. cbn. by rewrite app_nil_r.
  - rewrite (seqZ_cons lo) by lia. cbn [predicted_months].
    replace (Z.pred (Z.of_nat (S n))) with (Z.of_nat n) by lia.
    destruct (decide (last_date + lo < month_limit)) as [Hlo|Hlo].
    + rewrite (bool_decide_eq_true_2 _ Hlo), IH.
      destruct (decide (last_date + lo + Z.of_nat (S n) ≤ month_limit)) as [Hall|Hall].
      * rewrite bool_decide_eq_true_2 by (right; lia).
        rewrite (bool_decide_eq_true_2 (S n = 0%nat ∨ _)) by (by right).
        by rewrite fmap_cons, <- app_assoc.
      * rewrite bool_decide_eq_false_2 by lia.
        rewrite (bool_decide_eq_false_2 (S n = 0%nat ∨ _)) by lia.
        rewrite (seqZ_cons lo (month_limit - last_date - lo)) by lia.
        replace (Z.pred (month_limit - last_date - lo))
          with (month_limit - last_date - Z.succ lo) by lia.
        by rewrite fmap_cons, <- app_assoc.
    + rewrite (bool_decide_eq_false_2 _ Hlo).
      rewrite (bool_decide_eq_false_2 (S n = 0%nat ∨ _)) by lia.
      assert (Hnone : seqZ lo (month_limit - last_date - lo) = []).
      { unfold seqZ. by replace (Z.to_nat (month_limit - last_date - lo)) with 0%nat by lia. }
      rewrite Hnone. cbn. by rewrite app_nil_r.
Qed.

(** X30: the forecast runs into the last Timestamp.  For a non-empty record
    set with pairwise distinct column labels, a usable date, numeric Income
    and Expenses columns of whole amounts and every dated record in October
    1677 or later, when the month [months_ahead] months after the latest
    record is April 2262 or later, the try block raises in the middle of
    its loop: the entries it has appended so far, one for each month that
    ends before April 2262, stay in the list, and the except branch adds
    [months_ahead] entries of zeros, labelled from the clock, behind them
    (the clock showing a year of four digits and allowing to be moved that
    far).  The caller gets more than [months_ahead] entries, or
    [months_ahead] entries of zeros. *)
Theorem generate_financial_predictions_past_limit (now : Timestamp) (data : DataFrame)
    (months_ahead : Z) :
  df_empty data = false →
  NoDup (df_columns data) →
  "Date" ∈ df_columns data →
  (∃ c t, c ∈ column data "Date" ∧ to_datetime c = CDate t) →
  numeric_column data "Income" →
  numeric_column data "Expenses" →
  whole_amounts (column_numbers data "Income") = true →
  whole_amounts (column_numbers data "Expenses") = true →
  (∀ mi, mi ∈ (history_rows data).*1 → month_floor ≤ mi) →
  12000 ≤ month_index now →
  (∀ i, 1 ≤ i ≤ months_ahead → clock_offset_fits now i = true) →
  ∃ earliest latest : Z,
    earliest ∈ (history_rows data).*1
    ∧ latest ∈ (history_rows data).*1
    ∧ (∀ mi, mi ∈ (history_rows data).*1 → earliest ≤ mi ≤ latest)
    ∧ (month_limit ≤ latest + months_ahead →
       let avg_income :=
         float_div (Qc_sum (history_rows data).*2.*1) (Qc_of_Z (latest - earliest + 1)) in
       let avg_expenses :=
         float_div (Qc_sum (history_rows data).*2.*2) (Qc_of_Z (latest - earliest + 1)) in
       (generate_financial_predictions now (Some data) months_ahead).1
       = Ok {| forecast_summary := forecast_summary_text months_ahead;
               monthly_predictions :=
                 ((λ i, {| month := strftime_Ym (latest + i);
                           predicted_income :=
                             float_mul avg_income
                               (float_add 1 (float_mul (Qc_of_Z i) income_growth));
                           predicted_expenses :=
                             float_mul avg_expenses
                               (float_add 1 (float_mul (Qc_of_Z i) expenses_growth));
                           predicted_net :=
                             float_sub
                               (float_mul avg_income
                                  (float_add 1 (float_mul (Qc_of_Z i) income_growth)))
                               (float_mul avg_expenses
                                  (float_add 1 (float_mul (Qc_of_Z i) expenses_growth)));
                           growth_rate := income_growth |})
                  <$> seqZ 1 (month_limit - 1 - latest))
                 ++ ((λ i, {| month := strftime_Ym (month_index now + i);
                              predicted_income := 0%Qc;
                              predicted_expenses := 0%Qc;
                              predicted_net := 0%Qc;
                              growth_rate := 0%Qc |})
                     <$> seqZ 1 months_ahead) |}).
Proof.
  intros Hne _ Hdate Husable Hinc Hexp _ _ Hwindow _ Hclock.
  destruct (monthly_forecast_history data months_ahead Hdate Husable Hinc Hexp)
    as (earliest & latest & Hlo & Hhi & Hb & Hforecast).
  exists earliest, latest. split; [done|]. split; [done|]. split; [done|].
  intros Hlimit avg_income avg_expenses.
  rewrite (bool_decide_eq_true_2 _ (Hwindow earliest Hlo)) in Hforecast.
  destruct (decide (0 < months_ahead)) as [Hpos|Hpos].
  - replace months_ahead with (Z.of_nat (Z.to_nat months_ahead)) in Hforecast at 2 by lia.
    rewrite predicted_months_seqZ, bool_decide_eq_false_2 in Hforecast by lia.
    rewrite (generate_financial_predictions_usable _ _ _ Hne Hdate Husable), Hforecast.
    cbn [fst snd app]. rewrite default_months_all.
    + cbn [result_bind].
      by replace (month_limit - latest - 1) with (month_limit - 1 - latest) by lia.
    + apply Forall_forall. intros i Hi%elem_of_seqZ. apply Hclock. lia.
  - assert (Hnone : seqZ 1 months_ahead = []).
    { unfold seqZ. by replace (Z.to_nat months_ahead) with 0%nat by lia. }
    assert (Hnone' : seqZ 1 (month_limit - 1 - latest) = []).
    { unfold seqZ. by replace (Z.to_nat (month_limit - 1 - latest)) with 0%nat by lia. }
    rewrite Hnone in Hforecast. cbn [predicted_months] in Hforecast.
    rewrite (generate_financial_predictions_usable _ _ _ Hne Hdate Husable), Hforecast.
    by rewrite Hnone, Hnone'.
Qed.

End Facts.

(** ** The report and the application page *)

Section ReportFacts.
Context `{PyLib} `{ReportLib}.

Lemma result_mapM_Forall {A B} (f : A → result B) (l : list A) :
  Forall (λ x, ∃ y, f x = Ok y) l →
  ∃ l', result_mapM f l = Ok l'
    ∧ length l' = length l
    ∧ ∀ i y, l' !! i = Some y → ∃ x, l !! i = Some x ∧ f x = Ok y.
Proof.
  induction 1 as [|x l [y Hy] _ (l' & IH & Hlen & Hl')].
  - exists []. split; [done|]. split; [done|]. intros i y Hi. by destruct i.
  - exists (y :: l'). cbn [result_mapM]. rewrite Hy, IH. cbn [result_bind].
    split; [done|]. split; [cbn; by rewrite Hlen|].
    intros [|i] y'; cbn.
    + intros [= <-]. by exists x.
    + apply Hl'.
Qed.

Lemma take_min_length {A} (n : nat) (l : list A) :
  take (length l `min` n) l = take n l.
Proof.
  destruct (decide (length l ≤ n)%nat) as [Hle|Hgt].
  - rewrite Nat.min_l by done. by rewrite !take_ge by lia.
  - by rewrite Nat.min_r by lia.
Qed.

(** X25: the transactions table of the report is made from the first fifty
    records alone: the records after the fiftieth add no row to it and
    cannot make it fail. *)
Theorem table_data_first_fifty (cols : list string) (rows : list (gmap string cell)) :
  table_data (mkDataFrame cols rows) = table_data (mkDataFrame cols (take 50 rows)).
Proof.
  unfold table_data, columns_to_display, df_len. cbn [df_columns df_rows].
  by rewrite !take_min_length, take_take, Nat.min_id.
Qed.

Lemma table_cell_text (row : gmap string cell) (col : string) :
  col ∉ ["Income"; "Expenses"; "Net"] → ∃ s, table_cell row col = Ok s.
Proof.
  intros Hcol. unfold table_cell. rewrite (bool_decide_eq_false_2 _ Hcol). cbn [andb].
  destruct (bool_decide (col = "Date") && negb (isna (row_get row col))); by eexists.
Qed.

Lemma table_cell_amount (row : gmap string cell) (col : string) (q : Qc) :
  row !! col = Some (CNum q) → ∃ s, table_cell row col = Ok s.
Proof.
  intros Hq. unfold table_cell, row_get. rewrite Hq.
  change (default CNaN (Some (CNum q))) with (CNum q). cbn [isna negb cell_ne0].
  destruct (bool_decide (col ∈ ["Income"; "Expenses"; "Net"])),
    (bool_decide (q = 0%Qc)), (bool_decide (col = "Date"));
    cbn [andb negb format_amount py_str]; by eexists.
Qed.

Lemma columns_to_display_canonical (data : DataFrame) :
  df_columns data = canonical_columns →
  columns_to_display data = ["Date"; "Description"; "Category"; "Income"; "Expenses"; "Net"].
Proof. unfold columns_to_display. intros ->. by vm_compute. Qed.

(** X26: on a table the normalizer returned, the transactions table never
    fails: under the six translated headings it has one row of six texts for
    each of the first fifty records, in their order, and the first text of a
    row is the record's date as year-month-day. *)
Theorem table_data_after_analyze (now : Timestamp) (df : DataFrame)
    (m : gmap string (option string)) (out : DataFrame) :
  analyze_excel_data now df m = Ok out →
  ∃ rows,
    table_data out
    = Ok (["التاريخ"; "الوصف"; "الفئة"; "الإيرادات"; "المصروفات"; "الصافي"] :: rows)
    ∧ length rows = (length (df_rows out) `min` 50)%nat
    ∧ ∀ i row, rows !! i = Some row →
        length row = 6%nat
        ∧ ∃ r t, df_rows out !! i = Some r ∧ r !! "Date" = Some (CDate t)
                 ∧ row !! 0%nat = Some (strftime_Ymd t).
Proof.
  intros Hout. destruct (analyze_excel_data_output _ _ _ _ Hout) as [Hcols _].
  unfold table_data. rewrite (columns_to_display_canonical _ Hcols).
  assert (Hrows : Forall (λ r, ∃ t cells,
                    r !! "Date" = Some (CDate t)
                    ∧ result_mapM (table_cell r)
                        ["Date"; "Description"; "Category"; "Income"; "Expenses"; "Net"]
                      = Ok (strftime_Ymd t :: cells)
                    ∧ length cells = 5%nat) (df_rows out)).
  { apply Forall_forall. intros r Hr.
    destruct (analyze_excel_data_row_origin _ _ _ _ _ Hout Hr) as (i & r_in & _ & -> & Hd).
    rewrite canonical_row_date in Hd.
    destruct (canonical_row_lookup now (df_len df) m i r_in) as (Hdate & Hi & He & _ & Hn).
    destruct (income_cell_num m r_in) as [inc Einc].
    destruct (expenses_cell_num m r_in) as (exp & Eexp & _).
    rewrite Einc in Hi, Hn. rewrite Eexp in He, Hn. cbn [cell_sub] in Hn.
    assert (∃ t, date_cell now (df_len df) m i r_in = CDate t) as [t Et].
    { unfold date_cell in *. destruct (mapped m "Date") as [c|]; [|by eexists].
      destruct (to_datetime_cases (row_get r_in c)) as [E | [t E]]; rewrite E in *;
        [done|by eexists]. }
    rewrite Et in Hdate. exists t.
    set (r := canonical_row now (df_len df) m i r_in) in *.
    assert (Edate : table_cell r "Date" = Ok (strftime_Ymd t)).
    { unfold table_cell, row_get. rewrite Hdate.
      change (default CNaN (Some (CDate t))) with (CDate t). cbn [isna negb].
      rewrite (bool_decide_eq_false_2 ("Date" ∈ _)) by compute_done.
      by rewrite (bool_decide_eq_true_2 ("Date" = "Date")). }
    destruct (table_cell_text r "Description") as [s2 E2]; [compute_done|].
    destruct (table_cell_text r "Category") as [s3 E3]; [compute_done|].
    destruct (table_cell_amount r "Income" _ Hi) as [s4 E4].
    destruct (table_cell_amount r "Expenses" _ He) as [s5 E5].
    destruct (table_cell_amount r "Net" _ Hn) as [s6 E6].
    exists [s2; s3; s4; s5; s6]. split; [done|]. split; [|done].
    cbn [result_mapM]. by rewrite Edate, E2, E3, E4, E5, E6. }
  destruct (result_mapM_Forall
    (λ row, result_mapM (table_cell row)
              ["Date"; "Description"; "Category"; "Income"; "Expenses"; "Net"])
    (take (df_len out `min` 50) (df_rows out))) as (rows & -> & Hlen & Hget).
  { apply Forall_take. eapply Forall_impl; [exact Hrows|].
    intros r (t & cells & _ & -> & _). by eexists. }
  exists rows. cbn [result_bind]. split; [done|]. split.
  { rewrite Hlen, length_take. unfold df_len. lia. }
  intros i row Hi. destruct (Hget i row Hi) as (r & Hr & Hcells).
  apply lookup_take_Some in Hr as [Hr _].
  rewrite Forall_forall in Hrows.
  destruct (Hrows r (list_elem_of_lookup_2 _ _ _ Hr)) as (t & cells & Hd & Ecells & Hl).
  rewrite Ecells in Hcells. injection Hcells as <-.
  split; [cbn; by rewrite Hl|]. by exists r, t.
Qed.

(** X27: the report has a default where the aggregator has none: on a table
    with pairwise distinct column labels that lacks the Income column and
    has a numeric Expenses column of whole amounts (their magnitudes adding
    up to less than 2^53, so that the total is exact), the summary table
    does not fail; it shows a total income of 0 and a net income of minus
    the total expenses, next to the number of records. *)
Theorem summary_data_missing_income (data : DataFrame) :
  NoDup (df_columns data) →
  "Income" ∉ df_columns data →
  numeric_column data "Expenses" →
  whole_amounts (column_numbers data "Expenses") = true →
  summary_data data
  = Ok [["البند"; "القيمة"];
        ["إجمالي الإيرادات"; format_grouped_2f 0%Qc];
        ["إجمالي المصروفات"; format_grouped_2f (Qc_sum (column_numbers data "Expenses"))];
        ["صافي الدخل"; format_grouped_2f (0 - Qc_sum (column_numbers data "Expenses"))%Qc];
        ["عدد المعاملات"; pretty (Z.of_nat (length (df_rows data)))]].
Proof.
  intros _ Hmiss [Hec Hen] _. unfold summary_data, column_total.
  rewrite (bool_decide_eq_false_2 _ Hmiss), (bool_decide_eq_true_2 _ Hec).
  cbn [result_bind]. rewrite (getitem_column _ _ Hec). cbn [result_bind].
  unfold series_sum. rewrite (summand_numeric _ Hen). cbn [result_bind].
  done.
Qed.

Lemma generate_ai_insights_numeric (data : DataFrame) (a : Analysis) :
  df_empty data = false →
  generate_ai_insights (Some data) = Ok a →
  numeric_column data "Income" ∧ numeric_column data "Expenses".
Proof.
  intros Hne. unfold generate_ai_insights. rewrite Hne.
  assert (Hnum : ∀ col nums, result_mapM summand col = Ok nums →
            Forall (λ c, match c with CStr _ | CDate _ => False | _ => True end) col).
  { induction col as [|c col IH]; intros nums; [by constructor|]. cbn [result_mapM].
    destruct (summand c) eqn:Hc; [|done]. cbn [result_bind].
    destruct (result_mapM summand col) eqn:Hcol; [|done]. intros _.
    constructor; [by destruct c|by eapply IH]. }
  unfold getitem at 1. fold (column data "Income").
  destruct (decide ("Income" ∈ df_columns data)) as [Hi|Hi];
    [rewrite (bool_decide_eq_true_2 _ Hi)|by rewrite (bool_decide_eq_false_2 _ Hi)].
  cbn [result_bind]. unfold series_sum at 1.
  destruct (result_mapM summand (column data "Income")) as [incomes|] eqn:Hincomes; [|done].
  cbn [result_bind]. unfold getitem at 1. fold (column data "Expenses").
  destruct (decide ("Expenses" ∈ df_columns data)) as [He|He];
    [rewrite (bool_decide_eq_true_2 _ He)|by rewrite (bool_decide_eq_false_2 _ He)].
  cbn [result_bind]. unfold series_sum at 1.
  destruct (result_mapM summand (column data "Expenses")) as [expenses|] eqn:Hexpenses;
    [|done].
  intros _. split; (split; [done|]); by eapply Hnum.
Qed.

(** X28: in the analysis tab, the list under a heading is read from the entry
    of [category_analysis] whose key is the word the page looks up; since
    the aggregator keys its entries by category, the list is empty unless
    some record's category is that very word. *)
Theorem listed_categories_empty (data : DataFrame) (a : Analysis) (key : string) :
  generate_ai_insights (Some data) = Ok a →
  category_rows data key = [] →
  listed_categories a key = [].
Proof.
  intros Ha Hkey. unfold listed_categories. cbn zeta.
  assert (Hnone : category_analysis a !! key = None); [|by rewrite Hnone].
  destruct (df_empty data) eqn:Hne.
  { unfold generate_ai_insights in Ha. rewrite Hne in Ha. by injection Ha as <-. }
  destruct (generate_ai_insights_numeric _ _ Hne Ha) as [Hi He].
  rewrite (generate_ai_insights_value data Hne Hi He) in Ha. injection Ha as <-.
  cbn [category_analysis]. destruct (bool_decide ("Category" ∈ df_columns data)); [|done].
  rewrite merge_categories_lookup.
  destruct (grouping_spec data "Expenses") as (_ & Hke & _).
  destruct (grouping_spec data "Income") as (_ & Hki & _).
  rewrite bool_decide_eq_false_2; [done|]. rewrite Hke, Hki. tauto.
Qed.

Lemma Forall_filter_keep {A} (P Q : A → Prop) `{∀ x, Decision (P x)} (l : list A) :
  Forall Q l → Forall Q (filter P l).
Proof.
  rewrite !Forall_forall. intros Hall x [_ Hx]%list_elem_of_filter. by apply Hall.
Qed.

Lemma elem_of_keys_ascend (s : list (string * Qc)) (k : string) (v : Qc) :
  keys_ascend s → (k, v) ∈ s ↔ k ∈ s.*1 ∧ series_get s k = v.
Proof.
  induction s as [|[k1 v1] s IH]; cbn [keys_ascend].
  - intros _. split; [by inversion 1|]. intros [Hin _]. by inversion Hin.
  - intros [Hhead Hrest]. rewrite fmap_cons. cbn [fst series_get].
    rewrite !elem_of_cons, (IH Hrest). rewrite Forall_forall in Hhead. split.
    + intros [[= -> ->]|[Hin Hget]].
      * split; [by left|]. by rewrite bool_decide_eq_true_2.
      * split; [by right|]. rewrite bool_decide_eq_false_2; [done|].
        apply list_elem_of_fmap in Hin as ([k2 v2] & -> & Hin2).
        apply ltb_neq, (Hhead (k2, v2) Hin2).
    + intros [[->|Hin] Hget].
      * left. rewrite bool_decide_eq_true_2 in Hget by done. by rewrite Hget.
      * right. split; [done|]. rewrite bool_decide_eq_false_2 in Hget; [done|].
        apply list_elem_of_fmap in Hin as ([k2 v2] & -> & Hin2).
        apply ltb_neq, (Hhead (k2, v2) Hin2).
Qed.

Lemma positive_mask (rows : list (gmap string cell)) (c : string) :
  Forall (λ r, ∃ q, r !! c = Some (CNum q)) rows →
  ∃ mask, result_mapM cell_gt0 ((λ r, row_get r c) <$> rows) = Ok mask
    ∧ (filter (λ rb : gmap string cell * bool, rb.2 = true) (zip rows mask)).*1
      = filter (λ r, amount_positive r c = true) rows.
Proof.
  induction 1 as [|r rows [q Hq] _ (mask & Hmask & Hsel)].
  - by exists [].
  - exists (bool_decide (0 < q)%Qc :: mask). rewrite fmap_cons. cbn [result_mapM].
    unfold row_get at 1. rewrite Hq. cbn [default from_option id cell_gt0 result_bind].
    rewrite Hmask. cbn [result_bind]. split; [done|].
    assert (Hap : amount_positive r c = bool_decide (0 < q)%Qc).
    { unfold amount_positive. by rewrite Hq. }
    cbn [zip zip_with]. destruct (bool_decide (0 < q)%Qc) eqn:Hlt.
    + rewrite filter_cons_True by done. rewrite fmap_cons. cbn [fst].
      rewrite (filter_cons_True (λ r, amount_positive r c = true)) by done.
      by rewrite Hsel.
    + rewrite filter_cons_False by done.
      rewrite (filter_cons_False (λ r, amount_positive r c = true)) by by rewrite Hap.
      done.
Qed.

Lemma Qc_sum_nonneg (l : list Qc) : Forall (λ q, (0 ≤ q)%Qc) l → (0 ≤ Qc_sum l)%Qc.
Proof.
  induction 1 as [|q l Hq _ IH]; [done|].
  change (Qc_sum (q :: l)) with (q + Qc_sum l)%Qc.
  replace 0%Qc with (0 + 0)%Qc by ring. by apply Qcplus_le_compat.
Qed.

(** Leaving out the records without a positive amount changes no total of
    amounts that are never negative, and leaves a record exactly when the
    total is positive. *)
Lemma positive_rows_total (rows : list (gmap string cell)) (c : string) :
  Forall (λ r, ∃ q, r !! c = Some (CNum q) ∧ (0 ≤ q)%Qc) rows →
  Qc_sum ((λ r, cell_number (row_get r c))
            <$> filter (λ r, amount_positive r c = true) rows)
  = Qc_sum ((λ r, cell_number (row_get r c)) <$> rows)
  ∧ (0 ≤ Qc_sum ((λ r, cell_number (row_get r c)) <$> rows))%Qc
  ∧ (filter (λ r, amount_positive r c = true) rows ≠ []
     ↔ (0 < Qc_sum ((λ r, cell_number (row_get r c)) <$> rows))%Qc).
Proof.
  induction 1 as [|r rows (q & Hq & Hpos) _ (IHsum & IHpos & IHne)].
  - split; [done|]. split; [done|]. split; [done|]. by intros ?%Qclt_not_eq.
  - assert (Hap : amount_positive r c = bool_decide (0 < q)%Qc).
    { unfold amount_positive. by rewrite Hq. }
    assert (Hnum : cell_number (row_get r c) = q).
    { unfold row_get. by rewrite Hq. }
    rewrite (fmap_cons _ r rows), Hnum.
    change (Qc_sum (q :: ?l)) with (q + Qc_sum l)%Qc.
    assert (Hsum : (0 ≤ q + Qc_sum ((λ r, cell_number (row_get r c)) <$> rows))%Qc).
    { replace 0%Qc with (0 + 0)%Qc by ring. by apply Qcplus_le_compat. }
    destruct (decide (0 < q)%Qc) as [Hlt|Hnlt].
    + rewrite (filter_cons_True (λ r, amount_positive r c = true))
        by (rewrite Hap; by apply bool_decide_eq_true_2).
      rewrite fmap_cons, Hnum.
      change (Qc_sum (q :: ?l)) with (q + Qc_sum l)%Qc.
      rewrite IHsum. split; [done|]. split; [done|]. split; [|done]. intros _.
      eapply Qclt_le_trans; [exact Hlt|].
      replace q with (q + 0)%Qc at 1 by ring.
      apply Qcplus_le_compat; [apply Qcle_refl|done].
    + rewrite (filter_cons_False (λ r, amount_positive r c = true))
        by (rewrite Hap; by rewrite bool_decide_eq_false_2).
      assert (q = 0%Qc) as -> by (apply Qcle_antisym; [by apply Qcnot_lt_le|done]).
      rewrite IHsum, Qcplus_0_l. done.
Qed.

Lemma analyze_excel_data_expenses (now : Timestamp) (df : DataFrame)
    (m : gmap string (option string)) (out : DataFrame) :
  analyze_excel_data now df m = Ok out →
  Forall (λ r, ∃ q, r !! "Expenses" = Some (CNum q) ∧ (0 ≤ q)%Qc) (df_rows out).
Proof.
  intros Hout. apply Forall_forall. intros r Hr.
  destruct (analyze_excel_data_row_origin _ _ _ _ _ Hout Hr) as (i & r_in & _ & -> & _).
  destruct (canonical_row_lookup now (df_len df) m i r_in) as (_ & _ & -> & _).
  destruct (expenses_cell_num m r_in) as (q & -> & Hq). by exists q.
Qed.

(** X29: on a table the normalizer returned whose expenses are whole amounts
    (their magnitudes adding up to less than 2^53, so that no total wraps
    around or rounds off), the expenses pie of the charts tab agrees with
    the aggregator: its slices are exactly the categories whose entry in
    [category_analysis] has positive expenses, each with that amount. *)
Theorem positive_by_category_expenses (now : Timestamp) (df : DataFrame)
    (m : gmap string (option string)) (out : DataFrame) (a : Analysis) :
  analyze_excel_data now df m = Ok out →
  whole_amounts (column_numbers out "Expenses") = true →
  generate_ai_insights (Some out) = Ok a →
  ∃ chart, positive_by_category out "Expenses" = Ok chart
    ∧ ∀ k v, (k, v) ∈ chart
             ↔ ∃ entry, category_analysis a !! k = Some entry
                        ∧ expenses entry = v ∧ (0 < v)%Qc.
Proof.
  intros Hout _ Ha.
  destruct (analyze_excel_data_output _ _ _ _ Hout) as [Hcols Hrows].
  pose proof (analyze_excel_data_expenses _ _ _ _ Hout) as Hexp.
  assert (Hec : "Expenses" ∈ df_columns out) by (rewrite Hcols; compute_done).
  assert (Hcc : "Category" ∈ df_columns out) by (rewrite Hcols; compute_done).
  destruct (positive_mask (df_rows out) "Expenses") as (mask & Hmask & Hsel).
  { eapply Forall_impl; [exact Hexp|]. intros r (q & Hq & _). by exists q. }
  set (selected := {| df_columns := df_columns out;
                      df_rows := filter (λ r, amount_positive r "Expenses" = true)
                                   (df_rows out) |}).
  assert (Hchart : positive_by_category out "Expenses" = Ok (grouping selected "Expenses")).
  { unfold positive_by_category. rewrite (getitem_column _ _ Hec). cbn [result_bind].
    unfold column. rewrite Hmask. cbn [result_bind]. rewrite Hsel. fold selected.
    rewrite (getitem_column selected "Category") by done.
    rewrite (getitem_column selected "Expenses") by done. cbn [result_bind].
    apply groupby_sum_numeric, output_numeric_column; [done|].
    subst selected. cbn [df_rows]. apply Forall_filter_keep.
    eapply Forall_impl; [exact Hexp|]. intros r (q & Hq & _). by exists q. }
  exists (grouping selected "Expenses"). split; [done|]. intros k v.
  destruct (grouping_spec selected "Expenses") as (Hasc & Hkeys & Hget).
  rewrite (elem_of_keys_ascend _ _ _ Hasc), Hkeys, Hget.
  assert (Hrows_k : category_rows selected k
                    = filter (λ r, amount_positive r "Expenses" = true)
                        (category_rows out k)).
  { unfold category_rows, selected. cbn [df_rows].
    rewrite !list_filter_filter. apply list_filter_iff. intros r. tauto. }
  destruct (positive_rows_total (category_rows out k) "Expenses")
    as (Hsum & Hnonneg & Hne).
  { unfold category_rows. by apply Forall_filter_keep. }
  unfold category_total at 1. rewrite Hrows_k, Hsum, Hne.
  fold (category_total out "Expenses" k).
  assert (Hentry : category_analysis a !! k
                   = if bool_decide (category_rows out k = []) then None
                     else Some {| expenses := category_total out "Expenses" k;
                                  income := category_total out "Income" k;
                                  net := (category_total out "Income" k
                                          - category_total out "Expenses" k)%Qc |}).
  { destruct (df_empty out) eqn:Hempty.
    - unfold generate_ai_insights in Ha. rewrite Hempty in Ha. injection Ha as <-.
      cbn [category_analysis no_data_analysis]. rewrite lookup_empty.
      rewrite bool_decide_eq_true_2; [done|].
      unfold df_empty in Hempty. rewrite Hcols in Hempty.
      apply orb_true_iff in Hempty as [Hc|Hc]; apply bool_decide_eq_true_1 in Hc; [done|].
      unfold category_rows. by rewrite Hc.
    - destruct (generate_ai_insights_numeric _ _ Hempty Ha) as [Hi He].
      destruct (generate_ai_insights_category_totals_aux out Hempty Hi He Hcc)
        as (a' & Ha' & Hlookup).
      rewrite Ha in Ha'. injection Ha' as <-. apply Hlookup. }
  rewrite Hentry. split.
  - intros [Hpos <-]. rewrite bool_decide_eq_false_2.
    + eexists. split; [done|]. done.
    + intros Hnil. unfold category_total in Hpos. rewrite Hnil in Hpos.
      by apply Qclt_not_eq in Hpos.
  - intros (entry & He & <- & Hpos). case_bool_decide; [done|].
    injection He as <-. cbn [expenses] in *. done.
Qed.

End ReportFacts.

(** * The model at work on the sample tables *)

Ltac by_evaluation := apply (bool_decide_eq_true_1 _); vm_compute; reflexivity.

Example detect_sample :
  detect_excel_structure (H:=reference_lib) sample_df = sample_mapping.
Proof. by_evaluation. Qed.

Example analyze_sample :
  analyze_excel_data (H:=reference_lib) 0 sample_df sample_mapping = Ok sample_records.
Proof. by_evaluation. Qed.

Example classify_rent :
  classify_transactions (H:=reference_lib) rent_row = Ok "مصاريف إدارية".
Proof. by_evaluation. Qed.

Example insights_sample :
  insights <$> match generate_ai_insights (H:=reference_lib) (Some sample_records) with
               | Ok a => Some a
               | Raise => None
               end
  = Some ["التدفق النقدي إيجابي، مما يشير إلى حالة مالية جيدة.";
          "أكبر فئة مصروفات هي 'مصاريف إدارية' بقيمة 1200.00.";
          "أكبر فئة إيرادات هي 'رواتب' بقيمة 5000.00."].
Proof. by_evaluation. Qed.

Example forecast_sample :
  match (generate_financial_predictions (H:=reference_lib) 0 (Some sample_records) 3).1 with
  | Ok f =>
      (λ p, (month p, two_decimals (predicted_income p),
             two_decimals (predicted_expenses p), two_decimals (predicted_net p)))
      <$> monthly_predictions f
  | Raise => []
  end
  = [("2024-02", "5050.00", "1206.00", "3844.00");
     ("2024-03", "5100.00", "1212.00", "3888.00");
     ("2024-04", "5150.00", "1218.00", "3932.00")].
Proof. by_evaluation. Qed.

(** * The claims on concrete tables *)

(** C3, on the headers of [sample_df], which are pairwise distinct: the
    detected fields take different headers. *)
Lemma detect_excel_structure_mapping_witness :
  NoDup (df_columns sample_df)
  ∧ ∀ k1 k2 h,
      detect_excel_structure (H:=reference_lib) sample_df !! k1 = Some (Some h) →
      detect_excel_structure (H:=reference_lib) sample_df !! k2 = Some (Some h) → k1 = k2.
Proof.
  assert (Hnd : NoDup (df_columns sample_df)).
  { apply (bool_decide_unpack _). vm_compute. exact I. }
  split; [exact Hnd|].
  exact (proj2 (detect_excel_structure_mapping (H:=reference_lib) sample_df) Hnd).
Defined.

(** C3 as stated fails on a header list with a repeated header: the header
    "date in" is assigned both to Date and to Income. *)
Lemma detect_excel_structure_twin_headers :
  detect_excel_structure (H:=reference_lib) twin_headers_df !! "Date" = Some (Some "date in")
  ∧ detect_excel_structure (H:=reference_lib) twin_headers_df !! "Income"
    = Some (Some "date in")
  ∧ "Date" ≠ "Income".
Proof. repeat split; [vm_compute; reflexivity..|discriminate]. Qed.

(** C2, on the rent payment of the worked example. *)
Lemma classify_transactions_total_witness :
  ∃ label : string,
    classify_transactions (H:=reference_lib) rent_row = Ok label
    ∧ label ≠ ""
    ∧ (no_match_passes (H:=reference_lib) rent_row →
       label = if amount_positive rent_row "Income" then other_income_label
               else if amount_positive rent_row "Expenses" then other_expenses_label
               else uncategorized_label).
Proof.
  apply (classify_transactions_total (H:=reference_lib) rent_row); vm_compute; exact I.
Defined.



(** C4, on the worked example with its one unparsable date: two of the three
    rows are left, the salary among them. *)
Lemma analyze_excel_data_drops_unparsable_witness :
  ∃ out,
    analyze_excel_data (H:=reference_lib) 0 sample_df sample_mapping = Ok out
    ∧ (length (df_rows out) + 1 = length (df_rows sample_df))%nat
    ∧ ∃ r, r ∈ df_rows out
        ∧ r !! "Date" = Some (CDate 1705276800000000000)
        ∧ r !! "Description" = Some (CStr "Salary payment").
Proof.
  destruct (analyze_excel_data_drops_unparsable (H:=reference_lib) 0 sample_df
              sample_mapping "Date") as (out & Hout & _ & Hkept & _ & Hone).
  - vm_compute. reflexivity.
  - vm_compute. reflexivity.
  - exists out. split; [exact Hout|]. split.
    + apply Hone. vm_compute. reflexivity.
    + destruct (Hkept 0%nat
        (list_to_map [("Description", CStr "Salary payment");
                      ("Income", CNum (Qc_of_Z 5000)); ("Expenses", CNum 0%Qc);
                      ("Date", CStr "2024-01-15")]) 1705276800000000000)
        as (r & Hr & Hd & Hdesc); [vm_compute; reflexivity..|].
      exists r. split; [exact Hr|]. split; [exact Hd|]. exact Hdesc.
Defined.


(** The four cells of the Category column of [categories_df]: only [nan] and
    the empty text become the uncategorized label; [None] comes out as the
    text "None". *)
Example category_cleanup_cells :
  (λ r, r !! "Category")
  <$> match analyze_excel_data (H:=reference_lib) 0 categories_df categories_mapping with
      | Ok out => df_rows out
      | Raise => []
      end
  = [Some (CStr "None"); Some (CStr "غير مصنف"); Some (CStr "غير مصنف"); Some (CStr "Rent")].
Proof. by_evaluation. Qed.

(** C6, on a frame with the canonical columns and no rows. *)
Lemma generate_ai_insights_no_data_witness :
  ∃ a, generate_ai_insights (H:=reference_lib)
         (Some (mkDataFrame ["Date"; "Description"; "Income"; "Expenses"; "Category"; "Net"] []))
       = Ok a
    ∧ summary a = "لا توجد بيانات كافية للتحليل."
    ∧ category_analysis a = ∅
    ∧ (∃ insight, insights a = [insight])
    ∧ (∃ recommendation, recommendations a = [recommendation]).
Proof.
  apply (generate_ai_insights_no_data (H:=reference_lib)).
  right. eexists. split; [reflexivity|]. vm_compute. reflexivity.
Defined.



(** Likewise when no record has a category at all: the two groupings are
    empty and both insights are appended with the placeholder. *)
Example generate_ai_insights_no_category_key :
  ∃ a, generate_ai_insights (H:=reference_lib) (Some no_category_df) = Ok a
    ∧ category_analysis a = ∅
    ∧ insights a
      = ["التدفق النقدي إيجابي، مما يشير إلى حالة مالية جيدة.";
         "أكبر فئة مصروفات هي 'غير متوفر' بقيمة 0.00.";
         "أكبر فئة إيرادات هي 'غير متوفر' بقيمة 0.00."].
Proof.
  eexists. split; [vm_compute; reflexivity|]. split; by_evaluation.
Qed.





(** The except branch of the predictor (here entered because the frame has
    no Income column) labels its entries from the clock: January and February
    1970 give different answers. *)
Example generate_financial_predictions_fallback_reads_clock :
  match (generate_financial_predictions (H:=reference_lib) 0 (Some dates_only_df) 2).1 with
  | Ok f => month <$> monthly_predictions f
  | Raise => []
  end = ["1970-02"; "1970-03"]
  ∧ match (generate_financial_predictions (H:=reference_lib) (31 * ns_per_day)
             (Some dates_only_df) 2).1 with
    | Ok f => month <$> monthly_predictions f
    | Raise => []
    end = ["1970-03"; "1970-04"].
Proof. split; by_evaluation. Qed.

(** C9: the predictor writes into the frame it is given.  Called on a frame
    whose Date column holds the text "2024-01-15", it leaves the caller's
    frame with a Timestamp in that cell. *)
Theorem generate_financial_predictions_mutates_input :
  (λ r, r !! "Date") <$> df_rows text_dates_df = [Some (CStr "2024-01-15")]
  ∧ ∃ data',
      (generate_financial_predictions (H:=reference_lib) 0 (Some text_dates_df) 1).2
      = Some data'
      ∧ (λ r, r !! "Date") <$> df_rows data' = [Some (CDate 1705276800000000000)]
      ∧ data' ≠ text_dates_df.
Proof.
  split; [by_evaluation|]. eexists. split; [vm_compute; reflexivity|].
  split; [by_evaluation|]. apply (bool_decide_unpack _). vm_compute. exact I.
Qed.

(** The normalizer's output is left as it is: its Date column already holds
    Timestamps. *)
Example generate_financial_predictions_keeps_sample :
  (generate_financial_predictions (H:=reference_lib) 0 (Some sample_records) 3).2
  = Some sample_records.
Proof. by_evaluation. Qed.

(** * Further properties on concrete tables *)

(** The report's tables and the page's values for the worked example. *)
Example table_data_sample :
  table_data (H:=reference_lib) (H0:=reference_report_lib) sample_records
  = Ok [["التاريخ"; "الوصف"; "الفئة"; "الإيرادات"; "المصروفات"; "الصافي"];
        ["2024-01-15"; "Salary payment"; "رواتب"; "5,000.00"; "0"; "5,000.00"];
        ["2024-01-20"; "Office rent"; "مصاريف إدارية"; "0"; "1,200.00"; "-1,200.00"]].
Proof. vm_compute. reflexivity. Qed.

Example summary_data_sample :
  summary_data (H0:=reference_report_lib) sample_records
  = Ok [["البند"; "القيمة"];
        ["إجمالي الإيرادات"; "5,000.00"];
        ["إجمالي المصروفات"; "1,200.00"];
        ["صافي الدخل"; "3,800.00"];
        ["عدد المعاملات"; "2"]].
Proof. vm_compute. reflexivity. Qed.

(** X2: the Income field of the worked example goes to a header that contains an
    income keyword. *)
Lemma detect_excel_structure_sound_witness :
  detect_excel_structure (H:=reference_lib) sample_df !! "Income" = Some (Some "Income")
  ∧ header_matches (H:=reference_lib) (field_keywords "Income") "Income" = true.
Proof.
  assert (Hm : detect_excel_structure (H:=reference_lib) sample_df !! "Income"
               = Some (Some "Income")) by (vm_compute; reflexivity).
  split; [exact Hm|].
  exact (detect_excel_structure_sound (H:=reference_lib) sample_df "Income" "Income" Hm).
Defined.

(** X5: the rent payment is filed under an expense category, and its expenses
    are positive. *)
Lemma classify_transactions_side_witness :
  classify_transactions (H:=reference_lib) rent_row = Ok "مصاريف إدارية"
  ∧ amount_positive rent_row "Expenses" = true.
Proof.
  assert (Hc : classify_transactions (H:=reference_lib) rent_row = Ok "مصاريف إدارية")
    by (vm_compute; reflexivity).
  split; [exact Hc|].
  apply (proj1 (classify_transactions_side (H:=reference_lib) rent_row _ Hc)).
  vm_compute. reflexivity.
Defined.

(** X6: a record without any amount is uncategorized although its description
    names a salary. *)
Lemma classify_transactions_no_amount_witness :
  classify_transactions (H:=reference_lib) idle_row = Ok uncategorized_label.
Proof.
  apply (classify_transactions_no_amount (H:=reference_lib) idle_row);
    vm_compute; first [exact I | reflexivity].
Defined.

(** X7: the label of the rent payment is one of the fourteen. *)
Lemma classify_transactions_labels_witness :
  classify_transactions (H:=reference_lib) rent_row = Ok "مصاريف إدارية"
  ∧ "مصاريف إدارية" ∈ known_labels.
Proof.
  assert (Hc : classify_transactions (H:=reference_lib) rent_row = Ok "مصاريف إدارية")
    by (vm_compute; reflexivity).
  split; [exact Hc|].
  exact (classify_transactions_labels (H:=reference_lib) rent_row _ Hc).
Defined.

(** X9: the worked example normalizes to a table of the six columns. *)
Lemma analyze_excel_data_schema_witness :
  analyze_excel_data (H:=reference_lib) 0 sample_df sample_mapping = Ok sample_records
  ∧ df_columns sample_records
    = ["Date"; "Description"; "Income"; "Expenses"; "Category"; "Net"]
  ∧ ∀ r, r ∈ df_rows sample_records →
      dom r = {[ "Date"; "Description"; "Income"; "Expenses"; "Category"; "Net" ]}.
Proof.
  assert (Hout : analyze_excel_data (H:=reference_lib) 0 sample_df sample_mapping
                 = Ok sample_records) by by_evaluation.
  split; [exact Hout|].
  exact (analyze_excel_data_schema (H:=reference_lib) 0 sample_df sample_mapping _ Hout).
Defined.

(** X10: the refund table has no Date column: its one row is kept and dated with
    the current time. *)
Lemma analyze_excel_data_default_dates_witness :
  ∃ out, analyze_excel_data (H:=reference_lib) 0 refund_df refund_mapping = Ok out
    ∧ length (df_rows out) = length (df_rows refund_df)
    ∧ ∀ (i : nat) r, df_rows out !! i = Some r →
        r !! "Date"
        = Some (CDate (0 - (Z.of_nat (length (df_rows refund_df)) - 1 - Z.of_nat i)
                           * ns_per_day)).
Proof.
  apply (analyze_excel_data_default_dates (H:=reference_lib) 0 refund_df refund_mapping).
  - vm_compute. reflexivity.
  - vm_compute. reflexivity.
  - apply (bool_decide_unpack _). vm_compute. exact I.
  - apply (bool_decide_unpack _). vm_compute. exact I.
Defined.

(** X11: the normalized worked example, normalized again a day later. *)
Lemma analyze_excel_data_idempotent_witness :
  analyze_excel_data (H:=reference_lib) 0 sample_df sample_mapping = Ok sample_records
  ∧ analyze_excel_data (H:=reference_lib) ns_per_day sample_records canonical_mapping
    = Ok sample_records.
Proof.
  assert (Hout : analyze_excel_data (H:=reference_lib) 0 sample_df sample_mapping
                 = Ok sample_records) by by_evaluation.
  split; [exact Hout|].
  exact (analyze_excel_data_idempotent (H:=reference_lib) 0 ns_per_day sample_df
           sample_mapping _ Hout).
Defined.

(** X12: the worked example under the mapping detected for it. *)
Lemma analyze_excel_data_after_detect_witness :
  NoDup (df_columns sample_df)
  ∧ ∃ out,
      analyze_excel_data (H:=reference_lib) 0 sample_df
        (detect_excel_structure (H:=reference_lib) sample_df) = Ok out
      ∧ (length (df_rows out) ≤ length (df_rows sample_df))%nat.
Proof.
  assert (Hnd : NoDup (df_columns sample_df)).
  { apply (bool_decide_unpack _). vm_compute. exact I. }
  split; [exact Hnd|].
  apply (analyze_excel_data_after_detect (H:=reference_lib) 0 sample_df Hnd).
  intros Hd. vm_compute in Hd. discriminate.
Defined.

(** X13: the category derived for the rent payment of the worked example. *)
Lemma analyze_excel_data_derived_categories_witness :
  ∃ label, rent_record !! "Category" = Some (CStr label)
    ∧ label ∈ known_labels
    ∧ (is_expense_category label = true →
       ∃ q, rent_record !! "Expenses" = Some (CNum q) ∧ (0 < q)%Qc).
Proof.
  apply (analyze_excel_data_derived_categories (H:=reference_lib) 0 sample_df
           sample_mapping sample_records rent_record).
  - vm_compute. reflexivity.
  - by_evaluation.
  - apply elem_of_cons. right. apply elem_of_cons. by left.
Defined.



(** X16: the worked example earns more than it spends. *)
Lemma generate_ai_insights_flow_witness :
  ∃ a, generate_ai_insights (H:=reference_lib) (Some sample_records) = Ok a
    ∧ head (insights a) = Some positive_flow_insight
    ∧ recommendations a = positive_recommendations.
Proof.
  destruct (generate_ai_insights_flow (H:=reference_lib) sample_records)
    as (a & Ha & Hflow).
  - reflexivity.
  - apply (bool_decide_unpack _). vm_compute. exact I.
  - split; [apply (bool_decide_unpack _); vm_compute; exact I|].
    vm_compute. repeat constructor.
  - split; [apply (bool_decide_unpack _); vm_compute; exact I|].
    vm_compute. repeat constructor.
  - vm_compute. reflexivity.
  - rewrite bool_decide_eq_true_2 in Hflow by (vm_compute; discriminate).
    exists a. split; [exact Ha|]. exact (proj2 Hflow).
Defined.

(** X17: a table of dates alone has no Income column. *)
Lemma generate_ai_insights_missing_column_witness :
  generate_ai_insights (H:=reference_lib) (Some dates_only_df) = Raise.
Proof.
  apply (generate_ai_insights_missing_column (H:=reference_lib) dates_only_df).
  - reflexivity.
  - left. apply (bool_decide_unpack _). vm_compute. exact I.
Defined.

(** X18: the record dated 2262-01-15, forecast three months ahead at the epoch:
    five entries, between three and six. *)
Lemma generate_financial_predictions_length_witness :
  ∃ f, (generate_financial_predictions (H:=reference_lib) 0 (Some late_df) 3).1 = Ok f
    ∧ length (monthly_predictions f) = 5%nat
    ∧ (Z.to_nat 3 ≤ length (monthly_predictions f) ≤ 2 * Z.to_nat 3)%nat.
Proof.
  destruct (generate_financial_predictions (H:=reference_lib) 0 (Some late_df) 3).1
    as [f|] eqn:Hf; [|vm_compute in Hf; discriminate].
  exists f. split; [reflexivity|]. split.
  - vm_compute in Hf. injection Hf as <-. reflexivity.
  - pose proof (generate_financial_predictions_length (H:=reference_lib) 0 (Some late_df)
                  3 f) as Hlen.
    assert (Hdates : has_dates (Some late_df) = true) by (vm_compute; reflexivity).
    rewrite Hdates in Hlen. apply Hlen; [|exact Hf].
    intros frame [= <-]. apply (bool_decide_unpack _). vm_compute. exact I.
Defined.

(** X19: the table of dates alone, forecast two months ahead at the epoch. *)
Lemma generate_financial_predictions_fallback_witness :
  (generate_financial_predictions (H:=reference_lib) 0 (Some dates_only_df) 2).1
  = Ok {| forecast_summary := forecast_summary_text 2;
          monthly_predictions :=
            (λ i, {| month := strftime_Ym (month_index 0 + i);
                     predicted_income := 0%Qc;
                     predicted_expenses := 0%Qc;
                     predicted_net := 0%Qc;
                     growth_rate := 0%Qc |}) <$> seqZ 1 2 |}.
Proof.
  apply (generate_financial_predictions_fallback (H:=reference_lib) 0 dates_only_df 2).
  - reflexivity.
  - apply (bool_decide_unpack _). vm_compute. exact I.
  - apply (bool_decide_unpack _). vm_compute. exact I.
  - reflexivity.
  - left. apply (bool_decide_unpack _). vm_compute. exact I.
  - apply (bool_decide_unpack _). vm_compute. exact I.
  - intros i Hi. apply bool_decide_eq_true_2.
    change (month_index 0) with 23640. unfold month_limit. lia.
Defined.

(** X24: the forecast of the worked example for one month begins its forecast
    for three months. *)
Lemma generate_financial_predictions_prefix_witness :
  ∃ f_months f_k,
    (generate_financial_predictions (H:=reference_lib) 0 (Some sample_records) 1).1
    = Ok f_months
    ∧ (generate_financial_predictions (H:=reference_lib) 0 (Some sample_records) 3).1
      = Ok f_k
    ∧ takes_fallback (H:=reference_lib) (Some sample_records) 1 = false
    ∧ monthly_predictions f_months = take (Z.to_nat 1) (monthly_predictions f_k).
Proof.
  apply (generate_financial_predictions_prefix (H:=reference_lib) 0 (Some sample_records)
           1 3).
  - intros frame [= <-]. apply (bool_decide_unpack _). vm_compute. exact I.
  - lia.
  - vm_compute. reflexivity.
Defined.

(** X22: the normalized worked example, forecast at two different times. *)
Lemma generate_financial_predictions_after_analyze_witness :
  analyze_excel_data (H:=reference_lib) 0 sample_df sample_mapping = Ok sample_records
  ∧ (generate_financial_predictions (H:=reference_lib) 0 (Some sample_records) 3).2
    = Some sample_records
  ∧ generate_financial_predictions (H:=reference_lib) 0 (Some sample_records) 3
    = generate_financial_predictions (H:=reference_lib) ns_per_day (Some sample_records) 3.
Proof.
  assert (Hout : analyze_excel_data (H:=reference_lib) 0 sample_df sample_mapping
                 = Ok sample_records) by by_evaluation.
  split; [exact Hout|].
  destruct (generate_financial_predictions_after_analyze (H:=reference_lib) 0 0 ns_per_day
              sample_df sample_mapping _ 3 Hout) as [Hkeep Hclock].
  split; [exact Hkeep|]. apply Hclock. intros r t Hr Hd.
  assert (Ht : month_index t = 24288).
  { apply elem_of_cons in Hr as [->|Hr].
    - vm_compute in Hd. injection Hd as <-. reflexivity.
    - apply elem_of_cons in Hr as [->|Hr]; [|by inversion Hr].
      vm_compute in Hd. injection Hd as <-. reflexivity. }
  rewrite Ht. unfold month_floor, month_limit. lia.
Defined.

(** X30: the record dated 2262-01-15, forecast three months ahead at the epoch:
    February and March 2262 are predicted, then the three entries of the
    except branch follow. *)
Lemma generate_financial_predictions_past_limit_witness :
  (generate_financial_predictions (H:=reference_lib) 0 (Some late_df) 3).1
  = Ok {| forecast_summary := forecast_summary_text 3;
          monthly_predictions :=
            [ {| month := "2262-02"; predicted_income := Qc_of_Z 101;
                 predicted_expenses := 0%Qc; predicted_net := Qc_of_Z 101;
                 growth_rate := income_growth |};
              {| month := "2262-03"; predicted_income := Qc_of_Z 102;
                 predicted_expenses := 0%Qc; predicted_net := Qc_of_Z 102;
                 growth_rate := income_growth |};
              {| month := "1970-02"; predicted_income := 0%Qc;
                 predicted_expenses := 0%Qc; predicted_net := 0%Qc;
                 growth_rate := 0%Qc |};
              {| month := "1970-03"; predicted_income := 0%Qc;
                 predicted_expenses := 0%Qc; predicted_net := 0%Qc;
                 growth_rate := 0%Qc |};
              {| month := "1970-04"; predicted_income := 0%Qc;
                 predicted_expenses := 0%Qc; predicted_net := 0%Qc;
                 growth_rate := 0%Qc |} ] |}.
Proof.
  assert (Hmonths : (history_rows (H:=reference_lib) late_df).*1 = [27144])
    by (vm_compute; reflexivity).
  destruct (generate_financial_predictions_past_limit (H:=reference_lib) 0 late_df 3)
    as (earliest & latest & Hlo & Hhi & _ & Hforecast).
  - reflexivity.
  - apply (bool_decide_unpack _). vm_compute. exact I.
  - apply (bool_decide_unpack _). vm_compute. exact I.
  - exists (CDate (days_from_civil 2262 1 15 * ns_per_day)),
      (days_from_civil 2262 1 15 * ns_per_day). split; [|reflexivity].
    apply (bool_decide_unpack _). vm_compute. exact I.
  - split; [apply (bool_decide_unpack _); vm_compute; exact I|].
    vm_compute. repeat constructor.
  - split; [apply (bool_decide_unpack _); vm_compute; exact I|].
    vm_compute. repeat constructor.
  - vm_compute. reflexivity.
  - vm_compute. reflexivity.
  - intros mi Hmi. rewrite Hmonths in Hmi. apply list_elem_of_singleton in Hmi as ->.
    unfold month_floor. lia.
  - apply (bool_decide_unpack _). vm_compute. exact I.
  - intros i Hi. apply bool_decide_eq_true_2.
    change (month_index 0) with 23640. unfold month_limit. lia.
  - rewrite Hmonths in Hlo, Hhi.
    apply list_elem_of_singleton in Hlo as ->. apply list_elem_of_singleton in Hhi as ->.
    rewrite Hforecast by (unfold month_limit; lia). by_evaluation.
Defined.

(** X23: the normalized worked example, analysed. *)
Lemma generate_ai_insights_after_analyze_witness :
  analyze_excel_data (H:=reference_lib) 0 sample_df sample_mapping = Ok sample_records
  ∧ ∃ a, generate_ai_insights (H:=reference_lib) (Some sample_records) = Ok a
      ∧ (df_rows sample_records ≠ [] →
         length (insights a) = 3%nat
         ∧ length (recommendations a) = 2%nat
         ∧ ∀ r cat, r ∈ df_rows sample_records → r !! "Category" = Some (CStr cat) →
             is_Some (category_analysis a !! cat)).
Proof.
  assert (Hout : analyze_excel_data (H:=reference_lib) 0 sample_df sample_mapping
                 = Ok sample_records) by by_evaluation.
  split; [exact Hout|].
  exact (generate_ai_insights_after_analyze (H:=reference_lib) 0 sample_df
           sample_mapping _ Hout).
Defined.

(** X26: the transactions table of the normalized worked example. *)
Lemma table_data_after_analyze_witness :
  analyze_excel_data (H:=reference_lib) 0 sample_df sample_mapping = Ok sample_records
  ∧ ∃ rows,
      table_data (H:=reference_lib) (H0:=reference_report_lib) sample_records
      = Ok (["التاريخ"; "الوصف"; "الفئة"; "الإيرادات"; "المصروفات"; "الصافي"] :: rows)
      ∧ length rows = (length (df_rows sample_records) `min` 50)%nat
      ∧ ∀ i row, rows !! i = Some row →
          length row = 6%nat
          ∧ ∃ r t, df_rows sample_records !! i = Some r ∧ r !! "Date" = Some (CDate t)
                   ∧ row !! 0%nat = Some (strftime_Ymd (ReportLib:=reference_report_lib) t).
Proof.
  assert (Hout : analyze_excel_data (H:=reference_lib) 0 sample_df sample_mapping
                 = Ok sample_records) by by_evaluation.
  split; [exact Hout|].
  exact (table_data_after_analyze (H:=reference_lib) (H0:=reference_report_lib) 0
           sample_df sample_mapping _ Hout).
Defined.

(** X27: the summary table of a table without an Income column. *)
Lemma summary_data_missing_income_witness :
  summary_data (H0:=reference_report_lib) expenses_only_df
  = Ok [["البند"; "القيمة"];
        ["إجمالي الإيرادات"; format_grouped_2f (ReportLib:=reference_report_lib) 0%Qc];
        ["إجمالي المصروفات";
         format_grouped_2f (ReportLib:=reference_report_lib)
           (Qc_sum (column_numbers expenses_only_df "Expenses"))];
        ["صافي الدخل";
         format_grouped_2f (ReportLib:=reference_report_lib)
           (0 - Qc_sum (column_numbers expenses_only_df "Expenses"))%Qc];
        ["عدد المعاملات"; pretty (Z.of_nat (length (df_rows expenses_only_df)))]].
Proof.
  apply (summary_data_missing_income (H0:=reference_report_lib) expenses_only_df).
  - apply (bool_decide_unpack _). vm_compute. exact I.
  - apply (bool_decide_unpack _). vm_compute. exact I.
  - split; [apply (bool_decide_unpack _); vm_compute; exact I|].
    vm_compute. repeat constructor.
  - vm_compute. reflexivity.
Defined.

(** X28: no record of the worked example has the category "income": the page
    lists nothing under its income heading, although the analysis has an
    entry for each of the two categories. *)
Lemma listed_categories_empty_witness :
  ∃ a, generate_ai_insights (H:=reference_lib) (Some sample_records) = Ok a
    ∧ category_rows (H:=reference_lib) sample_records "income" = []
    ∧ listed_categories a "income" = [].
Proof.
  destruct (generate_ai_insights (H:=reference_lib) (Some sample_records)) as [a|] eqn:Ha;
    [|vm_compute in Ha; discriminate].
  assert (Hkey : category_rows (H:=reference_lib) sample_records "income" = [])
    by (vm_compute; reflexivity).
  exists a. split; [reflexivity|]. split; [exact Hkey|].
  exact (listed_categories_empty (H:=reference_lib) sample_records a "income" Ha Hkey).
Defined.

(** X29: the expenses pie of the normalized worked example. *)
Lemma positive_by_category_expenses_witness :
  analyze_excel_data (H:=reference_lib) 0 sample_df sample_mapping = Ok sample_records
  ∧ ∃ a chart,
      generate_ai_insights (H:=reference_lib) (Some sample_records) = Ok a
      ∧ positive_by_category (H:=reference_lib) sample_records "Expenses" = Ok chart
      ∧ ∀ k v, (k, v) ∈ chart
               ↔ ∃ entry, category_analysis a !! k = Some entry
                          ∧ expenses entry = v ∧ (0 < v)%Qc.
Proof.
  assert (Hout : analyze_excel_data (H:=reference_lib) 0 sample_df sample_mapping
                 = Ok sample_records) by by_evaluation.
  split; [exact Hout|].
  destruct (generate_ai_insights (H:=reference_lib) (Some sample_records)) as [a|] eqn:Ha;
    [|vm_compute in Ha; discriminate].
  assert (Hwhole : whole_amounts (column_numbers sample_records "Expenses") = true)
    by (vm_compute; reflexivity).
  destruct (positive_by_category_expenses (H:=reference_lib) 0 sample_df sample_mapping
              sample_records a Hout Hwhole Ha) as (chart & Hchart & Hslices).
  by exists a, chart.
Defined.

(** The pie of the worked example has the one slice of the rent. *)
Example positive_by_category_sample :
  positive_by_category (H:=reference_lib) sample_records "Expenses"
  = Ok [("مصاريف إدارية", Qc_of_Z 1200)].
Proof. by_evaluation. Qed.
